(** * Capital Flow Advisory dashboard script: market-data pipeline

    A shallow embedding of [src/js/script.js] (and of the second copy of
    the script kept under [src/unnamed/part_000]) together with the part
    of the JavaScript run-time library the script calls.

    - [Num]     : IEEE binary64 numbers on top of [SpecFloat], with
                  [Math.round], [Number::toString] and [toFixed];
    - [Js]      : data values, coercions, operators, [parseFloat],
                  [String.prototype.replace];
    - [Dom]     : the elements the script looks up, as presentation
                  sinks;
    - [Script]  : the rendering functions and [fetchMarketData] of
                  [src/js/script.js], in source order;
    - [Part000] : [fetchMarketData] of the copy under
                  [src/unnamed/part_000];
    - [Menu], [Reveal], [Load] : the menu toggle, the scroll reveal and
                  the initial load (sections 1, 2 and 5 of the script);
    - the vocabulary of the properties, then the properties.

    Not modelled: the console, the HTML parser (markup is kept as
    text), the network (its outcome is an argument) and the charting
    library (what [new Chart] does is an argument). *)

From Stdlib Require Import ZArith QArith Qround Qpower Bool List Lia.
From Stdlib Require Import Ascii String DecimalString.
From Stdlib Require Import Floats.SpecFloat.
Import ListNotations.

Local Open Scope string_scope.
Local Open Scope Z_scope.

(* ===================================================================== *)
(** * Numbers: IEEE 754 binary64 *)
(* ===================================================================== *)

Module Num.

Definition prec : Z := 53.
Definition emax : Z := 1024.

(** A JavaScript Number. *)
Definition number : Type := spec_float.

Definition nan : number := S754_nan.
Definition pos_zero : number := S754_zero false.
Definition add : number -> number -> number := SFadd prec emax.
Definition mul : number -> number -> number := SFmul prec emax.
Definition div : number -> number -> number := SFdiv prec emax.

(** The Number nearest to an integer (ties to even). *)
Definition of_Z (z : Z) : number := binary_normalize prec emax z 0 false.

(** The Number nearest to [m * 10^e], with sign [neg]; [m = 0] gives a
    signed zero. *)
Definition of_decimal (neg : bool) (m : N) (e : Z) : number :=
  match m with
  | N0 => S754_zero neg
  | Npos p =>
      if 0 <=? e
      then binary_normalize prec emax
             (cond_Zopp neg (Zpos p * 10 ^ e)) 0 false
      else div (S754_finite neg p 0)
               (S754_finite false (Z.to_pos (10 ^ (- e))) 0)
  end.

Definition is_nonfinite (x : number) : bool :=
  match x with
  | S754_nan | S754_infinity _ => true
  | _ => false
  end.

Definition is_zero_or_nan (x : number) : bool :=
  match x with
  | S754_nan | S754_zero _ => true
  | _ => false
  end.

(** [Math.round]: the nearest integer, ties towards +Infinity; a
    negative argument that rounds to zero gives -0. *)
Definition round (x : number) : number :=
  match x with
  | S754_finite s m e =>
      if 0 <=? e then x
      else binary_normalize prec emax
             (Z.shiftr (2 * cond_Zopp s (Zpos m) + 2 ^ (- e)) (- e + 1)) 0 s
  | _ => x
  end.

(** ** Decimal digits *)

Definition digits_of_N (n : N) : string :=
  NilZero.string_of_uint (N.to_uint n).

Definition digits_of_Z (z : Z) : string :=
  match z with
  | Zneg p => "-" ++ digits_of_N (Npos p)
  | _ => digits_of_N (Z.to_N z)
  end.

Fixpoint zeros (n : nat) : string :=
  match n with
  | O => ""
  | S n' => String "0" (zeros n')
  end.

Fixpoint rev_string (s acc : string) : string :=
  match s with
  | EmptyString => acc
  | String c s' => rev_string s' (String c acc)
  end.

Fixpoint drop_zeros (s : string) : string :=
  match s with
  | String "0" s' => drop_zeros s'
  | _ => s
  end.

Definition strip_trailing_zeros (s : string) : string :=
  rev_string (drop_zeros (rev_string s "")) "".

Definition strlen (s : string) : Z := Z.of_nat (String.length s).

(** ** [Number::toString] (radix 10)

    For a finite non-zero number the digits are the shortest decimal
    that reads back as the same number, the closest one when several
    have that length. *)

Section Shortest.
Variables (m : positive) (e : Z).

Definition value : Q := Qmult (inject_Z (Zpos m)) (Qpower 2 e).

(** Half the distance to the next number above and below. *)
Definition half_up : Q := Qpower 2 (e - 1).
Definition half_down : Q :=
  if (Pos.eqb m (2 ^ 52)) && (-1074 <? e)
  then Qpower 2 (e - 2) else Qpower 2 (e - 1).

(** Does the rational [c] round to this number? *)
Definition reads_back (c : Q) : bool :=
  if Z.even (Zpos m)
  then Qle_bool (Qminus value half_down) c
       && Qle_bool c (Qplus value half_up)
  else negb (Qle_bool c (Qminus value half_down))
       && negb (Qle_bool (Qplus value half_up) c).

(** The [n] with [10^(n-1) <= value < 10^n]. *)
Definition decimal_exponent : Z :=
  if Qle_bool 1 value
  then strlen (digits_of_Z (Qfloor value))
  else 1 - strlen (digits_of_Z (Qceiling (Qinv value) - 1)).

(** Search for the least number of digits [k], from [k] upwards. *)
Fixpoint shortest_from (fuel : nat) (k : Z) : Z * Z :=
  let p := decimal_exponent - k in
  let lo := Qfloor (Qdiv value (Qpower 10 p)) in
  let hi := lo + 1 in
  let clo := Qmult (inject_Z lo) (Qpower 10 p) in
  let chi := Qmult (inject_Z hi) (Qpower 10 p) in
  let closest :=
    match Qcompare (Qminus value clo) (Qminus chi value) with
    | Lt => lo
    | Gt => hi
    | Eq => if Z.even lo then lo else hi
    end in
  match fuel with
  | O => (closest, p)
  | S fuel' =>
      match reads_back clo, reads_back chi with
      | true, true => (closest, p)
      | true, false => (lo, p)
      | false, true => (hi, p)
      | false, false => shortest_from fuel' (k + 1)
      end
  end.

Definition shortest : Z * Z := shortest_from 16 1.

Definition finite_to_string : string :=
  let '(s, p) := shortest in
  let all := digits_of_Z s in
  let n := p + strlen all in
  let ds := strip_trailing_zeros all in
  let k := strlen ds in
  if (k <=? n) && (n <=? 21) then
    ds ++ zeros (Z.to_nat (n - k))
  else if (0 <? n) && (n <=? 21) then
    substring 0 (Z.to_nat n) ds ++ "." ++
    substring (Z.to_nat n) (Z.to_nat (k - n)) ds
  else if (-6 <? n) && (n <=? 0) then
    "0." ++ zeros (Z.to_nat (- n)) ++ ds
  else
    let ex := (if 0 <? n - 1 then "+" else "-")
              ++ digits_of_Z (Z.abs (n - 1)) in
    if k =? 1 then ds ++ "e" ++ ex
    else substring 0 1 ds ++ "." ++
         substring 1 (Z.to_nat (k - 1)) ds ++ "e" ++ ex.
End Shortest.

Definition to_string (x : number) : string :=
  match x with
  | S754_nan => "NaN"
  | S754_zero _ => "0"
  | S754_infinity false => "Infinity"
  | S754_infinity true => "-Infinity"
  | S754_finite s m e =>
      (if s then "-" else "") ++ finite_to_string m e
  end.

(** ** [Number.prototype.toFixed] *)

(** The digits of [n / 10^fd] with [fd] digits after the point. *)
Definition fixed_digits (fd : nat) (n : Z) : string :=
  let ds := digits_of_Z n in
  let ds := zeros (fd + 1 - String.length ds) ++ ds in
  let k := String.length ds in
  match fd with
  | O => ds
  | _ => substring 0 (k - fd) ds ++ "." ++ substring (k - fd) fd ds
  end.

Definition toFixed (fd : nat) (x : number) : string :=
  match x with
  | S754_finite s m e =>
      let v := value m e in
      if Qle_bool (inject_Z (10 ^ 21)) v then to_string x
      else
        (* the integer [n] with [n / 10^fd] nearest to [v], the larger
           one when two are as near *)
        let n :=
          Qfloor (Qplus (Qmult v (inject_Z (10 ^ Z.of_nat fd))) (1 # 2)) in
        (if s then "-" else "") ++ fixed_digits fd n
  | S754_zero _ => fixed_digits fd 0
  | _ => to_string x
  end.

End Num.

(* ===================================================================== *)
(** * JavaScript data values and the built-ins the script calls *)
(* ===================================================================== *)

Module Js.

(** Data values: what [JSON.parse] produces, plus [undefined].  A string
    is a sequence of code units below 256; an object lists its own
    properties, a name being looked up from the head of the list. *)
#[warnings="-register-all"]
Inductive value : Type :=
  | VUndefined
  | VNull
  | VBool (b : bool)
  | VNum (x : Num.number)
  | VStr (s : string)
  | VArr (items : list value)
  | VObj (fields : list (string * value)).

(** Errors raised by the engine itself; the text of their [message] is
    chosen by the engine. *)
Inductive native_error : Type :=
  | ReadOfNullish (prop : string)  (* TypeError: property read on null or undefined *)
  | SetOfNullish (prop : string)   (* TypeError: property set on null or undefined *)
  | NotCallable (prop : string)    (* TypeError: the property is not a function *)
  | NoPrimitive.                   (* TypeError: object without a primitive value *)

(** What a [throw] (or a rejected promise) carries. *)
Inductive thrown : Type :=
  | Error (message : string)       (* [new Error(message)], or a rejection with that message *)
  | Native (e : native_error).

Inductive result (A : Type) : Type :=
  | Ok (a : A)
  | Throw (t : thrown).
Arguments Ok {A} a.
Arguments Throw {A} t.

Definition bind {A B} (r : result A) (k : A -> result B) : result B :=
  match r with
  | Ok a => k a
  | Throw t => Throw t
  end.

Notation "'do' x <- r ; k" := (bind r (fun x => k))
  (at level 10, x name, r at level 100, k at level 200).

(** [Array.prototype.map] with a callback that may throw. *)
Fixpoint map_result {A B} (f : A -> result B) (l : list A) : result (list B) :=
  match l with
  | [] => Ok []
  | x :: l' =>
      do y <- f x;
      do ys <- map_result f l';
      Ok (y :: ys)
  end.

(** ** Property access *)

Fixpoint lookup (fields : list (string * value)) (p : string) : value :=
  match fields with
  | [] => VUndefined
  | (k, v) :: rest => if String.eqb k p then v else lookup rest p
  end.

Fixpoint has_own (fields : list (string * value)) (p : string) : bool :=
  match fields with
  | [] => false
  | (k, _) :: rest => String.eqb k p || has_own rest p
  end.

(** [v.p] and [v[p]] for a property name [p] that no built-in prototype
    defines (every name the script reads is such a name; its one method
    call is [call_replace]). *)
Definition get (v : value) (p : string) : result value :=
  match v with
  | VUndefined | VNull => Throw (Native (ReadOfNullish p))
  | VObj fields => Ok (lookup fields p)
  | _ => Ok VUndefined
  end.

(** ** Coercions *)

(** ToBoolean *)
Definition truthy (v : value) : bool :=
  match v with
  | VUndefined | VNull => false
  | VBool b => b
  | VNum x => negb (Num.is_zero_or_nan x)
  | VStr s => negb (String.eqb s "")
  | VArr _ | VObj _ => true
  end.

Definition isArray (v : value) : bool :=
  match v with
  | VArr _ => true
  | _ => false
  end.

(** ToString.  An array is joined with commas, [null] and [undefined]
    elements giving the empty string.  A plain object gives
    [[object Object]], unless an own data property hides
    [Object.prototype.toString]: then no method yields a primitive. *)
Fixpoint to_string (v : value) : result string :=
  match v with
  | VUndefined => Ok "undefined"
  | VNull => Ok "null"
  | VBool b => Ok (if b then "true" else "false")
  | VNum x => Ok (Num.to_string x)
  | VStr s => Ok s
  | VArr items =>
      let element x :=
        match x with
        | VUndefined | VNull => Ok ""
        | _ => to_string x
        end in
      (fix join (l : list value) : result string :=
         match l with
         | [] => Ok ""
         | [x] => element x
         | x :: rest =>
             do s <- element x;
             do r <- join rest;
             Ok (s ++ "," ++ r)
         end) items
  | VObj fields =>
      if has_own fields "toString" then Throw (Native NoPrimitive)
      else Ok "[object Object]"
  end.

(** ToPrimitive *)
Definition to_primitive (v : value) : result value :=
  match v with
  | VArr _ | VObj _ => do s <- to_string v; Ok (VStr s)
  | _ => Ok v
  end.

(** ** Numeric literals in strings *)

Definition code (c : ascii) : N := N_of_ascii c.

Definition is_white (c : ascii) : bool :=
  let n := code c in
  ((9 <=? n) && (n <=? 13) || (n =? 32) || (n =? 160))%N.

Definition is_digit (c : ascii) : bool :=
  let n := code c in ((48 <=? n) && (n <=? 57))%N.

Fixpoint trim_start (s : string) : string :=
  match s with
  | String c s' => if is_white c then trim_start s' else s
  | EmptyString => s
  end.

Definition trim_end (s : string) : string :=
  Num.rev_string (trim_start (Num.rev_string s "")) "".

(** Reads decimal digits: the number so far, how many were read, and
    what follows them. *)
Fixpoint take_digits (s : string) (acc : N) (count : nat) : N * nat * string :=
  match s with
  | String c s' =>
      if is_digit c
      then take_digits s' (acc * 10 + (code c - 48))%N (S count)
      else (acc, count, s)
  | EmptyString => (acc, count, s)
  end.

(** ExponentPart: [e] or [E], an optional sign, at least one digit. *)
Definition exponent_part (s : string) : Z * string :=
  match s with
  | String c s1 =>
      if Ascii.eqb c "e" || Ascii.eqb c "E" then
        let '(neg, s2) :=
          match s1 with
          | String "-" r => (true, r)
          | String "+" r => (false, r)
          | _ => (false, s1)
          end in
        let '(n, count, rest) := take_digits s2 0%N O in
        match count with
        | O => (0, s)
        | _ => (cond_Zopp neg (Z.of_N n), rest)
        end
      else (0, s)
  | EmptyString => (0, s)
  end.

(** The longest prefix that is a StrUnsignedDecimalLiteral: its value
    and what follows it. *)
Definition unsigned_decimal (neg : bool) (s : string)
  : option (Num.number * string) :=
  if prefix "Infinity" s
  then Some (S754_infinity neg, substring 8 (String.length s - 8) s)
  else
    let '(i, ni, r1) := take_digits s 0%N O in
    let '(m, nf, r2) :=
      match r1 with
      | String "." r =>
          let '(m, nf, r') := take_digits r i O in
          match ni, nf with
          | O, O => (i, O, r1)
          | _, _ => (m, nf, r')
          end
      | _ => (i, O, r1)
      end in
    match ni, nf with
    | O, O => None
    | _, _ =>
        let '(ex, rest) := exponent_part r2 in
        Some (Num.of_decimal neg m (ex - Z.of_nat nf), rest)
    end.

(** StrDecimalLiteral: an optional sign before the unsigned literal. *)
Definition str_decimal_literal (s : string) : option (Num.number * string) :=
  match s with
  | String "-" r => unsigned_decimal true r
  | String "+" r => unsigned_decimal false r
  | _ => unsigned_decimal false s
  end.

(** The global [parseFloat] on a string. *)
Definition parse_float (s : string) : Num.number :=
  match str_decimal_literal (trim_start s) with
  | Some (x, _) => x
  | None => Num.nan
  end.

(** The global [parseFloat]: its argument is first converted to a
    string. *)
Definition parseFloat (v : value) : result Num.number :=
  do s <- to_string v; Ok (parse_float s).

(** Digits of a NonDecimalIntegerLiteral. *)
Definition radix_digit (radix : N) (c : ascii) : option N :=
  let n := code c in
  let d :=
    if ((48 <=? n) && (n <=? 57))%N then Some (n - 48)%N
    else if ((97 <=? n) && (n <=? 102))%N then Some (n - 87)%N
    else if ((65 <=? n) && (n <=? 70))%N then Some (n - 55)%N
    else None in
  match d with
  | Some k => if (k <? radix)%N then Some k else None
  | None => None
  end.

Fixpoint radix_digits (radix : N) (s : string) (acc : N) : option N :=
  match s with
  | EmptyString => Some acc
  | String c s' =>
      match radix_digit radix c with
      | Some d => radix_digits radix s' (acc * radix + d)%N
      | None => None
      end
  end.

Definition non_decimal (s : string) : option (N * string) :=
  match s with
  | String "0" (String c r) =>
      if Ascii.eqb c "x" || Ascii.eqb c "X" then Some (16%N, r)
      else if Ascii.eqb c "o" || Ascii.eqb c "O" then Some (8%N, r)
      else if Ascii.eqb c "b" || Ascii.eqb c "B" then Some (2%N, r)
      else None
  | _ => None
  end.

(** StringToNumber: the whole string, white space apart, is a numeric
    literal; the empty string is 0. *)
Definition string_to_number (s : string) : Num.number :=
  let t := trim_end (trim_start s) in
  if String.eqb t "" then Num.pos_zero
  else
    match non_decimal t with
    | Some (radix, ds) =>
        match ds, radix_digits radix ds 0%N with
        | String _ _, Some n => Num.of_Z (Z.of_N n)
        | _, _ => Num.nan
        end
    | None =>
        match str_decimal_literal t with
        | Some (x, EmptyString) => x
        | _ => Num.nan
        end
    end.

(** ToNumber *)
Definition to_number (v : value) : result Num.number :=
  do p <- to_primitive v;
  match p with
  | VUndefined => Ok Num.nan
  | VNull => Ok Num.pos_zero
  | VBool b => Ok (Num.of_Z (if b then 1 else 0))
  | VNum x => Ok x
  | VStr s => Ok (string_to_number s)
  | _ => Throw (Native NoPrimitive)
  end.

(** ** Operators *)

(** [a + b] *)
Definition js_add (a b : value) : result value :=
  do pa <- to_primitive a;
  do pb <- to_primitive b;
  match pa, pb with
  | VStr _, _ | _, VStr _ =>
      do sa <- to_string pa;
      do sb <- to_string pb;
      Ok (VStr (sa ++ sb))
  | _, _ =>
      do na <- to_number pa;
      do nb <- to_number pb;
      Ok (VNum (Num.add na nb))
  end.

(** [a / b] *)
Definition js_div (a b : value) : result Num.number :=
  do na <- to_number a;
  do nb <- to_number b;
  Ok (Num.div na nb).

(** ** [String.prototype.replace] with a string pattern *)

(** The first occurrence of [pat] is replaced ([rep] has no [$]). *)
Fixpoint replace_first (pat rep s : string) : string :=
  if prefix pat s
  then rep ++ substring (String.length pat)
                        (String.length s - String.length pat) s
  else
    match s with
    | EmptyString => s
    | String c s' => String c (replace_first pat rep s')
    end.

(** [v.replace(pat, rep)] *)
Definition call_replace (v : value) (pat rep : string) : result string :=
  match v with
  | VUndefined | VNull => Throw (Native (ReadOfNullish "replace"))
  | VStr s => Ok (replace_first pat rep s)
  | _ => Throw (Native (NotCallable "replace"))
  end.

(** ** Induction on values *)

Section ValueInduction.
Variable P : value -> Prop.
Hypothesis HUndefined : P VUndefined.
Hypothesis HNull : P VNull.
Hypothesis HBool : forall b, P (VBool b).
Hypothesis HNum : forall x, P (VNum x).
Hypothesis HStr : forall s, P (VStr s).
Hypothesis HArr : forall l, Forall P l -> P (VArr l).
Hypothesis HObj : forall fs, Forall (fun kv => P (snd kv)) fs -> P (VObj fs).

Fixpoint value_nested_ind (v : value) : P v :=
  match v with
  | VUndefined => HUndefined
  | VNull => HNull
  | VBool b => HBool b
  | VNum x => HNum x
  | VStr s => HStr s
  | VArr l =>
      HArr l ((fix all (l : list value) : Forall P l :=
                 match l with
                 | [] => Forall_nil P
                 | x :: r => Forall_cons x (value_nested_ind x) (all r)
                 end) l)
  | VObj fs =>
      HObj fs ((fix all (fs : list (string * value))
                  : Forall (fun kv => P (snd kv)) fs :=
                  match fs with
                  | [] => Forall_nil _
                  | kv :: r =>
                      Forall_cons kv (value_nested_ind (snd kv)) (all r)
                  end) fs)
  end.
End ValueInduction.

End Js.

(* ===================================================================== *)
(** * The page: presentation sinks *)
(* ===================================================================== *)

Module Dom.
Import Js.

(** A child of an element: either what the HTML parser built from a piece
    of markup assigned to [innerHTML], or an element made by
    [document.createElement] with its class name and the markup assigned
    to its own [innerHTML]. *)
Inductive node : Type :=
  | Parsed (html : string)
  | Element (tag className innerHTML : string).

Definition children : Type := list node.

(** A table and its first [tbody], when it has one. *)
Record table : Type := { tbody : option children }.

(** The arguments of one [new Chart(canvas, config)]. *)
Record chart_config : Type := {
  chart_type : string;
  chart_data : value;
  responsive : bool;
  maintainAspectRatio : bool;
  legend_display : bool;
  y_beginAtZero : bool
}.

(** The elements the script looks up by id; [None] when the page has no
    such element.  A canvas is given by the charts the charting library
    holds on it. *)
Record document : Type := {
  gainersTable : option table;
  losersTable : option table;
  breadthWidget : option children;
  marketChart : option (list chart_config);
  newsFeedList : option children;
  blogsContainer : option children
}.

(** The sinks that take markup. *)
Inductive sink : Type :=
  | GainersBody      (* document.getElementById('gainersTable')?.querySelector('tbody') *)
  | LosersBody       (* document.getElementById('losersTable')?.querySelector('tbody') *)
  | BreadthWidget    (* document.getElementById('breadthWidget') *)
  | NewsFeedList     (* document.getElementById('newsFeedList') *)
  | BlogsContainer.  (* document.getElementById('blogsContainer') *)

Definition body_of (t : option table) : option children :=
  match t with
  | Some t' => tbody t'
  | None => None
  end.

(** The content of a sink, [None] when the lookup gives [null]. *)
Definition find (s : sink) (d : document) : option children :=
  match s with
  | GainersBody => body_of (gainersTable d)
  | LosersBody => body_of (losersTable d)
  | BreadthWidget => breadthWidget d
  | NewsFeedList => newsFeedList d
  | BlogsContainer => blogsContainer d
  end.

Definition present (s : sink) (d : document) : bool :=
  match find s d with
  | Some _ => true
  | None => false
  end.

Definition on_body (f : children -> children) (t : option table) : option table :=
  match t with
  | Some {| tbody := Some c |} => Some {| tbody := Some (f c) |}
  | _ => t
  end.

(** Changes the content of a sink that is there; a page without it is
    left as it is. *)
Definition update (s : sink) (f : children -> children) (d : document) : document :=
  match s with
  | GainersBody =>
      {| gainersTable := on_body f (gainersTable d);
         losersTable := losersTable d;
         breadthWidget := breadthWidget d;
         marketChart := marketChart d;
         newsFeedList := newsFeedList d;
         blogsContainer := blogsContainer d |}
  | LosersBody =>
      {| gainersTable := gainersTable d;
         losersTable := on_body f (losersTable d);
         breadthWidget := breadthWidget d;
         marketChart := marketChart d;
         newsFeedList := newsFeedList d;
         blogsContainer := blogsContainer d |}
  | BreadthWidget =>
      {| gainersTable := gainersTable d;
         losersTable := losersTable d;
         breadthWidget := option_map f (breadthWidget d);
         marketChart := marketChart d;
         newsFeedList := newsFeedList d;
         blogsContainer := blogsContainer d |}
  | NewsFeedList =>
      {| gainersTable := gainersTable d;
         losersTable := losersTable d;
         breadthWidget := breadthWidget d;
         marketChart := marketChart d;
         newsFeedList := option_map f (newsFeedList d);
         blogsContainer := blogsContainer d |}
  | BlogsContainer =>
      {| gainersTable := gainersTable d;
         losersTable := losersTable d;
         breadthWidget := breadthWidget d;
         marketChart := marketChart d;
         newsFeedList := newsFeedList d;
         blogsContainer := option_map f (blogsContainer d) |}
  end.

(** The charting library is not part of the repository and the
    specification treats it as opaque, so [new Chart(canvas, config)] is
    a parameter of the script: given the charts the canvas holds, it
    gives those the canvas holds afterwards, or it throws. *)
Definition library : Type :=
  chart_config -> list chart_config -> result (list chart_config).

(** The page whose canvas holds [charts]. *)
Definition with_charts (charts : list chart_config) (d : document) : document :=
  {| gainersTable := gainersTable d;
     losersTable := losersTable d;
     breadthWidget := breadthWidget d;
     marketChart := option_map (fun _ => charts) (marketChart d);
     newsFeedList := newsFeedList d;
     blogsContainer := blogsContainer d |}.

(** The children an element has after [element.innerHTML = html]. *)
Definition parse (html : string) : children :=
  if String.eqb html "" then [] else [Parsed html].

End Dom.

(* ===================================================================== *)
(** * The script *)
(* ===================================================================== *)

Module Script.
Import Js Dom.

(** A function of the script runs on the page and either returns or
    throws; what it wrote before throwing stays written. *)
Definition M (A : Type) : Type := document -> result A * document.

Definition ret {A} (a : A) : M A := fun d => (Ok a, d).
Definition lift {A} (r : result A) : M A := fun d => (r, d).
Definition write (f : document -> document) : M unit := fun d => (Ok tt, f d).

Definition bindM {A B} (m : M A) (k : A -> M B) : M B :=
  fun d =>
    match m d with
    | (Ok a, d') => k a d'
    | (Throw t, d') => (Throw t, d')
    end.

Notation "'run' x <- m ; k" := (bindM m (fun x => k))
  (at level 10, x name, m at level 100, k at level 200).
Notation "m >> k" := (bindM m (fun _ => k))
  (at level 80, right associativity).

(** [try { body } catch (error) { handler }] *)
Definition try_catch {A} (body : M A) (handler : thrown -> M A) : M A :=
  fun d =>
    match body d with
    | (Throw t, d') => handler t d'
    | r => r
    end.

(** [array.forEach(f)] *)
Fixpoint forEach {A} (l : list A) (f : A -> M unit) : M unit :=
  match l with
  | [] => ret tt
  | x :: l' => f x >> forEach l' f
  end.

Definition items (v : value) : list value :=
  match v with
  | VArr l => l
  | _ => []
  end.

(** The double quote, and a quoted attribute value. *)
Definition dq : string := String "034"%char "".
Definition q (s : string) : string := dq ++ s ++ dq.
Definition nl : string := String "010"%char "".

(** ** Element access *)

(** [element.innerHTML = html]; a [TypeError] when the lookup of the
    element gave [null]. *)
Definition set_innerHTML (s : sink) (html : string) : M unit :=
  fun d =>
    match find s d with
    | Some _ => (Ok tt, update s (fun _ => parse html) d)
    | None => (Throw (Native (SetOfNullish "innerHTML")), d)
    end.

(** [element.appendChild(create(item))]: the method is looked up on the
    element before the child is built. *)
Definition appendChild (s : sink) (create : value -> result node) (item : value) : M unit :=
  fun d =>
    match find s d with
    | Some _ =>
        match create item with
        | Ok child => (Ok tt, update s (fun c => (c ++ [child])%list) d)
        | Throw t => (Throw t, d)
        end
    | None => (Throw (Native (ReadOfNullish "appendChild")), d)
    end.

(** [if (element) action] and [element?.method(...)]: nothing is
    evaluated when the lookup of the element gave [null]. *)
Definition if_present (s : sink) (action : M unit) : M unit :=
  fun d =>
    match find s d with
    | Some _ => action d
    | None => (Ok tt, d)
    end.

(** ** 3. Data rendering functions *)

Definition unavailable_row : string :=
  "<tr><td colspan=" ++ q "3" ++ ">Data unavailable.</td></tr>".

(** [isGainer ? 'price-up' : 'price-down'] *)
Definition row_class (isGainer : bool) : string :=
  if isGainer then "price-up" else "price-down".

Definition row_html (symbol price change : string) (isGainer : bool) : string :=
  nl ++
  "                <td class=" ++ q "px-6 py-4 whitespace-nowrap text-sm font-medium text-gray-900" ++ ">" ++ symbol ++ "</td>" ++ nl ++
  "                <td class=" ++ q "px-6 py-4 whitespace-nowrap text-sm text-gray-500" ++ ">$" ++ price ++ "</td>" ++ nl ++
  "                <td class=" ++ q ("px-6 py-4 whitespace-nowrap text-sm " ++ row_class isGainer) ++ ">" ++ change ++ "%</td>" ++ nl ++
  "            ".

Definition createTableRow (isGainer : bool) (item : value) : result node :=
  do symbol <- get item "symbol";
  do symbol <- to_string symbol;
  do price <- get item "price";
  do price <- to_string price;
  do change <- get item "change";
  do change <- to_string change;
  Ok (Element "tr" "" (row_html symbol price change isGainer)).

Definition renderTopMovers (moversData : value) : M unit :=
  let unavailable : M unit :=
    if_present GainersBody (set_innerHTML GainersBody unavailable_row) >>
    if_present LosersBody (set_innerHTML LosersBody unavailable_row) in
  if negb (truthy moversData) then unavailable else
  run gainers <- lift (get moversData "gainers");
  if negb (isArray gainers) then unavailable else
  run losers <- lift (get moversData "losers");
  if negb (isArray losers) then unavailable else
  if_present GainersBody (set_innerHTML GainersBody "") >>
  if_present LosersBody (set_innerHTML LosersBody "") >>
  forEach (items gainers)
    (fun item => if_present GainersBody (appendChild GainersBody (createTableRow true) item)) >>
  forEach (items losers)
    (fun item => if_present LosersBody (appendChild LosersBody (createTableRow false) item)).

Definition unavailable_breadth : string :=
  "<p class=" ++ q "col-span-3" ++ ">Data unavailable.</p>".

Definition breadth_html (advancing declining unchanged : string) : string :=
  nl ++
  "            <div class=" ++ q "flex flex-col items-center" ++ ">" ++ nl ++
  "                <p class=" ++ q "text-sm font-medium text-gray-500" ++ ">Advancing</p>" ++ nl ++
  "                <span class=" ++ q "text-lg font-bold indicator-up" ++ ">" ++ advancing ++ "%</span>" ++ nl ++
  "            </div>" ++ nl ++
  "            <div class=" ++ q "flex flex-col items-center" ++ ">" ++ nl ++
  "                <p class=" ++ q "text-sm font-medium text-gray-500" ++ ">Declining</p>" ++ nl ++
  "                <span class=" ++ q "text-lg font-bold indicator-down" ++ ">" ++ declining ++ "%</span>" ++ nl ++
  "            </div>" ++ nl ++
  "            <div class=" ++ q "flex flex-col items-center" ++ ">" ++ nl ++
  "                <p class=" ++ q "text-sm font-medium text-gray-500" ++ ">Unchanged</p>" ++ nl ++
  "                <span class=" ++ q "text-lg font-bold text-gray-600" ++ ">" ++ unchanged ++ "%</span>" ++ nl ++
  "            </div>" ++ nl ++
  "        ".

(** [Math.round((count / total) * 100)] *)
Definition percentage (count total : value) : result Num.number :=
  do share <- js_div count total;
  Ok (Num.round (Num.mul share (Num.of_Z 100))).

(** The template literal assigned to the widget. *)
Definition breadth_markup (breadthData : value) : result string :=
  do advancing <- get breadthData "advancing";
  do declining <- get breadthData "declining";
  do sum <- js_add advancing declining;
  do unchanged <- get breadthData "unchanged";
  do total <- js_add sum unchanged;
  do advancing <- get breadthData "advancing";
  do a <- percentage advancing total;
  do declining <- get breadthData "declining";
  do b <- percentage declining total;
  do unchanged <- get breadthData "unchanged";
  do c <- percentage unchanged total;
  Ok (breadth_html (Num.to_string a) (Num.to_string b) (Num.to_string c)).

Definition renderMarketBreadth (breadthData : value) : M unit :=
  fun d =>
    if negb (present BreadthWidget d) || negb (truthy breadthData)
    then if_present BreadthWidget
           (set_innerHTML BreadthWidget unavailable_breadth) d
    else (run html <- lift (breadth_markup breadthData);
          set_innerHTML BreadthWidget html) d.

(** The configuration [renderMarketChart] passes to [new Chart]. *)
Definition line_chart (chartData : value) : chart_config :=
  {| chart_type := "line";
     chart_data := chartData;
     responsive := true;
     maintainAspectRatio := false;
     legend_display := false;
     y_beginAtZero := true |}.

(** [Chart] is what [new Chart] does; what it throws leaves the
    function. *)
Definition renderMarketChart (Chart : library) (chartData : value) : M unit :=
  fun d =>
    match marketChart d with
    | Some charts =>
        (run charts' <- lift (Chart (line_chart chartData) charts);
         write (with_charts charts')) d
    | None => (Ok tt, d)
    end.

Definition unavailable_news : string := "<li>Data unavailable.</li>".
Definition unavailable_blogs : string := "<div>Data unavailable.</div>".

Definition link_html (url title : string) : string :=
  "<a href=" ++ q url ++ " class=" ++ q "hover:text-blue-600" ++ ">" ++ title ++ "</a>".

Definition createNewsItem (item : value) : result node :=
  do url <- get item "url";
  do url <- to_string url;
  do title <- get item "title";
  do title <- to_string title;
  Ok (Element "li" "" (link_html url title)).

Definition blog_html (url title author : string) : string :=
  nl ++
  "                <h4 class=" ++ q "text-md font-medium text-gray-800" ++ ">" ++ link_html url title ++ "</h4>" ++ nl ++
  "                <p class=" ++ q "text-sm text-gray-500" ++ ">" ++ author ++ "</p>" ++ nl ++
  "            ".

Definition createBlogItem (item : value) : result node :=
  do url <- get item "url";
  do url <- to_string url;
  do title <- get item "title";
  do title <- to_string title;
  do author <- get item "author";
  do author <- to_string author;
  Ok (Element "div" "border-b last:border-b-0 pb-2 mb-2" (blog_html url title author)).

Definition renderInsights (newsData blogsData : value) : M unit :=
  fun d =>
    if negb (present NewsFeedList d) || negb (present BlogsContainer d)
       || negb (isArray newsData) || negb (isArray blogsData)
    then
      (if_present NewsFeedList (set_innerHTML NewsFeedList unavailable_news) >>
       if_present BlogsContainer (set_innerHTML BlogsContainer unavailable_blogs)) d
    else
      (set_innerHTML NewsFeedList "" >>
       set_innerHTML BlogsContainer "" >>
       forEach (items newsData) (appendChild NewsFeedList createNewsItem) >>
       forEach (items blogsData) (appendChild BlogsContainer createBlogItem)) d.

(** ** 4. API fetching logic *)

(** What the network gives back to
    [await fetch(...)] and [await moversResponse.json()]. *)
Inductive upstream : Type :=
  | FetchRejected (message : string)
  | JsonRejected (message : string)
  | Json (moversData : value).

Definition API_KEY : string := "EI339Y34FX1BR93U".

(** [moversData['Error Message'] || moversData['Note']] *)
Definition error_or_note (moversData : value) : result value :=
  do e <- get moversData "Error Message";
  if truthy e then Ok e else get moversData "Note".

(** [moversData && Array.isArray(moversData.top_gainers)
     && Array.isArray(moversData.top_losers)] *)
Definition has_movers (moversData : value) : result bool :=
  if negb (truthy moversData) then Ok false else
  do top_gainers <- get moversData "top_gainers";
  if negb (isArray top_gainers) then Ok false else
  do top_losers <- get moversData "top_losers";
  Ok (isArray top_losers).

(** The callback of the two [map] calls. *)
Definition normalize (item : value) : result value :=
  do ticker <- get item "ticker";
  do price <- get item "price";
  do price <- parseFloat price;
  do change_percentage <- get item "change_percentage";
  do stripped <- call_replace change_percentage "%" "";
  do change <- parseFloat (VStr stripped);
  Ok (VObj [("symbol", ticker);
            ("price", VStr (Num.toFixed 2 price));
            ("change", VStr (Num.toFixed 2 change))]).

Definition movers (gainers losers : list value) : value :=
  VObj [("gainers", VArr gainers); ("losers", VArr losers)].

Definition mockBreadthData : value :=
  VObj [("advancing", VNum (Num.of_Z 2500));
        ("declining", VNum (Num.of_Z 500));
        ("unchanged", VNum (Num.of_Z 100))].

(** From the shape check to the end of the [try] block. *)
Definition render_response (moversData : value) : M unit :=
  (run ok <- lift (has_movers moversData);
   if ok then
     run top_gainers <- lift (get moversData "top_gainers");
     run gainersData <- lift (map_result normalize (items top_gainers));
     run top_losers <- lift (get moversData "top_losers");
     run losersData <- lift (map_result normalize (items top_losers));
     renderTopMovers (movers gainersData losersData)
   else
     renderTopMovers (movers [] [])) >>
  renderMarketBreadth mockBreadthData.

Definition await (net : upstream) : result value :=
  match net with
  | FetchRejected message | JsonRejected message => Throw (Error message)
  | Json moversData => Ok moversData
  end.

Section Engine.

(** The [message] the engine gives to the errors it raises. *)
Variable native_text : native_error -> string.

(** [error.message] *)
Definition message_of (error : thrown) : string :=
  match error with
  | Error message => message
  | Native e => native_text e
  end.

(** *** [src/js/script.js] *)

Definition try_block (net : upstream) : M unit :=
  if String.eqb API_KEY "YOUR_ALPHA_VANTAGE_API_KEY"
  then lift (Throw (Error "Please provide a valid API key."))
  else
    run moversData <- lift (await net);
    run signal <- lift (error_or_note moversData);
    if truthy signal then
      run signal <- lift (error_or_note moversData);
      run message <- lift (to_string signal);
      lift (Throw (Error message))
    else
      render_response moversData.

Definition error_row (message : string) : string :=
  "<tr><td colspan=" ++ q "3" ++ ">" ++ message ++ "</td></tr>".

Definition error_paragraph (message : string) : string :=
  "<p>" ++ message ++ "</p>".

Definition catch_block (error : thrown) : M unit :=
  if_present GainersBody
    (set_innerHTML GainersBody (error_row (message_of error))) >>
  if_present LosersBody
    (set_innerHTML LosersBody (error_row (message_of error))) >>
  if_present BreadthWidget
    (set_innerHTML BreadthWidget (error_paragraph (message_of error))).

Definition fetchMarketData (net : upstream) : M unit :=
  try_catch (try_block net) catch_block.

End Engine.

(** The number written as the decimal literal [m]e[e]. *)
Definition literal (m : N) (e : Z) : value := VNum (Num.of_decimal false m e).

Definition mockChartData : value :=
  VObj [("labels",
         VArr [VStr "Jan"; VStr "Feb"; VStr "Mar"; VStr "Apr";
               VStr "May"; VStr "Jun"; VStr "Jul"]);
        ("datasets",
         VArr [VObj [("label", VStr "Market Performance (%)");
                     ("data",
                      VArr [literal 0 0; literal 25 (-1); literal 18 (-1);
                            literal 52 (-1); literal 41 (-1); literal 75 (-1);
                            literal 69 (-1)]);
                     ("backgroundColor", VStr "rgba(59, 130, 246, 0.2)");
                     ("borderColor", VStr "#3b82f6");
                     ("borderWidth", literal 2 0);
                     ("tension", literal 4 (-1));
                     ("fill", VBool true)]])].

Definition renderMockChartData (Chart : library) : M unit :=
  renderMarketChart Chart mockChartData.

Definition news (title : string) : value :=
  VObj [("title", VStr title); ("url", VStr "#")].

Definition blog (title author : string) : value :=
  VObj [("title", VStr title); ("author", VStr author); ("url", VStr "#")].

Definition mockNewsData : value :=
  VArr [news "Global Markets Rebound as Inflation Fears Ease";
        news "Tech Giants Announce Record-Breaking Q2 Earnings";
        news "Central Bank Holds Rates Amidst Economic Uncertainty";
        news "Supply Chain Disruptions Continue to Impact Manufacturing";
        news "New Regulations Spark Debate in the Financial Sector"].

Definition mockBlogsData : value :=
  VArr [blog "The Future of Fintech: A Comprehensive Analysis" "By Jane Doe";
        blog "Navigating Volatility: A Guide for Long-Term Investors" "By John Smith";
        blog "Decoding Economic Indicators: What You Need to Know"
          "By The CapitalFlow Team"].

Definition renderMockInsights : M unit := renderInsights mockNewsData mockBlogsData.

End Script.

(** ** The copy of the script under [src/unnamed/part_000]

    Its rendering functions are those of [src/js/script.js], comments
    and layout apart; [fetchMarketData] differs in the errors it throws
    and in the markup of its [catch] block. *)

Module Part000.
Import Js Dom Script.

Section Engine.

Variable native_text : native_error -> string.

Definition api_error : string :=
  "API returned an error. Please check your API key or a rate limit may have been exceeded.".

Definition try_block (net : upstream) : M unit :=
  if String.eqb API_KEY "YOUR_ALPHA_VANTAGE_API_KEY"
  then lift (Throw (Error
         ("Please replace " ++ q "YOUR_ALPHA_VANTAGE_API_KEY"
          ++ " with a valid key from Alpha Vantage.")))
  else
    run moversData <- lift (await net);
    run signal <- lift (error_or_note moversData);
    if truthy signal then
      (* console.error(..., moversData['Error Message'] || moversData['Note']) *)
      run _logged <- lift (error_or_note moversData);
      lift (Throw (Error api_error))
    else
      render_response moversData.

(** [error.message || 'Failed to load data.'] *)
Definition shown_message (error : thrown) : string :=
  let message := message_of native_text error in
  if String.eqb message "" then "Failed to load data." else message.

Definition error_row (message : string) : string :=
  "<tr><td colspan=" ++ q "3" ++ " class="
  ++ q "px-6 py-4 whitespace-nowrap text-sm text-gray-500" ++ ">"
  ++ message ++ "</td></tr>".

Definition error_paragraph (message : string) : string :=
  "<p class=" ++ q "col-span-3 text-red-500" ++ ">" ++ message ++ "</p>".

Definition catch_block (error : thrown) : M unit :=
  if_present GainersBody
    (set_innerHTML GainersBody (error_row (shown_message error))) >>
  if_present LosersBody
    (set_innerHTML LosersBody (error_row (shown_message error))) >>
  if_present BreadthWidget
    (set_innerHTML BreadthWidget (error_paragraph (shown_message error))).

Definition fetchMarketData (net : upstream) : M unit :=
  try_catch (try_block net) catch_block.

End Engine.

End Part000.

(* ===================================================================== *)
(** * Sections 1, 2 and 5 of the script *)
(* ===================================================================== *)

(** ** 1. Mobile navigation menu toggle *)

Module Menu.

(** The button: its [aria-expanded] attribute ([None] when it has
    none) and the inline [display] of its two icons ([None] when the
    button has no such icon). *)
Record button : Type := {
  aria_expanded : option string;
  hamburgerIcon : option string;
  closeIcon : option string
}.

(** The two elements looked up by id; the panel is its inline
    [display]. *)
Record page : Type := {
  mobileMenuButton : option button;
  mobileMenu : option string
}.

(** [mobileMenuButton.getAttribute('aria-expanded') === 'true' || false] *)
Definition isExpanded (b : button) : bool :=
  match aria_expanded b with
  | Some v => String.eqb v "true"
  | None => false
  end.

(** The listener of the button. *)
Definition on_click (b : button) (menu : string) : button * string :=
  let expanded := isExpanded b in
  (* setAttribute('aria-expanded', !isExpanded) *)
  let attribute := Some (if negb expanded then "true" else "false") in
  if negb expanded then
    ({| aria_expanded := attribute;
        hamburgerIcon := option_map (fun _ => "none") (hamburgerIcon b);
        closeIcon := option_map (fun _ => "block") (closeIcon b) |},
     "block")
  else
    ({| aria_expanded := attribute;
        hamburgerIcon := option_map (fun _ => "block") (hamburgerIcon b);
        closeIcon := option_map (fun _ => "none") (closeIcon b) |},
     "none").

(** A click on the button: the listener is there only when the page has
    both the button and the panel. *)
Definition click (p : page) : page :=
  match mobileMenuButton p, mobileMenu p with
  | Some b, Some menu =>
      let '(b', menu') := on_click b menu in
      {| mobileMenuButton := Some b'; mobileMenu := Some menu' |}
  | _, _ => p
  end.

Fixpoint clicks (n : nat) (p : page) : page :=
  match n with
  | O => p
  | S n' => clicks n' (click p)
  end.

End Menu.

(** ** 2. Scroll reveal for service cards *)

Module Reveal.

(** What a call of [revealOnScroll] reads: the height of the window and,
    for each card of [serviceCards] by its index, the top of its
    bounding rectangle. *)
Record geometry : Type := {
  innerHeight : Num.number;
  cardTop : nat -> Num.number
}.

(** [a < b] on numbers. *)
Definition lt (a b : Num.number) : bool := SFltb a b.

(** [window.innerHeight * 0.85] *)
Definition triggerBottom (g : geometry) : Num.number :=
  Num.mul (innerHeight g) (Num.of_decimal false 85 (-2)).

(** [classList.add(token)]: a class list holds a token once. *)
Definition classList_add (token : string) (classes : list string) : list string :=
  if existsb (String.eqb token) classes then classes
  else (classes ++ [token])%list.

(** The body of the [forEach], on the card of index [i]. *)
Definition reveal_card (g : geometry) (i : nat) (classes : list string)
  : list string :=
  if lt (cardTop g i) (triggerBottom g)
  then classList_add "visible" classes
  else classes.

Fixpoint reveal_from (g : geometry) (i : nat) (cards : list (list string))
  : list (list string) :=
  match cards with
  | [] => []
  | classes :: rest => reveal_card g i classes :: reveal_from g (S i) rest
  end.

(** The cards are given by their class lists. *)
Definition revealOnScroll (g : geometry) (cards : list (list string))
  : list (list string) :=
  reveal_from g 0 cards.

(** The call on load, then one call for each scroll event. *)
Definition scrolls (events : list geometry) (cards : list (list string))
  : list (list string) :=
  fold_left (fun cs g => revealOnScroll g cs) events cards.

End Reveal.

(** ** 5. Initial load *)

Module Load.
Import Js Dom Script.

(** [fetchMarketData(); renderMockChartData(); renderMockInsights();]:
    the first call returns at its [await], so the two others run before
    the rest of it.  What [renderMockChartData] throws ends the listener
    before [renderMockInsights] is called, and is the outcome of the
    load; it does not stop the request, whose rest runs all the same. *)
Definition initial_load (Chart : library)
    (native_text : native_error -> string) (net : upstream) : M unit :=
  fun d =>
    let '(r, d1) := (renderMockChartData Chart >> renderMockInsights) d in
    let '(_, d2) := fetchMarketData native_text net d1 in
    (r, d2).

End Load.

(* ===================================================================== *)
(** * Vocabulary of the properties *)
(* ===================================================================== *)

Import Js Dom Script.

(** ** Reading values *)

(** [v.p] when the read does not throw. *)
Definition field (v : value) (p : string) : value :=
  match get v p with
  | Ok x => x
  | Throw _ => VUndefined
  end.

(** Neither [null] nor [undefined]. *)
Definition nullish (v : value) : bool :=
  match v with
  | VUndefined | VNull => true
  | _ => false
  end.

(** The shape check of [renderTopMovers]. *)
Definition well_shaped (v : value) : bool :=
  truthy v && isArray (field v "gainers") && isArray (field v "losers").

(** ToString succeeds: no object that hides [toString] is reached
    through arrays. *)
Fixpoint convertible (v : value) : bool :=
  match v with
  | VArr l =>
      (fix all (l : list value) : bool :=
         match l with
         | [] => true
         | x :: r => convertible x && all r
         end) l
  | VObj fs => negb (has_own fs "toString")
  | _ => true
  end.

(** An item whose row can be built: it is neither [null] nor
    [undefined], and its three fields convert to strings. *)
Definition renderable (item : value) : bool :=
  match item with
  | VUndefined | VNull => false
  | _ =>
      convertible (field item "symbol")
      && convertible (field item "price")
      && convertible (field item "change")
  end.

(** ** Mover records *)

(** A MoverRecord of the specification. *)
Record MoverRecord : Type := {
  symbol : string;
  price : string;
  change : string
}.

(** The item is an object carrying the three fields of the record. *)
Definition record_of (item : value) (r : MoverRecord) : Prop :=
  get item "symbol" = Ok (VStr (symbol r))
  /\ get item "price" = Ok (VStr (price r))
  /\ get item "change" = Ok (VStr (change r)).

(** The [tr] of a record. *)
Definition table_row (isGainer : bool) (r : MoverRecord) : node :=
  Element "tr" "" (row_html (symbol r) (price r) (change r) isGainer).

(** The object of a record. *)
Definition record_value (r : MoverRecord) : value :=
  VObj [("symbol", VStr (symbol r));
        ("price", VStr (price r));
        ("change", VStr (change r))].

(** ** What one call writes *)

(** What a [forEach] appends before the first item that cannot be
    built, and how the loop ends. *)
Fixpoint appended (create : value -> result node) (l : list value)
  : children * result unit :=
  match l with
  | [] => ([], Ok tt)
  | x :: l' =>
      match create x with
      | Throw t => ([], Throw t)
      | Ok child =>
          let '(rest, r) := appended create l' in (child :: rest, r)
      end
  end.

(** The rows a guarded loop appends, and how it ends. *)
Definition guarded_rows (isPresent isGainer : bool) (l : list value)
  : children * result unit :=
  if isPresent then appended (createTableRow isGainer) l else ([], Ok tt).

(** Outcome, gainers rows and losers rows of one call, given which of
    the two table bodies the page has. *)
Definition movers_result (v : value) (hasGainers hasLosers : bool)
  : result unit * children * children :=
  if well_shaped v then
    let g := guarded_rows hasGainers true (items (field v "gainers")) in
    match snd g with
    | Throw t => (Throw t, fst g, [])
    | Ok _ =>
        let l := guarded_rows hasLosers false (items (field v "losers")) in
        (snd l, fst g, fst l)
    end
  else (Ok tt, parse unavailable_row, parse unavailable_row).

(** Outcome, news items and blog items of one call of
    [renderInsights]. *)
Definition insights_result (newsData blogsData : value) (hasNews hasBlogs : bool)
  : result unit * children * children :=
  if negb hasNews || negb hasBlogs
     || negb (isArray newsData) || negb (isArray blogsData)
  then (Ok tt, parse unavailable_news, parse unavailable_blogs)
  else
    let n := appended createNewsItem (items newsData) in
    match snd n with
    | Throw t => (Throw t, fst n, [])
    | Ok _ =>
        let b := appended createBlogItem (items blogsData) in
        (snd b, fst n, fst b)
    end.

(** ** Pages after [fetchMarketData] *)

(** The page after the [catch] block of [src/js/script.js] showed
    [message]. *)
Definition shows_error (message : string) (d : document) : document :=
  update BreadthWidget (fun _ => [Parsed (error_paragraph message)])
    (update LosersBody (fun _ => [Parsed (error_row message)])
       (update GainersBody (fun _ => [Parsed (error_row message)]) d)).

(** The same for the copy under [src/unnamed/part_000]. *)
Definition part000_shows_error (message : string) (d : document) : document :=
  update BreadthWidget (fun _ => [Parsed (Part000.error_paragraph message)])
    (update LosersBody (fun _ => [Parsed (Part000.error_row message)])
       (update GainersBody (fun _ => [Parsed (Part000.error_row message)]) d)).

(** The page after the graceful path: both tables cleared, the mock
    breadth rendered. *)
Definition shows_no_movers (d : document) : document :=
  update BreadthWidget (fun _ => [Parsed (breadth_html "81" "16" "3")])
    (update LosersBody (fun _ => [])
       (update GainersBody (fun _ => []) d)).

(** ** Numerals *)

Fixpoint all_digits (s : string) : bool :=
  match s with
  | EmptyString => true
  | String c r => is_digit c && all_digits r
  end.

(** Digits (at least one when [seen] is false), a point, and exactly
    two digits. *)
Fixpoint digits_point_two (s : string) (seen : bool) : bool :=
  match s with
  | EmptyString => false
  | String c r =>
      if is_digit c then digits_point_two r true
      else if Ascii.eqb c "." then
        seen && match r with
                | String d1 (String d2 EmptyString) => is_digit d1 && is_digit d2
                | _ => false
                end
      else false
  end.

(** A decimal numeral with exactly two digits after the point, with or
    without a minus sign. *)
Definition two_decimal_digits (s : string) : bool :=
  match s with
  | String "-" r => digits_point_two r false
  | _ => digits_point_two s false
  end.

(** A number that [toFixed] writes in fixed notation. *)
Definition finite_below_1e21 (x : Num.number) : bool :=
  match x with
  | S754_zero _ => true
  | S754_finite _ m e => negb (Qle_bool (inject_Z (10 ^ 21)) (Num.value m e))
  | _ => false
  end.

(** Text of a value that is not a finite number. *)
Definition non_finite_text (s : string) : Prop :=
  s = "NaN" \/ s = "Infinity" \/ s = "-Infinity".

(** Substring test. *)
Fixpoint contains (needle hay : string) : bool :=
  prefix needle hay
  || match hay with
     | EmptyString => false
     | String _ rest => contains needle rest
     end.

(** ** Normalisation in the words of the specification *)

(** The words of the specification: a [%] is stripped when it ends the
    string. *)
Fixpoint strip_trailing_percent (s : string) : string :=
  match s with
  | EmptyString => s
  | String c r =>
      match r with
      | EmptyString => if Ascii.eqb c "%" then "" else s
      | _ => String c (strip_trailing_percent r)
      end
  end.

(** Normalisation as the specification words it. *)
Definition normalize_as_specified (item : value) : result value :=
  do ticker <- get item "ticker";
  do price <- get item "price";
  do price <- parseFloat price;
  do change_percentage <- get item "change_percentage";
  do change_percentage <- to_string change_percentage;
  do change <- parseFloat (VStr (strip_trailing_percent change_percentage));
  Ok (VObj [("symbol", ticker);
            ("price", VStr (Num.toFixed 2 price));
            ("change", VStr (Num.toFixed 2 change))]).

Definition raw_entry (ticker price change_percentage : string) : value :=
  VObj [("ticker", VStr ticker);
        ("price", VStr price);
        ("change_percentage", VStr change_percentage)].

Definition normalized (symbol price change : string) : value :=
  VObj [("symbol", VStr symbol);
        ("price", VStr price);
        ("change", VStr change)].

(** ** Pages, responses and engine of the examples *)

(** A page with every element the script looks up, the tables holding
    an earlier rendering. *)
Definition full_page : document :=
  {| gainersTable := Some {| tbody := Some [Parsed unavailable_row] |};
     losersTable := Some {| tbody := Some [Parsed unavailable_row] |};
     breadthWidget := Some [];
     marketChart := Some [];
     newsFeedList := Some [];
     blogsContainer := Some [] |}.

(** A page without the gainers table and without a [tbody] in the
    losers table. *)
Definition bare_page : document :=
  {| gainersTable := None;
     losersTable := Some {| tbody := None |};
     breadthWidget := None;
     marketChart := None;
     newsFeedList := None;
     blogsContainer := None |}.

(** A page whose only sink is the body of the losers table. *)
Definition losers_only_page : document :=
  {| gainersTable := None;
     losersTable := Some {| tbody := Some [Parsed unavailable_row] |};
     breadthWidget := None;
     marketChart := None;
     newsFeedList := None;
     blogsContainer := None |}.

Definition aaa : MoverRecord :=
  {| symbol := "AAA"; price := "10.00"; change := "5.50" |}.
Definition bbb : MoverRecord :=
  {| symbol := "BBB"; price := "3.14"; change := "-2.35" |}.
Definition ccc : MoverRecord :=
  {| symbol := "CCC"; price := "7.00"; change := "-0.10" |}.

(** What the engine of the examples says in its errors. *)
Definition sample_text (e : native_error) : string :=
  match e with
  | ReadOfNullish p => "Cannot read properties of null (reading '" ++ p ++ "')"
  | SetOfNullish p => "Cannot set properties of null (setting '" ++ p ++ "')"
  | NotCallable p => p ++ " is not a function"
  | NoPrimitive => "Cannot convert object to primitive value"
  end.

Definition rate_limited : value := VObj [("Note", VStr "rate limit exceeded")].

Definition rejected_twice : value :=
  VObj [("Error Message", VStr "Invalid API call");
        ("Note", VStr "rate limit exceeded")].

Definition empty_note : value := VObj [("Note", VStr "")].

Definition one_gainer : value :=
  VObj [("top_gainers",
         VArr [VObj [("ticker", VStr "AAA"); ("price", VStr "10");
                     ("change_percentage", VStr "5.5%")]]);
        ("top_losers", VArr [])].

Definition no_counts : value :=
  VObj [("advancing", VNum (Num.of_Z 0));
        ("declining", VNum (Num.of_Z 0));
        ("unchanged", VNum (Num.of_Z 0))].

(** ** Menu and cards *)

(** The page once the listener has run: every part of it says [opened]
    or every part says closed. *)
Definition settled (b : Menu.button) (opened : bool) : Menu.page :=
  {| Menu.mobileMenuButton :=
       Some {| Menu.aria_expanded := Some (if opened then "true" else "false");
               Menu.hamburgerIcon :=
                 option_map (fun _ => if opened then "none" else "block")
                   (Menu.hamburgerIcon b);
               Menu.closeIcon :=
                 option_map (fun _ => if opened then "block" else "none")
                   (Menu.closeIcon b) |};
     Menu.mobileMenu := Some (if opened then "block" else "none") |}.

(** The card of index [i] is above the trigger line in [g]. *)
Definition above_trigger (i : nat) (g : Reveal.geometry) : bool :=
  Reveal.lt (Reveal.cardTop g i) (Reveal.triggerBottom g).

(** A button whose attribute was written by hand, with one icon only. *)
Definition sample_button : Menu.button :=
  {| Menu.aria_expanded := Some "TRUE";
     Menu.hamburgerIcon := Some "";
     Menu.closeIcon := None |}.

(** A window 800 high with the card of index [i] at 100 * (i + 5). *)
Definition sample_geometry : Reveal.geometry :=
  {| Reveal.innerHeight := Num.of_Z 800;
     Reveal.cardTop := fun i => Num.of_Z (100 * (Z.of_nat i + 5)) |}.

(** ** News and blog records *)

Record NewsRecord : Type := {
  news_title : string;
  news_url : string
}.

Record BlogRecord : Type := {
  blog_title : string;
  blog_author : string;
  blog_url : string
}.

(** The item carries the fields of the record, as strings. *)
Definition news_of (item : value) (r : NewsRecord) : Prop :=
  get item "url" = Ok (VStr (news_url r))
  /\ get item "title" = Ok (VStr (news_title r)).

Definition blog_of (item : value) (r : BlogRecord) : Prop :=
  get item "url" = Ok (VStr (blog_url r))
  /\ get item "title" = Ok (VStr (blog_title r))
  /\ get item "author" = Ok (VStr (blog_author r)).

(** The [li] and the [div] of a record. *)
Definition news_row (r : NewsRecord) : node :=
  Element "li" "" (link_html (news_url r) (news_title r)).

Definition blog_row (r : BlogRecord) : node :=
  Element "div" "border-b last:border-b-0 pb-2 mb-2"
    (blog_html (blog_url r) (blog_title r) (blog_author r)).

Definition sample_news : NewsRecord :=
  {| news_title := "Global Markets Rebound as Inflation Fears Ease";
     news_url := "#" |}.

Definition sample_blog : BlogRecord :=
  {| blog_title := "The Future of Fintech: A Comprehensive Analysis";
     blog_author := "By Jane Doe";
     blog_url := "#" |}.

(** ** The [try] block in two steps *)

(** What the [try] block of [src/js/script.js] passes to
    [renderTopMovers], or what it throws before that call. *)
Definition prepared (net : upstream) : result value :=
  do moversData <- await net;
  do signal <- error_or_note moversData;
  if truthy signal then
    do signal <- error_or_note moversData;
    do message <- to_string signal;
    Throw (Error message)
  else
    do ok <- has_movers moversData;
    if ok then
      do top_gainers <- get moversData "top_gainers";
      do gainersData <- map_result normalize (items top_gainers);
      do top_losers <- get moversData "top_losers";
      do losersData <- map_result normalize (items top_losers);
      Ok (movers gainersData losersData)
    else Ok (movers [] []).

(** What [fetchMarketData] leaves in the gainers body, the losers body
    and the widget, given which of the two bodies the page has. *)
Definition fetch_writes (native_text : native_error -> string)
    (net : upstream) (hasGainers hasLosers : bool)
  : children * children * children :=
  let failed (t : thrown) :=
    ([Parsed (error_row (message_of native_text t))],
     [Parsed (error_row (message_of native_text t))],
     [Parsed (error_paragraph (message_of native_text t))]) in
  match prepared net with
  | Throw t => failed t
  | Ok moversData =>
      let '(r, cg, cl) := movers_result moversData hasGainers hasLosers in
      match r with
      | Ok _ => (cg, cl, [Parsed (breadth_html "81" "16" "3")])
      | Throw t => failed t
      end
  end.

(** An upstream entry with its three fields as strings. *)
Record RawRecord : Type := {
  ticker : string;
  raw_price : string;
  change_percentage : string
}.

Definition raw_of (item : value) (r : RawRecord) : Prop :=
  get item "ticker" = Ok (VStr (ticker r))
  /\ get item "price" = Ok (VStr (raw_price r))
  /\ get item "change_percentage" = Ok (VStr (change_percentage r)).

(** The record [fetchMarketData] makes of an entry. *)
Definition normalized_record (r : RawRecord) : MoverRecord :=
  {| symbol := ticker r;
     price := Num.toFixed 2 (parse_float (raw_price r));
     change :=
       Num.toFixed 2
         (parse_float (replace_first "%" "" (change_percentage r))) |}.

Definition raw_aaa : RawRecord :=
  {| ticker := "AAA"; raw_price := "10"; change_percentage := "5.5%" |}.

Definition raw_bbb : RawRecord :=
  {| ticker := "BBB"; raw_price := "3.14159"; change_percentage := "-2.345%" |}.

(** A response with one gainer and one loser. *)
Definition two_movers : value :=
  VObj [("top_gainers", VArr [raw_entry "AAA" "10" "5.5%"]);
        ("top_losers", VArr [raw_entry "BBB" "3.14159" "-2.345%"])].

(** A response whose second loser has no [change_percentage]. *)
Definition one_bad_loser : value :=
  VObj [("top_gainers", VArr [raw_entry "AAA" "10" "5.5%"]);
        ("top_losers",
         VArr [raw_entry "BBB" "3.14159" "-2.345%";
               VObj [("ticker", VStr "CCC"); ("price", VStr "7")]])].

(** A response with an error message beside well-formed movers. *)
Definition error_with_movers : value :=
  VObj [("Error Message", VStr "Invalid API call");
        ("Note", VStr "rate limit exceeded");
        ("top_gainers", VArr [raw_entry "AAA" "10" "5.5%"]);
        ("top_losers", VArr [])].

(** ** The charting library *)


(** Such a library, with [message] for the text of its error. *)
Definition refusing (message : string) : library :=
  fun config charts =>
    match charts with
    | [] => Ok [config]
    | _ :: _ => Throw (Error message)
    end.

(** The text of that error in Chart.js, for the first chart of the
    page. *)
Definition canvas_in_use : string :=
  "Canvas is already in use. Chart with ID '0' must be destroyed before the canvas with ID 'marketChart' can be reused.".

(** A library whose every [new Chart] throws [t], as when the library
    was not loaded. *)
Definition unavailable (t : thrown) : library := fun _ _ => Throw t.

(** ** Reading the widget *)

(** What follows [p] in a text that starts with it. *)
Fixpoint drop_prefix (p s : string) : option string :=
  match p with
  | EmptyString => Some s
  | String a p' =>
      match s with
      | String b s' => if Ascii.eqb a b then drop_prefix p' s' else None
      | EmptyString => None
      end
  end.

(** What follows the first occurrence of [needle]. *)
Fixpoint after (needle hay : string) : option string :=
  match drop_prefix needle hay with
  | Some rest => Some rest
  | None =>
      match hay with
      | String _ rest => after needle rest
      | EmptyString => None
      end
  end.

(** The text up to the first [stop]. *)
Fixpoint before (stop : ascii) (s : string) : string :=
  match s with
  | String c rest => if Ascii.eqb c stop then "" else String c (before stop rest)
  | EmptyString => ""
  end.

(** What the markup reports for a bucket: the text of the first [span]
    that comes after the label of the bucket. *)
Definition reported (label html : string) : option string :=
  match after label html with
  | Some labelled =>
      match after "<span" labelled with
      | Some tag =>
          match after ">" tag with
          | Some text => Some (before "<" text)
          | None => None
          end
      | None => None
      end
  | None => None
  end.

(* ===================================================================== *)
(** * Properties *)
(* ===================================================================== *)

(** ** Sinks *)

Section SinkLemmas.

Lemma find_update_same (s : sink) (f : children -> children) (d : document) :
  find s (update s f d) = option_map f (find s d).
Proof.
  destruct s; simpl; try reflexivity;
    match goal with
    | |- body_of (on_body _ ?t) = _ =>
        destruct t as [[[c|]]|]; reflexivity
    end.
Qed.

Lemma find_update_other (s s' : sink) (f : children -> children) (d : document) :
  s <> s' -> find s' (update s f d) = find s' d.
Proof.
  intros Hne. destruct s, s'; try reflexivity; congruence.
Qed.

Lemma update_absent (s : sink) (f : children -> children) (d : document) :
  find s d = None -> update s f d = d.
Proof.
  destruct d as [g l b m n bl]; destruct s; simpl; intros H.
  - destruct g as [[[c|]]|]; simpl in *; congruence.
  - destruct l as [[[c|]]|]; simpl in *; congruence.
  - subst; reflexivity.
  - subst; reflexivity.
  - subst; reflexivity.
Qed.

Lemma update_update (s : sink) (f g : children -> children) (d : document) :
  update s g (update s f d) = update s (fun c => g (f c)) d.
Proof.
  destruct d as [gt lt b m n bl]; destruct s; simpl;
    repeat match goal with
           | |- context [on_body _ (on_body _ ?t)] =>
               destruct t as [[[c|]]|]; simpl
           | |- context [option_map _ (option_map _ ?o)] =>
               destruct o; simpl
           end; reflexivity.
Qed.

Lemma update_ext (s : sink) (f g : children -> children) (d : document) :
  (forall c, f c = g c) -> update s f d = update s g d.
Proof.
  intros H.
  destruct d as [gt lt b m n bl]; destruct s; simpl;
    repeat match goal with
           | |- context [on_body _ ?t] =>
               destruct t as [[[c|]]|]; simpl
           | |- context [option_map _ ?o] =>
               destruct o; simpl
           end; rewrite ?H; reflexivity.
Qed.

Lemma update_comm (s s' : sink) (f g : children -> children) (d : document) :
  s <> s' -> update s f (update s' g d) = update s' g (update s f d).
Proof.
  intros Hne. destruct s, s'; try congruence; reflexivity.
Qed.

Lemma update_id (s : sink) (d : document) : update s (fun c => c) d = d.
Proof.
  destruct d as [gt lt b m n bl]; destruct s; simpl;
    repeat match goal with
           | |- context [on_body _ ?t] =>
               destruct t as [[[c|]]|]; simpl
           | |- context [option_map _ ?o] =>
               destruct o; simpl
           end; reflexivity.
Qed.

Lemma present_update (s s' : sink) (f : children -> children) (d : document) :
  present s' (update s f d) = present s' d.
Proof.
  unfold present.
  destruct d as [gt lt b m n bl]; destruct s, s'; simpl;
    repeat match goal with
           | |- context [on_body _ ?t] =>
               destruct t as [[[c|]]|]; simpl
           | |- context [option_map _ ?o] =>
               destruct o; simpl
           end; reflexivity.
Qed.

End SinkLemmas.

Arguments update : simpl never.
Arguments find : simpl never.

(** Reads a sink through the updates stacked on a page. *)
Ltac find_updates :=
  repeat first [ rewrite find_update_same
               | rewrite find_update_other by discriminate ].

(** ** Loops that append *)

Lemma forEach_appendChild s create l : forall d c0,
  find s d = Some c0 ->
  forEach l (appendChild s create) d =
  (snd (appended create l),
   update s (fun c => (c ++ fst (appended create l))%list) d).
Proof.
  induction l as [|x l IH]; intros d c0 Hs; simpl.
  - unfold ret. f_equal.
    rewrite (update_ext s _ (fun c => c)) by (intros; now rewrite app_nil_r).
    now rewrite update_id.
  - unfold bindM, appendChild at 1. rewrite Hs.
    destruct (create x) as [child|t]; simpl.
    + erewrite IH by (rewrite find_update_same, Hs; reflexivity).
      destruct (appended create l) as [rest r]; simpl.
      f_equal. rewrite update_update.
      apply update_ext. intros c. now rewrite <- app_assoc.
    + f_equal.
      rewrite (update_ext s _ (fun c => c)) by (intros; now rewrite app_nil_r).
      now rewrite update_id.
Qed.

Lemma forEach_guarded_present s create l : forall d c0,
  find s d = Some c0 ->
  forEach l (fun item => if_present s (appendChild s create item)) d =
  (snd (appended create l),
   update s (fun c => (c ++ fst (appended create l))%list) d).
Proof.
  induction l as [|x l IH]; intros d c0 Hs; simpl.
  - unfold ret. f_equal.
    rewrite (update_ext s _ (fun c => c)) by (intros; now rewrite app_nil_r).
    now rewrite update_id.
  - unfold bindM, if_present at 1, appendChild at 1. rewrite Hs.
    destruct (create x) as [child|t]; simpl.
    + erewrite IH by (rewrite find_update_same, Hs; reflexivity).
      destruct (appended create l) as [rest r]; simpl.
      f_equal. rewrite update_update.
      apply update_ext. intros c. now rewrite <- app_assoc.
    + f_equal.
      rewrite (update_ext s _ (fun c => c)) by (intros; now rewrite app_nil_r).
      now rewrite update_id.
Qed.

Lemma forEach_guarded_absent s create l d :
  find s d = None ->
  forEach l (fun item => if_present s (appendChild s create item)) d = (Ok tt, d).
Proof.
  intros Hs. induction l as [|x l IH]; simpl; [reflexivity|].
  unfold bindM, if_present at 1. rewrite Hs. exact IH.
Qed.

(** ** [renderTopMovers] in closed form *)

Lemma truthy_get v p : truthy v = true -> get v p = Ok (field v p).
Proof. destruct v; simpl; try discriminate; reflexivity. Qed.

Lemma guarded_set s html d :
  if_present s (set_innerHTML s html) d
  = (Ok tt, update s (fun _ => parse html) d).
Proof.
  unfold if_present, set_innerHTML.
  destruct (find s d) eqn:Hs; [reflexivity|].
  now rewrite update_absent.
Qed.

Lemma forEach_guarded s b l d :
  forEach l (fun item => if_present s (appendChild s (createTableRow b) item)) d =
  (snd (guarded_rows (present s d) b l),
   update s (fun c => (c ++ fst (guarded_rows (present s d) b l))%list) d).
Proof.
  unfold guarded_rows, present.
  destruct (find s d) eqn:Hs.
  - eapply forEach_guarded_present; eassumption.
  - rewrite forEach_guarded_absent by assumption.
    simpl. now rewrite update_absent.
Qed.

Lemma renderTopMovers_closed_form v d :
  renderTopMovers v d =
  let '(r, cg, cl) :=
    movers_result v (present GainersBody d) (present LosersBody d) in
  (r, update LosersBody (fun _ => cl) (update GainersBody (fun _ => cg) d)).
Proof.
  unfold renderTopMovers, movers_result, well_shaped.
  destruct (truthy v) eqn:Ht; simpl.
  2:{ unfold bindM. rewrite guarded_set. now rewrite guarded_set. }
  unfold bindM at 1, lift at 1. rewrite (truthy_get v "gainers" Ht).
  destruct (isArray (field v "gainers")) eqn:Hg; simpl.
  2:{ unfold bindM. rewrite guarded_set. now rewrite guarded_set. }
  unfold bindM at 1, lift at 1. rewrite (truthy_get v "losers" Ht).
  destruct (isArray (field v "losers")) eqn:Hl; simpl.
  2:{ unfold bindM. rewrite guarded_set. now rewrite guarded_set. }
  unfold bindM. rewrite guarded_set, guarded_set.
  change (parse "") with (@nil node).
  rewrite forEach_guarded.
  rewrite !present_update.
  set (g := guarded_rows (present GainersBody d) true (items (field v "gainers"))).
  assert (Hdoc :
    update GainersBody (fun c => (c ++ fst g)%list)
      (update LosersBody (fun _ => []) (update GainersBody (fun _ => []) d))
    = update LosersBody (fun _ => []) (update GainersBody (fun _ => fst g) d)).
  { rewrite (update_comm GainersBody LosersBody) by discriminate.
    now rewrite update_update. }
  rewrite Hdoc.
  destruct (snd g) as [[]|t]; [|reflexivity].
  rewrite forEach_guarded. rewrite !present_update.
  f_equal. now rewrite update_update.
Qed.

(** ** Conversions that cannot fail *)

Lemma to_string_throws_NoPrimitive v t :
  to_string v = Throw t -> t = Native NoPrimitive.
Proof.
  revert t. induction v using value_nested_ind; intros t; simpl;
    try discriminate.
  - induction H as [|x l Hx Hl IH]; [discriminate|].
    destruct l as [|y l'].
    + destruct x; try (apply Hx); discriminate.
    + intros Ht.
      assert (Hx' : forall t', match x with
                               | VUndefined | VNull => Ok ""
                               | _ => to_string x
                               end = Throw t' -> t' = Native NoPrimitive).
      { intros t'. destruct x; try (apply Hx); discriminate. }
      destruct (match x with
                | VUndefined | VNull => Ok ""
                | _ => to_string x
                end) as [s|t'] eqn:Ex; simpl in Ht.
      * match type of Ht with
        | bind ?j _ = _ => destruct j as [r|t''] eqn:Ej
        end; simpl in Ht; [discriminate|].
        injection Ht as <-. now apply IH.
      * injection Ht as <-. now apply Hx'.
  - destruct (has_own fs "toString"); [|discriminate].
    now intros [= <-].
Qed.

Lemma convertible_to_string v :
  convertible v = true -> exists s, to_string v = Ok s.
Proof.
  induction v using value_nested_ind; simpl; intros Hc; eauto.
  - induction H as [|x l Hx Hl IH]; [eauto|].
    apply andb_prop in Hc as [Hcx Hcl].
    assert (Hx' : exists s, match x with
                            | VUndefined | VNull => Ok ""
                            | _ => to_string x
                            end = Ok s).
    { destruct x; eauto. }
    destruct Hx' as [s Hs]. destruct (IH Hcl) as [r Hr].
    destruct l as [|y l'].
    + eauto.
    + rewrite Hs. simpl. rewrite Hr. simpl. eauto.
  - destruct (has_own fs "toString"); [discriminate|eauto].
Qed.

Lemma get_not_nullish item p :
  match item with VUndefined | VNull => False | _ => True end ->
  get item p = Ok (field item p).
Proof. destruct item; simpl; intros H; try reflexivity; contradiction. Qed.

Lemma createTableRow_renderable b item :
  renderable item = true -> exists tr, createTableRow b item = Ok tr.
Proof.
  intros Hr. unfold createTableRow.
  assert (Hn : match item with VUndefined | VNull => False | _ => True end)
    by (destruct item; try exact I; discriminate).
  assert (Hc : convertible (field item "symbol") = true
               /\ convertible (field item "price") = true
               /\ convertible (field item "change") = true).
  { unfold renderable in Hr.
    destruct item; try discriminate;
      apply andb_prop in Hr as [Hr H3]; apply andb_prop in Hr as [H1 H2];
      auto. }
  destruct Hc as (H1 & H2 & H3).
  rewrite !(get_not_nullish item _ Hn).
  destruct (convertible_to_string _ H1) as [s1 E1].
  destruct (convertible_to_string _ H2) as [s2 E2].
  destruct (convertible_to_string _ H3) as [s3 E3].
  simpl. rewrite E1. simpl. rewrite E2. simpl. rewrite E3. simpl. eauto.
Qed.

Lemma createTableRow_throws b item t :
  createTableRow b item = Throw t ->
  t = Native (ReadOfNullish "symbol") \/ t = Native NoPrimitive.
Proof.
  unfold createTableRow.
  destruct item; simpl;
    try (intros [= <-]; now left);
    repeat match goal with
           | |- bind (to_string ?v) _ = Throw _ -> _ =>
               destruct (to_string v) as [?s|?t'] eqn:?E; simpl;
               [| intros [= <-]; right;
                  eapply to_string_throws_NoPrimitive; eassumption]
           end; try discriminate.
Qed.

Lemma appended_renderable b l :
  Forall (fun item => renderable item = true) l ->
  snd (appended (createTableRow b) l) = Ok tt.
Proof.
  induction 1 as [|x l Hx Hl IH]; simpl; [reflexivity|].
  destruct (createTableRow_renderable b x Hx) as [tr ->].
  destruct (appended (createTableRow b) l); simpl in *. exact IH.
Qed.

Lemma appended_throws b l t :
  snd (appended (createTableRow b) l) = Throw t ->
  t = Native (ReadOfNullish "symbol") \/ t = Native NoPrimitive.
Proof.
  induction l as [|x l IH]; simpl; [discriminate|].
  destruct (createTableRow b x) as [tr|t'] eqn:E; simpl.
  - destruct (appended (createTableRow b) l); simpl in *. exact IH.
  - intros [= <-]. eapply createTableRow_throws; eassumption.
Qed.

(** ** Mover records *)

Lemma createTableRow_record b item r :
  record_of item r -> createTableRow b item = Ok (table_row b r).
Proof.
  intros (H1 & H2 & H3). unfold createTableRow.
  rewrite H1; simpl. rewrite H2; simpl. rewrite H3; simpl. reflexivity.
Qed.

Lemma appended_records b l recs :
  Forall2 record_of l recs ->
  appended (createTableRow b) l = (map (table_row b) recs, Ok tt).
Proof.
  induction 1 as [|x r l recs Hx Hl IH]; simpl; [reflexivity|].
  rewrite (createTableRow_record b x r Hx), IH. reflexivity.
Qed.

Lemma get_array_shaped v gs ls :
  get v "gainers" = Ok (VArr gs) -> get v "losers" = Ok (VArr ls) ->
  well_shaped v = true
  /\ field v "gainers" = VArr gs /\ field v "losers" = VArr ls.
Proof.
  intros Hg Hl. unfold well_shaped, field. rewrite Hg, Hl.
  destruct v; simpl in *; try discriminate; auto.
Qed.

Lemma length_append (a b : string) :
  String.length (a ++ b) = (String.length a + String.length b)%nat.
Proof. induction a as [|c a IH]; simpl; [reflexivity|now rewrite IH]. Qed.




(** ** Inputs that fail the shape check *)

Lemma renderTopMovers_ill_shaped v d :
  well_shaped v = false ->
  renderTopMovers v d =
  (Ok tt,
   update LosersBody (fun _ => [Parsed unavailable_row])
     (update GainersBody (fun _ => [Parsed unavailable_row]) d)).
Proof.
  intros Hw. rewrite renderTopMovers_closed_form.
  unfold movers_result. rewrite Hw. reflexivity.
Qed.

Lemma renderTopMovers_renderable v d :
  Forall (fun item => renderable item = true) (items (field v "gainers")) ->
  Forall (fun item => renderable item = true) (items (field v "losers")) ->
  fst (renderTopMovers v d) = Ok tt.
Proof.
  intros Hg Hl. rewrite renderTopMovers_closed_form.
  unfold movers_result, guarded_rows.
  destruct (well_shaped v); [|reflexivity].
  destruct (present GainersBody d), (present LosersBody d); simpl;
    rewrite ?(appended_renderable true _ Hg); simpl;
    rewrite ?(appended_renderable false _ Hl); reflexivity.
Qed.

(** C5 (as amended): whenever the argument fails the shape check (it is
    falsy, or its [gainers] or its [losers] is not an array),
    [renderTopMovers] returns without throwing, and each of the two
    table bodies the page has holds the fixed placeholder afterwards.
    On the arguments that pass the check the function returns normally
    when every array element is renderable, that is, neither [null]
    nor [undefined] and with fields that convert to strings. *)
Theorem renderTopMovers_unavailable :
  forall moversData d,
    (well_shaped moversData = false ->
     exists d',
       renderTopMovers moversData d = (Ok tt, d')
       /\ find GainersBody d'
          = option_map (fun _ => [Parsed unavailable_row]) (find GainersBody d)
       /\ find LosersBody d'
          = option_map (fun _ => [Parsed unavailable_row]) (find LosersBody d))
    /\ (Forall (fun item => renderable item = true)
          (items (field moversData "gainers")) ->
        Forall (fun item => renderable item = true)
          (items (field moversData "losers")) ->
        fst (renderTopMovers moversData d) = Ok tt).
Proof.
  intros v d. split.
  - intros Hw. eexists. split; [apply renderTopMovers_ill_shaped, Hw|].
    split; find_updates; reflexivity.
  - apply renderTopMovers_renderable.
Qed.

Lemma renderTopMovers_unavailable_witness :
  (exists d',
     renderTopMovers VNull full_page = (Ok tt, d')
     /\ find GainersBody d'
        = option_map (fun _ => [Parsed unavailable_row]) (find GainersBody full_page)
     /\ find LosersBody d'
        = option_map (fun _ => [Parsed unavailable_row]) (find LosersBody full_page))
  /\ fst (renderTopMovers (movers [record_value aaa] [VNum Num.nan]) full_page)
     = Ok tt.
Proof.
  split.
  - apply (proj1 (renderTopMovers_unavailable VNull full_page)). reflexivity.
  - apply (proj2 (renderTopMovers_unavailable
                    (movers [record_value aaa] [VNum Num.nan]) full_page)).
    + repeat constructor.
    + repeat constructor.
Defined.

(** C5 as stated fails: an argument that passes the shape check but
    holds a [null] element makes [renderTopMovers] throw. *)
Lemma renderTopMovers_not_total :
  well_shaped (movers [VNull] []) = true
  /\ fst (renderTopMovers (movers [VNull] []) full_page)
     = Throw (Native (ReadOfNullish "symbol")).
Proof. split; reflexivity. Qed.

(** ** Absent sinks *)

Lemma renderTopMovers_throws v d t :
  fst (renderTopMovers v d) = Throw t ->
  t = Native (ReadOfNullish "symbol") \/ t = Native NoPrimitive.
Proof.
  rewrite renderTopMovers_closed_form.
  unfold movers_result, guarded_rows.
  destruct (well_shaped v); [|discriminate].
  destruct (present GainersBody d); simpl.
  - destruct (snd (appended (createTableRow true) (items (field v "gainers"))))
      as [[]|t'] eqn:Eg; simpl.
    + destruct (present LosersBody d); simpl; [|discriminate].
      apply appended_throws.
    + intros [= <-]. eapply appended_throws; eassumption.
  - destruct (present LosersBody d); simpl; [|discriminate].
    apply appended_throws.
Qed.

Lemma catch_block_writes native_text error d :
  catch_block native_text error d =
  (Ok tt,
   update BreadthWidget
     (fun _ => parse (error_paragraph (message_of native_text error)))
     (update LosersBody
        (fun _ => parse (error_row (message_of native_text error)))
        (update GainersBody
           (fun _ => parse (error_row (message_of native_text error))) d))).
Proof.
  unfold catch_block, bindM. now rewrite !guarded_set.
Qed.

Lemma part000_catch_block_writes native_text error d :
  Part000.catch_block native_text error d =
  (Ok tt,
   update BreadthWidget
     (fun _ => parse (Part000.error_paragraph (Part000.shown_message native_text error)))
     (update LosersBody
        (fun _ => parse (Part000.error_row (Part000.shown_message native_text error)))
        (update GainersBody
           (fun _ => parse (Part000.error_row (Part000.shown_message native_text error))) d))).
Proof.
  unfold Part000.catch_block, bindM. now rewrite !guarded_set.
Qed.

(** Without its guard a write to an absent sink throws. *)
Lemma unguarded_write_throws :
  set_innerHTML GainersBody unavailable_row bare_page
  = (Throw (Native (SetOfNullish "innerHTML")), bare_page)
  /\ if_present GainersBody (set_innerHTML GainersBody unavailable_row) bare_page
     = (Ok tt, bare_page).
Proof. split; reflexivity. Qed.

(** C9: the accesses to the sinks in [renderTopMovers] and in the
    [catch] block of [fetchMarketData] are guarded.  On any page,
    whichever of the elements it lacks: (1) [renderTopMovers] never
    throws an error of element access, the only errors being those of
    building a row from an item; (2) on an argument that fails the shape
    check it returns and each table body that exists holds the
    placeholder, an absent one staying absent; (3) on arrays of records
    it returns and each table body that exists holds the rows; (4) the
    [catch] block returns and each of the three sinks that exists holds
    the message markup, in [src/js/script.js] and in the copy under
    [src/unnamed/part_000] alike. *)
Theorem absent_sinks_are_skipped :
  forall (native_text : native_error -> string) (d : document),
    (forall moversData t,
        fst (renderTopMovers moversData d) = Throw t ->
        t = Native (ReadOfNullish "symbol") \/ t = Native NoPrimitive)
    /\ (forall moversData,
          well_shaped moversData = false ->
          exists d',
            renderTopMovers moversData d = (Ok tt, d')
            /\ forall s, s = GainersBody \/ s = LosersBody ->
                 find s d' = option_map (fun _ => [Parsed unavailable_row]) (find s d))
    /\ (forall moversData gainers losers grecs lrecs,
          get moversData "gainers" = Ok (VArr gainers) ->
          get moversData "losers" = Ok (VArr losers) ->
          Forall2 record_of gainers grecs ->
          Forall2 record_of losers lrecs ->
          exists d',
            renderTopMovers moversData d = (Ok tt, d')
            /\ find GainersBody d'
               = option_map (fun _ => map (table_row true) grecs) (find GainersBody d)
            /\ find LosersBody d'
               = option_map (fun _ => map (table_row false) lrecs) (find LosersBody d))
    /\ (forall error,
          exists d',
            catch_block native_text error d = (Ok tt, d')
            /\ find GainersBody d'
               = option_map (fun _ => parse (error_row (message_of native_text error)))
                   (find GainersBody d)
            /\ find LosersBody d'
               = option_map (fun _ => parse (error_row (message_of native_text error)))
                   (find LosersBody d)
            /\ find BreadthWidget d'
               = option_map (fun _ => parse (error_paragraph (message_of native_text error)))
                   (find BreadthWidget d))
    /\ (forall error,
          exists d',
            Part000.catch_block native_text error d = (Ok tt, d')
            /\ find GainersBody d'
               = option_map
                   (fun _ => parse (Part000.error_row
                                      (Part000.shown_message native_text error)))
                   (find GainersBody d)
            /\ find LosersBody d'
               = option_map
                   (fun _ => parse (Part000.error_row
                                      (Part000.shown_message native_text error)))
                   (find LosersBody d)
            /\ find BreadthWidget d'
               = option_map
                   (fun _ => parse (Part000.error_paragraph
                                      (Part000.shown_message native_text error)))
                   (find BreadthWidget d)).
Proof.
  intros native_text d. repeat apply conj.
  - intros v t. apply renderTopMovers_throws.
  - intros v Hw. eexists. split; [apply renderTopMovers_ill_shaped, Hw|].
    intros s [-> | ->]; find_updates; reflexivity.
  - intros v gs ls grecs lrecs Hg Hl Rg Rl.
    destruct (get_array_shaped v gs ls Hg Hl) as (Hw & Eg & El).
    rewrite renderTopMovers_closed_form.
    unfold movers_result, guarded_rows, present.
    rewrite Hw, Eg, El. simpl items.
    rewrite (appended_records true gs grecs Rg).
    rewrite (appended_records false ls lrecs Rl).
    destruct (find GainersBody d) eqn:Fg, (find LosersBody d) eqn:Fl;
      simpl; (eexists; split; [reflexivity|]); split.
    all: try (rewrite find_update_other by discriminate;
              rewrite find_update_same, Fg; reflexivity).
    all: rewrite find_update_same, find_update_other by discriminate;
      rewrite Fl; reflexivity.
  - intros error. rewrite catch_block_writes. eexists. split; [reflexivity|].
    split; [|split]; find_updates; reflexivity.
  - intros error. rewrite part000_catch_block_writes.
    eexists. split; [reflexivity|].
    split; [|split]; find_updates; reflexivity.
Qed.

Lemma absent_sinks_are_skipped_witness :
  (exists d',
      renderTopMovers VNull bare_page = (Ok tt, d')
      /\ forall s, s = GainersBody \/ s = LosersBody ->
           find s d'
           = option_map (fun _ => [Parsed unavailable_row]) (find s bare_page))
  /\ (exists d',
        renderTopMovers (movers [record_value aaa] [record_value bbb])
          losers_only_page = (Ok tt, d')
        /\ find GainersBody d'
           = option_map (fun _ => map (table_row true) [aaa])
               (find GainersBody losers_only_page)
        /\ find LosersBody d'
           = option_map (fun _ => map (table_row false) [bbb])
               (find LosersBody losers_only_page)).
Proof.
  split.
  - apply (proj1 (proj2 (absent_sinks_are_skipped sample_text bare_page)) VNull).
    reflexivity.
  - apply (proj1 (proj2 (proj2 (absent_sinks_are_skipped sample_text
                                  losers_only_page)))
             (movers [record_value aaa] [record_value bbb])
             [record_value aaa] [record_value bbb] [aaa] [bbb]).
    + reflexivity.
    + reflexivity.
    + repeat constructor.
    + repeat constructor.
Defined.

(** ** Rendering twice *)



Lemma renderMarketBreadth_closed_form v d :
  renderMarketBreadth v d =
  if present BreadthWidget d then
    if truthy v then
      match breadth_markup v with
      | Ok html => (Ok tt, update BreadthWidget (fun _ => parse html) d)
      | Throw t => (Throw t, d)
      end
    else (Ok tt, update BreadthWidget (fun _ => parse unavailable_breadth) d)
  else (Ok tt, d).
Proof.
  unfold renderMarketBreadth, present.
  destruct (find BreadthWidget d) eqn:Hs; simpl.
  - destruct (truthy v); simpl.
    + unfold bindM, lift. destruct (breadth_markup v); [|reflexivity].
      unfold set_innerHTML. now rewrite Hs.
    + apply guarded_set.
  - unfold if_present. now rewrite Hs.
Qed.


Lemma present_find s d : present s d = true -> exists c, find s d = Some c.
Proof. unfold present. destruct (find s d); [eauto|discriminate]. Qed.

Lemma set_innerHTML_present s html d :
  present s d = true ->
  set_innerHTML s html d = (Ok tt, update s (fun _ => parse html) d).
Proof.
  intros Hp. destruct (present_find s d Hp) as [c Hc].
  unfold set_innerHTML. now rewrite Hc.
Qed.

Lemma renderInsights_closed_form newsData blogsData d :
  renderInsights newsData blogsData d =
  let '(r, cn, cb) :=
    insights_result newsData blogsData
      (present NewsFeedList d) (present BlogsContainer d) in
  (r, update BlogsContainer (fun _ => cb) (update NewsFeedList (fun _ => cn) d)).
Proof.
  unfold renderInsights, insights_result.
  destruct (negb (present NewsFeedList d) || negb (present BlogsContainer d)
            || negb (isArray newsData) || negb (isArray blogsData)) eqn:Hc.
  - unfold bindM. now rewrite !guarded_set.
  - apply orb_false_elim in Hc as [Hc Hb].
    apply orb_false_elim in Hc as [Hc Hn].
    apply orb_false_elim in Hc as [Hpn Hpb].
    apply negb_false_iff in Hpn, Hpb.
    unfold bindM.
    rewrite (set_innerHTML_present _ _ _ Hpn).
    rewrite set_innerHTML_present by (now rewrite present_update).
    change (parse "") with (@nil node).
    destruct (present_find _ _ Hpn) as [cn Hcn].
    erewrite forEach_appendChild
      by (rewrite find_update_other by discriminate;
          rewrite find_update_same, Hcn; reflexivity).
    set (n := appended createNewsItem (items newsData)).
    assert (Hdoc :
      update NewsFeedList (fun c => (c ++ fst n)%list)
        (update BlogsContainer (fun _ => [])
           (update NewsFeedList (fun _ => []) d))
      = update BlogsContainer (fun _ => [])
          (update NewsFeedList (fun _ => fst n) d)).
    { rewrite (update_comm NewsFeedList BlogsContainer) by discriminate.
      now rewrite update_update. }
    rewrite Hdoc.
    destruct (snd n) as [[]|t]; [|reflexivity].
    destruct (present_find _ _ Hpb) as [cb Hcb].
    erewrite forEach_appendChild
      by (rewrite find_update_same, find_update_other by discriminate;
          rewrite Hcb; reflexivity).
    f_equal. now rewrite update_update.
Qed.


(** ** The chart *)






Lemma find_with_charts s charts d : find s (with_charts charts d) = find s d.
Proof. destruct s; reflexivity. Qed.

Lemma present_with_charts s charts d :
  present s (with_charts charts d) = present s d.
Proof. unfold present. now rewrite find_with_charts. Qed.

Lemma marketChart_update s f d : marketChart (update s f d) = marketChart d.
Proof. destruct s; reflexivity. Qed.





(** ** The fetch pipeline *)

Lemma catch_block_shows native_text error d :
  catch_block native_text error d
  = (Ok tt, shows_error (message_of native_text error) d).
Proof. apply catch_block_writes. Qed.

Lemma part000_catch_block_shows native_text error d :
  Part000.catch_block native_text error d
  = (Ok tt, part000_shows_error (Part000.shown_message native_text error) d).
Proof. apply part000_catch_block_writes. Qed.

Lemma breadth_markup_mock :
  breadth_markup mockBreadthData = Ok (breadth_html "81" "16" "3").
Proof. vm_compute. reflexivity. Qed.

Lemma renderMarketBreadth_mock d :
  renderMarketBreadth mockBreadthData d
  = (Ok tt,
     update BreadthWidget (fun _ => [Parsed (breadth_html "81" "16" "3")]) d).
Proof.
  rewrite renderMarketBreadth_closed_form, breadth_markup_mock.
  unfold present. destruct (find BreadthWidget d) eqn:Hs; simpl.
  - reflexivity.
  - now rewrite update_absent.
Qed.

Lemma renderTopMovers_empty d :
  renderTopMovers (movers [] []) d
  = (Ok tt, update LosersBody (fun _ => []) (update GainersBody (fun _ => []) d)).
Proof.
  rewrite renderTopMovers_closed_form.
  unfold movers_result, guarded_rows. simpl.
  destruct (present GainersBody d), (present LosersBody d); reflexivity.
Qed.

Lemma render_response_degraded v d :
  has_movers v = Ok false ->
  render_response v d = (Ok tt, shows_no_movers d).
Proof.
  intros H. unfold render_response, bindM at 1, bindM at 1, lift at 1.
  rewrite H. rewrite renderTopMovers_empty.
  now rewrite renderMarketBreadth_mock.
Qed.

Lemma try_block_json v d :
  try_block (Json v) d =
  match error_or_note v with
  | Throw t => (Throw t, d)
  | Ok signal =>
      if truthy signal then
        match to_string signal with
        | Ok message => (Throw (Error message), d)
        | Throw t => (Throw t, d)
        end
      else render_response v d
  end.
Proof.
  unfold try_block. simpl. unfold bindM, lift. simpl.
  destruct (error_or_note v) as [signal|t]; [|reflexivity].
  destruct (truthy signal); [|reflexivity].
  destruct (to_string signal); reflexivity.
Qed.

Lemma part000_try_block_json v d :
  Part000.try_block (Json v) d =
  match error_or_note v with
  | Throw t => (Throw t, d)
  | Ok signal =>
      if truthy signal then (Throw (Error Part000.api_error), d)
      else render_response v d
  end.
Proof.
  unfold Part000.try_block. simpl. unfold bindM, lift. simpl.
  destruct (error_or_note v) as [signal|t]; [|reflexivity].
  destruct (truthy signal); reflexivity.
Qed.

Lemma find_shows_error message d :
  find GainersBody (shows_error message d)
  = option_map (fun _ => [Parsed (error_row message)]) (find GainersBody d)
  /\ find LosersBody (shows_error message d)
     = option_map (fun _ => [Parsed (error_row message)]) (find LosersBody d)
  /\ find BreadthWidget (shows_error message d)
     = option_map (fun _ => [Parsed (error_paragraph message)]) (find BreadthWidget d).
Proof.
  unfold shows_error. split; [|split]; find_updates; reflexivity.
Qed.

Lemma find_part000_shows_error message d :
  find GainersBody (part000_shows_error message d)
  = option_map (fun _ => [Parsed (Part000.error_row message)]) (find GainersBody d)
  /\ find LosersBody (part000_shows_error message d)
     = option_map (fun _ => [Parsed (Part000.error_row message)]) (find LosersBody d)
  /\ find BreadthWidget (part000_shows_error message d)
     = option_map (fun _ => [Parsed (Part000.error_paragraph message)])
         (find BreadthWidget d).
Proof.
  unfold part000_shows_error. split; [|split]; find_updates; reflexivity.
Qed.

Lemma find_shows_no_movers d :
  find GainersBody (shows_no_movers d)
  = option_map (fun _ => []) (find GainersBody d)
  /\ find LosersBody (shows_no_movers d)
     = option_map (fun _ => []) (find LosersBody d)
  /\ find BreadthWidget (shows_no_movers d)
     = option_map (fun _ => [Parsed (breadth_html "81" "16" "3")])
         (find BreadthWidget d).
Proof.
  unfold shows_no_movers. split; [|split]; find_updates; reflexivity.
Qed.

Lemma get_field v p : nullish v = false -> get v p = Ok (field v p).
Proof. destruct v; simpl; try discriminate; reflexivity. Qed.

Lemma error_or_note_falsy v :
  nullish v = false ->
  truthy (field v "Error Message") = false ->
  truthy (field v "Note") = false ->
  exists signal, error_or_note v = Ok signal /\ truthy signal = false.
Proof.
  intros Hn He Ho. unfold error_or_note.
  rewrite (get_field v _ Hn). simpl. rewrite He.
  rewrite (get_field v _ Hn). eauto.
Qed.

Lemma has_movers_value v :
  nullish v = false ->
  has_movers v
  = Ok (truthy v && isArray (field v "top_gainers")
        && isArray (field v "top_losers")).
Proof.
  intros Hn. unfold has_movers.
  destruct (truthy v); simpl; [|reflexivity].
  rewrite !(get_field v _ Hn). simpl.
  destruct (isArray (field v "top_gainers")); reflexivity.
Qed.

Lemma fetchMarketData_degrades native_text v d :
  nullish v = false ->
  truthy (field v "Error Message") = false ->
  truthy (field v "Note") = false ->
  isArray (field v "top_gainers") && isArray (field v "top_losers") = false ->
  try_block (Json v) d = (Ok tt, shows_no_movers d)
  /\ fetchMarketData native_text (Json v) d = (Ok tt, shows_no_movers d)
  /\ Part000.fetchMarketData native_text (Json v) d = (Ok tt, shows_no_movers d).
Proof.
  intros Hn He Ho Ha.
  destruct (error_or_note_falsy v Hn He Ho) as (signal & Es & Hs).
  assert (Hm : has_movers v = Ok false).
  { rewrite (has_movers_value v Hn), <- andb_assoc, Ha. apply f_equal, andb_false_r. }
  assert (Ht : try_block (Json v) d = (Ok tt, shows_no_movers d)).
  { rewrite try_block_json, Es, Hs. now apply render_response_degraded. }
  split; [exact Ht|]. split.
  - unfold fetchMarketData, try_catch. now rewrite Ht.
  - unfold Part000.fetchMarketData, try_catch.
    rewrite part000_try_block_json, Es, Hs.
    now rewrite render_response_degraded.
Qed.

(** C3 (as amended): when the response carries a non-empty string as
    its [Note] and no truthy [Error Message], [fetchMarketData] of
    [src/js/script.js] builds no mover row and writes the markup of
    exactly that string into each of the three sinks the page has.  The
    copy under [src/unnamed/part_000] writes its own fixed message
    instead. *)
Theorem note_is_surfaced :
  forall native_text moversData note d,
    get moversData "Note" = Ok (VStr note) ->
    note <> "" ->
    truthy (field moversData "Error Message") = false ->
    (exists d',
        fetchMarketData native_text (Json moversData) d = (Ok tt, d')
        /\ find GainersBody d'
           = option_map (fun _ => [Parsed (error_row note)]) (find GainersBody d)
        /\ find LosersBody d'
           = option_map (fun _ => [Parsed (error_row note)]) (find LosersBody d)
        /\ find BreadthWidget d'
           = option_map (fun _ => [Parsed (error_paragraph note)])
               (find BreadthWidget d))
    /\ (exists d',
          Part000.fetchMarketData native_text (Json moversData) d = (Ok tt, d')
          /\ find GainersBody d'
             = option_map (fun _ => [Parsed (Part000.error_row Part000.api_error)])
                 (find GainersBody d)
          /\ find LosersBody d'
             = option_map (fun _ => [Parsed (Part000.error_row Part000.api_error)])
                 (find LosersBody d)
          /\ find BreadthWidget d'
             = option_map
                 (fun _ => [Parsed (Part000.error_paragraph Part000.api_error)])
                 (find BreadthWidget d)).
Proof.
  intros native_text v note d Hnote Hne He.
  assert (Hn : nullish v = false) by (destruct v; simpl in *; congruence).
  assert (Es : error_or_note v = Ok (VStr note)).
  { unfold error_or_note. rewrite (get_field v _ Hn). simpl. now rewrite He. }
  assert (Ht : truthy (VStr note) = true).
  { simpl. apply negb_true_iff. now apply String.eqb_neq. }
  split.
  - exists (shows_error note d). split; [|apply find_shows_error].
    unfold fetchMarketData, try_catch.
    rewrite try_block_json, Es, Ht. simpl to_string. cbv iota.
    apply catch_block_shows.
  - exists (part000_shows_error Part000.api_error d).
    split; [|apply find_part000_shows_error].
    unfold Part000.fetchMarketData, try_catch.
    rewrite part000_try_block_json, Es, Ht.
    apply part000_catch_block_shows.
Qed.

Lemma note_is_surfaced_witness :
  (exists d',
      fetchMarketData sample_text (Json rate_limited) full_page = (Ok tt, d')
      /\ find GainersBody d'
         = option_map (fun _ => [Parsed (error_row "rate limit exceeded")])
             (find GainersBody full_page)
      /\ find LosersBody d'
         = option_map (fun _ => [Parsed (error_row "rate limit exceeded")])
             (find LosersBody full_page)
      /\ find BreadthWidget d'
         = option_map (fun _ => [Parsed (error_paragraph "rate limit exceeded")])
             (find BreadthWidget full_page))
  /\ (exists d',
        Part000.fetchMarketData sample_text (Json rate_limited) full_page
        = (Ok tt, d')
        /\ find GainersBody d'
           = option_map (fun _ => [Parsed (Part000.error_row Part000.api_error)])
               (find GainersBody full_page)
        /\ find LosersBody d'
           = option_map (fun _ => [Parsed (Part000.error_row Part000.api_error)])
               (find LosersBody full_page)
        /\ find BreadthWidget d'
           = option_map
               (fun _ => [Parsed (Part000.error_paragraph Part000.api_error)])
               (find BreadthWidget full_page)).
Proof.
  apply (note_is_surfaced sample_text rate_limited "rate limit exceeded" full_page).
  - reflexivity.
  - discriminate.
  - reflexivity.
Defined.

(** C3 as stated fails.  On the response of the specification's own
    example the copy under [src/unnamed/part_000] shows its fixed
    message, in which the upstream string does not occur; and
    [src/js/script.js] shows the [Error Message], not the [Note], of a
    response that carries both. *)
Lemma note_not_surfaced :
  (find GainersBody
     (snd (Part000.fetchMarketData sample_text (Json rate_limited) full_page))
   = Some [Parsed (Part000.error_row Part000.api_error)]
   /\ contains "rate limit exceeded" (Part000.error_row Part000.api_error) = false)
  /\ (find GainersBody
        (snd (fetchMarketData sample_text (Json rejected_twice) full_page))
      = Some [Parsed (error_row "Invalid API call")]
      /\ contains "rate limit exceeded" (error_row "Invalid API call") = false).
Proof. repeat split; vm_compute; reflexivity. Qed.

(** C4: a response that is not [null], has no truthy [Error Message]
    or [Note], and whose [top_gainers] or [top_losers] is not an array
    does not make [fetchMarketData] fail: the movers are rendered from
    [{gainers: [], losers: []}], so each table body the page has ends
    with no child at all (not the placeholder), and the mock breadth is
    shown.  The body [null] itself never reaches the shape check: the
    read of its [Error Message] throws and the [catch] block shows the
    engine's message in all three sinks. *)
Theorem missing_arrays_degrade_gracefully :
  forall native_text d,
    (forall moversData,
        nullish moversData = false ->
        truthy (field moversData "Error Message") = false ->
        truthy (field moversData "Note") = false ->
        isArray (field moversData "top_gainers")
        && isArray (field moversData "top_losers") = false ->
        exists d',
          fetchMarketData native_text (Json moversData) d = (Ok tt, d')
          /\ d' = snd (renderMarketBreadth mockBreadthData
                         (snd (renderTopMovers (movers [] []) d)))
          /\ find GainersBody d' = option_map (fun _ => []) (find GainersBody d)
          /\ find LosersBody d' = option_map (fun _ => []) (find LosersBody d))
    /\ (exists d',
          fetchMarketData native_text (Json VNull) d = (Ok tt, d')
          /\ find GainersBody d'
             = option_map
                 (fun _ => [Parsed (error_row
                                      (native_text (ReadOfNullish "Error Message")))])
                 (find GainersBody d)
          /\ find LosersBody d'
             = option_map
                 (fun _ => [Parsed (error_row
                                      (native_text (ReadOfNullish "Error Message")))])
                 (find LosersBody d)).
Proof.
  intros native_text d. split.
  - intros v Hn He Ho Ha.
    destruct (fetchMarketData_degrades native_text v d Hn He Ho Ha)
      as (_ & Hf & _).
    exists (shows_no_movers d). split; [exact Hf|]. split.
    + rewrite renderTopMovers_empty. simpl snd.
      now rewrite renderMarketBreadth_mock.
    + destruct (find_shows_no_movers d) as (Hg & Hl & _). now split.
  - exists (shows_error (native_text (ReadOfNullish "Error Message")) d).
    split.
    + unfold fetchMarketData, try_catch. rewrite try_block_json. simpl.
      apply catch_block_shows.
    + destruct (find_shows_error
                  (native_text (ReadOfNullish "Error Message")) d)
        as (Hg & Hl & _). now split.
Qed.

Lemma missing_arrays_degrade_gracefully_witness :
  exists d',
    fetchMarketData sample_text (Json (VObj [])) full_page = (Ok tt, d')
    /\ d' = snd (renderMarketBreadth mockBreadthData
                   (snd (renderTopMovers (movers [] []) full_page)))
    /\ find GainersBody d' = option_map (fun _ => []) (find GainersBody full_page)
    /\ find LosersBody d' = option_map (fun _ => []) (find LosersBody full_page).
Proof.
  apply (proj1 (missing_arrays_degrade_gracefully sample_text full_page) (VObj []));
    reflexivity.
Defined.

(** A truthy [Error Message] or [Note] always ends the [try] block
    with a throw. *)
Lemma truthy_signal_is_a_rejection v d :
  nullish v = false ->
  truthy (field v "Error Message") || truthy (field v "Note") = true ->
  exists t, try_block (Json v) d = (Throw t, d).
Proof.
  intros Hn Ht. rewrite try_block_json. unfold error_or_note.
  rewrite (get_field v _ Hn). cbn [bind].
  destruct (truthy (field v "Error Message")) eqn:He.
  - rewrite He. destruct (to_string (field v "Error Message")); eauto.
  - rewrite (get_field v _ Hn). simpl in Ht. rewrite Ht.
    destruct (to_string (field v "Note")); eauto.
Qed.

(** C10: the rejection test looks at truthiness only.  A response whose
    [Error Message] or [Note] is the empty string, the other of the two
    being falsy as well, is not rejected: the [try] block goes on to the
    shape check, and when [top_gainers] or [top_losers] is not an array
    the outcome is the graceful one (empty tables, mock breadth), not
    the [catch] block. *)
Theorem empty_signal_is_not_a_rejection :
  forall native_text moversData d,
    field moversData "Error Message" = VStr ""
    \/ field moversData "Note" = VStr "" ->
    truthy (field moversData "Error Message") = false ->
    truthy (field moversData "Note") = false ->
    try_block (Json moversData) d = render_response moversData d
    /\ (isArray (field moversData "top_gainers")
        && isArray (field moversData "top_losers") = false ->
        fetchMarketData native_text (Json moversData) d
        = (renderTopMovers (movers [] []) >> renderMarketBreadth mockBreadthData) d
        /\ exists d',
             fetchMarketData native_text (Json moversData) d = (Ok tt, d')
             /\ find GainersBody d' = option_map (fun _ => []) (find GainersBody d)
             /\ find LosersBody d' = option_map (fun _ => []) (find LosersBody d)
             /\ find BreadthWidget d'
                = option_map (fun _ => [Parsed (breadth_html "81" "16" "3")])
                    (find BreadthWidget d)).
Proof.
  intros native_text v d Hempty He Ho.
  assert (Hn : nullish v = false).
  { destruct v; try reflexivity; destruct Hempty as [H|H]; discriminate H. }
  destruct (error_or_note_falsy v Hn He Ho) as (signal & Es & Hs).
  split.
  - now rewrite try_block_json, Es, Hs.
  - intros Ha.
    destruct (fetchMarketData_degrades native_text v d Hn He Ho Ha)
      as (_ & Hf & _).
    split.
    + rewrite Hf. unfold bindM. rewrite renderTopMovers_empty.
      now rewrite renderMarketBreadth_mock.
    + exists (shows_no_movers d). split; [exact Hf|].
      apply find_shows_no_movers.
Qed.

Lemma empty_signal_is_not_a_rejection_witness :
  try_block (Json empty_note) full_page = render_response empty_note full_page
  /\ (isArray (field empty_note "top_gainers")
      && isArray (field empty_note "top_losers") = false ->
      fetchMarketData sample_text (Json empty_note) full_page
      = (renderTopMovers (movers [] []) >> renderMarketBreadth mockBreadthData)
          full_page
      /\ exists d',
           fetchMarketData sample_text (Json empty_note) full_page = (Ok tt, d')
           /\ find GainersBody d'
              = option_map (fun _ => []) (find GainersBody full_page)
           /\ find LosersBody d'
              = option_map (fun _ => []) (find LosersBody full_page)
           /\ find BreadthWidget d'
              = option_map (fun _ => [Parsed (breadth_html "81" "16" "3")])
                  (find BreadthWidget full_page)).
Proof.
  apply (empty_signal_is_not_a_rejection sample_text empty_note full_page).
  - right. reflexivity.
  - reflexivity.
  - reflexivity.
Defined.

(** ** Market breadth *)

Lemma renderTopMovers_keeps_breadth v d :
  find BreadthWidget (snd (renderTopMovers v d)) = find BreadthWidget d.
Proof.
  rewrite renderTopMovers_closed_form.
  destruct (movers_result v (present GainersBody d) (present LosersBody d))
    as [[r cg] cl].
  simpl snd. now rewrite !find_update_other by discriminate.
Qed.

Lemma render_response_breadth v d d' :
  render_response v d = (Ok tt, d') ->
  find BreadthWidget d'
  = option_map (fun _ => [Parsed (breadth_html "81" "16" "3")])
      (find BreadthWidget d).
Proof.
  unfold render_response. unfold bindM at 1.
  match goal with
  | |- context [match ?m d with _ => _ end] => destruct (m d) as [[[]|t] d1] eqn:E1
  end; [|discriminate].
  rewrite renderMarketBreadth_mock. intros [= <-].
  rewrite find_update_same. f_equal.
  (* the movers step leaves the widget alone *)
  revert E1. unfold bindM, lift.
  destruct (has_movers v) as [[|]|t]; [| |discriminate].
  - destruct (get v "top_gainers") as [tg|t]; [|discriminate].
    destruct (map_result normalize (items tg)) as [gd|t]; [|discriminate].
    destruct (get v "top_losers") as [tl|t]; [|discriminate].
    destruct (map_result normalize (items tl)) as [ld|t]; [|discriminate].
    intros E1. rewrite <- (renderTopMovers_keeps_breadth (movers gd ld) d).
    now rewrite E1.
  - intros E1. rewrite <- (renderTopMovers_keeps_breadth (movers [] []) d).
    now rewrite E1.
Qed.

Lemma try_block_breadth net d d' :
  try_block net d = (Ok tt, d') ->
  find BreadthWidget d'
  = option_map (fun _ => [Parsed (breadth_html "81" "16" "3")])
      (find BreadthWidget d).
Proof.
  destruct net as [m|m|v]; try discriminate.
  rewrite try_block_json.
  destruct (error_or_note v) as [signal|t]; [|discriminate].
  destruct (truthy signal).
  - destruct (to_string signal); discriminate.
  - apply render_response_breadth.
Qed.

(** C6: on the mock snapshot [{advancing: 2500, declining: 500,
    unchanged: 100}] the total is 3100, each share is the count divided
    by the total, times 100, rounded to the nearest integer, which gives
    81, 16 and 3; [renderMarketBreadth] writes the widget with 81%, 16%
    and 3%, and this is what the widget shows whenever the [try] block
    of [fetchMarketData] completes.  In the markup written, the first
    [span] after the label [Advancing] reads [81%], the one after
    [Declining] reads [16%] and the one after [Unchanged] reads [3%]. *)
Theorem mock_breadth_percentages :
  (do sum <- js_add (VNum (Num.of_Z 2500)) (VNum (Num.of_Z 500));
   js_add sum (VNum (Num.of_Z 100))) = Ok (VNum (Num.of_Z 3100))
  /\ percentage (VNum (Num.of_Z 2500)) (VNum (Num.of_Z 3100)) = Ok (Num.of_Z 81)
  /\ percentage (VNum (Num.of_Z 500)) (VNum (Num.of_Z 3100)) = Ok (Num.of_Z 16)
  /\ percentage (VNum (Num.of_Z 100)) (VNum (Num.of_Z 3100)) = Ok (Num.of_Z 3)
  /\ (Qfloor (2500 / 3100 * 100 + (1 # 2))%Q = 81
      /\ Qfloor (500 / 3100 * 100 + (1 # 2))%Q = 16
      /\ Qfloor (100 / 3100 * 100 + (1 # 2))%Q = 3)
  /\ breadth_markup mockBreadthData = Ok (breadth_html "81" "16" "3")
  /\ (forall d,
        renderMarketBreadth mockBreadthData d
        = (Ok tt,
           update BreadthWidget
             (fun _ => [Parsed (breadth_html "81" "16" "3")]) d))
  /\ (forall d,
        find BreadthWidget (snd (renderMarketBreadth mockBreadthData d))
        = option_map (fun _ => [Parsed (breadth_html "81" "16" "3")])
            (find BreadthWidget d))
  /\ (forall net d d',
        try_block net d = (Ok tt, d') ->
        find BreadthWidget d'
        = option_map (fun _ => [Parsed (breadth_html "81" "16" "3")])
            (find BreadthWidget d))
  /\ reported "Advancing" (breadth_html "81" "16" "3") = Some "81%"
  /\ reported "Declining" (breadth_html "81" "16" "3") = Some "16%"
  /\ reported "Unchanged" (breadth_html "81" "16" "3") = Some "3%"
  /\ (forall html,
        breadth_markup mockBreadthData = Ok html ->
        reported "Advancing" html = Some "81%"
        /\ reported "Declining" html = Some "16%"
        /\ reported "Unchanged" html = Some "3%").
Proof.
  split; [vm_compute; reflexivity|].
  split; [vm_compute; reflexivity|].
  split; [vm_compute; reflexivity|].
  split; [vm_compute; reflexivity|].
  split; [repeat split; vm_compute; reflexivity|].
  split; [apply breadth_markup_mock|].
  split; [apply renderMarketBreadth_mock|].
  split.
  { intros d. rewrite renderMarketBreadth_mock. apply find_update_same. }
  split; [apply try_block_breadth|].
  split; [vm_compute; reflexivity|].
  split; [vm_compute; reflexivity|].
  split; [vm_compute; reflexivity|].
  intros html H. rewrite breadth_markup_mock in H. injection H as <-.
  repeat split; vm_compute; reflexivity.
Qed.

Lemma mock_breadth_percentages_witness :
  find BreadthWidget (snd (try_block (Json one_gainer) full_page))
  = option_map (fun _ => [Parsed (breadth_html "81" "16" "3")])
      (find BreadthWidget full_page).
Proof.
  apply (proj1 (proj2 (proj2 (proj2 (proj2 (proj2 (proj2 (proj2 (proj2
           mock_breadth_percentages)))))))) (Json one_gainer) full_page).
  vm_compute. reflexivity.
Defined.

Lemma div_by_zero x s : Num.is_nonfinite (Num.div x (S754_zero s)) = true.
Proof. destruct x; reflexivity. Qed.

Lemma times_100_nonfinite x :
  Num.is_nonfinite x = true ->
  Num.is_nonfinite (Num.round (Num.mul x (Num.of_Z 100))) = true.
Proof. destruct x as [| [|] | |]; try discriminate; reflexivity. Qed.

Lemma to_string_nonfinite x :
  Num.is_nonfinite x = true -> non_finite_text (Num.to_string x).
Proof.
  unfold non_finite_text.
  destruct x as [| [|] | |]; try discriminate; simpl; auto.
Qed.

Lemma js_add_numbers a b :
  js_add (VNum a) (VNum b) = Ok (VNum (Num.add a b)).
Proof. reflexivity. Qed.

Lemma percentage_of_zero_total x s :
  exists p,
    percentage (VNum x) (VNum (S754_zero s)) = Ok p
    /\ Num.is_nonfinite p = true.
Proof.
  unfold percentage, js_div. simpl. eexists. split; [reflexivity|].
  apply times_100_nonfinite, div_by_zero.
Qed.

Lemma reported_non_finite a b c :
  non_finite_text a -> non_finite_text b -> non_finite_text c ->
  reported "Advancing" (breadth_html a b c) = Some (a ++ "%")
  /\ reported "Declining" (breadth_html a b c) = Some (b ++ "%")
  /\ reported "Unchanged" (breadth_html a b c) = Some (c ++ "%")
  /\ contains "Data unavailable." (breadth_html a b c) = false.
Proof.
  intros [-> | [-> | ->]] [-> | [-> | ->]] [-> | [-> | ->]];
    vm_compute; repeat split.
Qed.

(** C8: when the three counts are numbers whose sum is zero,
    [renderMarketBreadth] divides by that zero all the same: it does
    not throw and writes no placeholder, and each of the three
    percentages it writes into the widget is the text of a non-finite
    number ([NaN], [Infinity] or [-Infinity]): in the markup written,
    the first [span] after each label reads that text followed by [%],
    and the words of the placeholder occur nowhere. *)
Theorem zero_total_gives_non_finite :
  forall breadthData a b c s d old,
    get breadthData "advancing" = Ok (VNum a) ->
    get breadthData "declining" = Ok (VNum b) ->
    get breadthData "unchanged" = Ok (VNum c) ->
    Num.add (Num.add a b) c = S754_zero s ->
    find BreadthWidget d = Some old ->
    exists pa pb pc,
      percentage (VNum a) (VNum (S754_zero s)) = Ok pa
      /\ percentage (VNum b) (VNum (S754_zero s)) = Ok pb
      /\ percentage (VNum c) (VNum (S754_zero s)) = Ok pc
      /\ Num.is_nonfinite pa = true
      /\ Num.is_nonfinite pb = true
      /\ Num.is_nonfinite pc = true
      /\ non_finite_text (Num.to_string pa)
      /\ non_finite_text (Num.to_string pb)
      /\ non_finite_text (Num.to_string pc)
      /\ renderMarketBreadth breadthData d
         = (Ok tt,
            update BreadthWidget
              (fun _ => [Parsed (breadth_html (Num.to_string pa)
                                   (Num.to_string pb) (Num.to_string pc))]) d)
      /\ breadth_html (Num.to_string pa) (Num.to_string pb) (Num.to_string pc)
         <> unavailable_breadth
      /\ reported "Advancing"
           (breadth_html (Num.to_string pa) (Num.to_string pb) (Num.to_string pc))
         = Some (Num.to_string pa ++ "%")
      /\ reported "Declining"
           (breadth_html (Num.to_string pa) (Num.to_string pb) (Num.to_string pc))
         = Some (Num.to_string pb ++ "%")
      /\ reported "Unchanged"
           (breadth_html (Num.to_string pa) (Num.to_string pb) (Num.to_string pc))
         = Some (Num.to_string pc ++ "%")
      /\ contains "Data unavailable."
           (breadth_html (Num.to_string pa) (Num.to_string pb) (Num.to_string pc))
         = false.
Proof.
  intros v a b c s d old Ha Hb Hc Hsum Hw.
  destruct (percentage_of_zero_total a s) as (pa & Epa & Hpa).
  destruct (percentage_of_zero_total b s) as (pb & Epb & Hpb).
  destruct (percentage_of_zero_total c s) as (pc & Epc & Hpc).
  exists pa, pb, pc.
  repeat (split; [first [assumption | now apply to_string_nonfinite]|]).
  assert (Ht : truthy v = true) by (destruct v; simpl in *; congruence).
  assert (Em : breadth_markup v
               = Ok (breadth_html (Num.to_string pa) (Num.to_string pb)
                       (Num.to_string pc))).
  { unfold breadth_markup. rewrite Ha, Hb, Hc. cbn [bind].
    rewrite js_add_numbers. cbn [bind]. rewrite js_add_numbers. cbn [bind].
    rewrite Hsum, Epa. cbn [bind]. rewrite Epb. cbn [bind]. rewrite Epc.
    reflexivity. }
  split.
  { rewrite renderMarketBreadth_closed_form. unfold present.
    rewrite Hw, Ht, Em. reflexivity. }
  split.
  { unfold breadth_html, unavailable_breadth. simpl. discriminate. }
  apply reported_non_finite; now apply to_string_nonfinite.
Qed.

Lemma zero_total_gives_non_finite_witness :
  exists pa pb pc,
    percentage (VNum (Num.of_Z 0)) (VNum (S754_zero false)) = Ok pa
    /\ percentage (VNum (Num.of_Z 0)) (VNum (S754_zero false)) = Ok pb
    /\ percentage (VNum (Num.of_Z 0)) (VNum (S754_zero false)) = Ok pc
    /\ Num.is_nonfinite pa = true
    /\ Num.is_nonfinite pb = true
    /\ Num.is_nonfinite pc = true
    /\ non_finite_text (Num.to_string pa)
    /\ non_finite_text (Num.to_string pb)
    /\ non_finite_text (Num.to_string pc)
    /\ renderMarketBreadth no_counts full_page
       = (Ok tt,
          update BreadthWidget
            (fun _ => [Parsed (breadth_html (Num.to_string pa)
                                 (Num.to_string pb) (Num.to_string pc))])
            full_page)
    /\ breadth_html (Num.to_string pa) (Num.to_string pb) (Num.to_string pc)
       <> unavailable_breadth
    /\ reported "Advancing"
         (breadth_html (Num.to_string pa) (Num.to_string pb) (Num.to_string pc))
       = Some (Num.to_string pa ++ "%")
    /\ reported "Declining"
         (breadth_html (Num.to_string pa) (Num.to_string pb) (Num.to_string pc))
       = Some (Num.to_string pb ++ "%")
    /\ reported "Unchanged"
         (breadth_html (Num.to_string pa) (Num.to_string pb) (Num.to_string pc))
       = Some (Num.to_string pc ++ "%")
    /\ contains "Data unavailable."
         (breadth_html (Num.to_string pa) (Num.to_string pb) (Num.to_string pc))
       = false.
Proof.
  apply (zero_total_gives_non_finite no_counts
           (Num.of_Z 0) (Num.of_Z 0) (Num.of_Z 0) false full_page []);
    reflexivity.
Defined.

(** ** Normalisation of an upstream entry *)

Lemma all_digits_uint u : all_digits (NilEmpty.string_of_uint u) = true.
Proof. induction u; simpl; auto. Qed.

Lemma all_digits_of_N n : all_digits (Num.digits_of_N n) = true.
Proof.
  unfold Num.digits_of_N, NilZero.string_of_uint.
  destruct (N.to_uint n); try reflexivity; apply all_digits_uint.
Qed.

Lemma all_digits_app a b :
  all_digits a = true -> all_digits b = true -> all_digits (a ++ b) = true.
Proof.
  induction a as [|c a IH]; simpl; intros Ha Hb; [exact Hb|].
  apply andb_prop in Ha as [Hc Ha]. rewrite Hc. simpl. auto.
Qed.

Lemma all_digits_zeros n : all_digits (Num.zeros n) = true.
Proof. induction n; simpl; auto. Qed.

Lemma length_zeros n : String.length (Num.zeros n) = n.
Proof. induction n; simpl; auto. Qed.

Lemma digits_of_N_nonempty n : (1 <= String.length (Num.digits_of_N n))%nat.
Proof.
  unfold Num.digits_of_N, NilZero.string_of_uint.
  destruct (N.to_uint n); simpl; lia.
Qed.

Lemma all_digits_app_inv a b :
  all_digits (a ++ b) = true -> all_digits a = true /\ all_digits b = true.
Proof.
  induction a as [|c a IH]; simpl; intros H; [auto|].
  apply andb_prop in H as [Hc H]. destruct (IH H) as [Ha Hb].
  rewrite Hc, Ha. auto.
Qed.

Lemma substring_prefix a b : substring 0 (String.length a) (a ++ b) = a.
Proof.
  induction a as [|c a IH]; simpl.
  - destruct b; reflexivity.
  - now rewrite IH.
Qed.

Lemma substring_whole b : substring 0 (String.length b) b = b.
Proof. induction b as [|c b IH]; simpl; [reflexivity|now rewrite IH]. Qed.

Lemma substring_suffix a b :
  substring (String.length a) (String.length b) (a ++ b) = b.
Proof.
  induction a as [|c a IH]; simpl; [apply substring_whole|exact IH].
Qed.

(** A string of at least two characters ends with two characters. *)
Lemma last_two ds :
  (2 <= String.length ds)%nat ->
  exists ip d1 d2, ds = ip ++ String d1 (String d2 "").
Proof.
  induction ds as [|c ds IH]; simpl; intros Hl; [lia|].
  destruct ds as [|c1 [|c2 ds]].
  - simpl in Hl. lia.
  - exists "", c, c1. reflexivity.
  - destruct IH as (ip & d1 & d2 & E); [simpl; lia|].
    exists (String c ip), d1, d2. simpl. now rewrite <- E.
Qed.

Lemma digits_point_two_app ip d1 d2 seen :
  all_digits ip = true ->
  seen = true \/ ip <> "" ->
  is_digit d1 = true -> is_digit d2 = true ->
  digits_point_two (ip ++ "." ++ String d1 (String d2 "")) seen = true.
Proof.
  revert seen. induction ip as [|c ip IH]; simpl; intros seen Hd Hs H1 H2.
  - destruct Hs as [-> | Hs]; [|congruence].
    simpl. rewrite H1, H2. reflexivity.
  - apply andb_prop in Hd as [Hc Hd]. rewrite Hc. apply IH; auto.
Qed.

Lemma fixed_digits_two n :
  (0 <= n)%Z ->
  exists ip d1 d2,
    Num.fixed_digits 2 n = ip ++ "." ++ String d1 (String d2 "")
    /\ all_digits ip = true /\ ip <> ""
    /\ is_digit d1 = true /\ is_digit d2 = true.
Proof.
  intros Hn. unfold Num.fixed_digits.
  set (dn := Num.digits_of_Z n).
  assert (Hdn : all_digits dn = true).
  { unfold dn, Num.digits_of_Z. destruct n; try apply all_digits_of_N. lia. }
  assert (Hln : (1 <= String.length dn)%nat).
  { unfold dn, Num.digits_of_Z. destruct n; try apply digits_of_N_nonempty. lia. }
  set (ds := Num.zeros (2 + 1 - String.length dn) ++ dn).
  assert (Hds : all_digits ds = true)
    by (apply all_digits_app; [apply all_digits_zeros|exact Hdn]).
  assert (Hl : (3 <= String.length ds)%nat).
  { unfold ds. rewrite length_append, length_zeros. lia. }
  destruct (last_two ds) as (ip & d1 & d2 & E); [lia|].
  exists ip, d1, d2.
  rewrite E in Hds, Hl. rewrite length_append in Hl. simpl in Hl.
  apply all_digits_app_inv in Hds as [Hip Hfp]. simpl in Hfp.
  apply andb_prop in Hfp as [H1 Hfp]. apply andb_prop in Hfp as [H2 _].
  rewrite E, length_append. simpl String.length.
  replace (String.length ip + 2 - 2)%nat with (String.length ip) by lia.
  rewrite substring_prefix.
  change 2%nat with (String.length (String d1 (String d2 ""))) at 1.
  rewrite substring_suffix.
  repeat split; auto.
  intros ->. simpl in Hl. lia.
Qed.

Lemma value_nonneg m e : (0 <= Num.value m e)%Q.
Proof.
  unfold Num.value. apply Qmult_le_0_compat.
  - unfold Qle. simpl. lia.
  - apply Qpower_0_le. unfold Qle. simpl. lia.
Qed.

Lemma two_decimal_digits_fixed (neg : bool) n :
  (0 <= n)%Z ->
  two_decimal_digits ((if neg then "-" else "") ++ Num.fixed_digits 2 n) = true.
Proof.
  intros Hn.
  destruct (fixed_digits_two n Hn) as (ip & d1 & d2 & -> & Hip & Hne & H1 & H2).
  assert (H : digits_point_two (ip ++ "." ++ String d1 (String d2 "")) false = true)
    by (apply digits_point_two_app; auto).
  destruct neg; simpl; [exact H|].
  destruct ip as [|c ip]; [congruence|].
  simpl in Hip. apply andb_prop in Hip as [Hc _].
  unfold two_decimal_digits. simpl append.
  destruct c as [[] [] [] [] [] [] [] []]; try discriminate Hc; exact H.
Qed.

(** Below 10^21 a finite number is written with exactly two digits
    after the point. *)
Lemma toFixed_two_decimal_digits x :
  finite_below_1e21 x = true ->
  two_decimal_digits (Num.toFixed 2 x) = true.
Proof.
  destruct x as [s| | |s m e]; try discriminate.
  - intros _. reflexivity.
  - unfold finite_below_1e21, Num.toFixed.
    intros H. apply negb_true_iff in H. rewrite H.
    apply two_decimal_digits_fixed.
    change 0 with (Qfloor 0). apply Qfloor_resp_le.
    apply Qle_trans with (0 + (1 # 2))%Q; [unfold Qle; simpl; lia|].
    apply Qplus_le_l. apply Qmult_le_0_compat; [apply value_nonneg|].
    unfold Qle. simpl. lia.
Qed.

Lemma prefix_percent c r : prefix "%" (String c r) = Ascii.eqb "%" c.
Proof.
  change (prefix "%" (String c r))
    with (if ascii_dec "%" c then prefix "" r else false).
  destruct (ascii_dec "%" c) as [<-|Hne].
  - rewrite Ascii.eqb_refl. now destruct r.
  - apply Ascii.eqb_neq in Hne. now rewrite Hne.
Qed.

(** When the only [%] of the string is the one that ends it, removing
    the first [%] is stripping the trailing one. *)
Lemma replace_first_strips s :
  contains "%" (strip_trailing_percent s) = false ->
  replace_first "%" "" s = strip_trailing_percent s.
Proof.
  induction s as [|c r IH]; [reflexivity|].
  destruct r as [|c' r'].
  - simpl strip_trailing_percent. unfold replace_first.
    rewrite prefix_percent, Ascii.eqb_sym.
    destruct (Ascii.eqb c "%") eqn:Ec; reflexivity.
  - change (strip_trailing_percent (String c (String c' r')))
      with (String c (strip_trailing_percent (String c' r'))).
    intros H.
    change (contains "%" (String c (strip_trailing_percent (String c' r'))))
      with (prefix "%" (String c (strip_trailing_percent (String c' r')))
            || contains "%" (strip_trailing_percent (String c' r'))) in H.
    apply orb_false_elim in H as [Hp Hc].
    change (replace_first "%" "" (String c (String c' r')))
      with (if prefix "%" (String c (String c' r'))
            then "" ++ substring 1 (String.length (String c (String c' r')) - 1)
                         (String c (String c' r'))
            else String c (replace_first "%" "" (String c' r'))).
    rewrite prefix_percent.
    rewrite prefix_percent in Hp.
    rewrite Hp. f_equal. apply IH. exact Hc.
Qed.

Lemma normalize_strings item ticker price change_percentage :
  get item "ticker" = Ok ticker ->
  get item "price" = Ok (VStr price) ->
  get item "change_percentage" = Ok (VStr change_percentage) ->
  normalize item
  = Ok (VObj [("symbol", ticker);
              ("price", VStr (Num.toFixed 2 (parse_float price)));
              ("change",
               VStr (Num.toFixed 2
                       (parse_float (replace_first "%" "" change_percentage))))]).
Proof.
  intros Ht Hp Hc. unfold normalize. rewrite Ht, Hp, Hc. reflexivity.
Qed.

(** A [change_percentage] that is not a string has no [replace] to
    call: the normalisation throws. *)
Lemma normalize_needs_string item ticker price change_percentage :
  get item "ticker" = Ok ticker ->
  get item "price" = Ok (VStr price) ->
  get item "change_percentage" = Ok change_percentage ->
  (forall s, change_percentage <> VStr s) ->
  exists e, normalize item = Throw (Native e).
Proof.
  intros Ht Hp Hc Hs. unfold normalize. rewrite Ht, Hp, Hc.
  cbn [bind parseFloat to_string].
  destruct change_percentage; simpl; eauto.
  now destruct (Hs s).
Qed.

(** C2 (as amended): for an entry whose [price] and
    [change_percentage] are strings, normalisation copies [ticker] as it
    is into [symbol], gives as [price] the [toFixed(2)] of the parsed
    price, and as [change] the [toFixed(2)] of what is parsed from
    [change_percentage] with its first [%] removed.  Removing the first
    [%] is stripping the trailing one whenever no other [%] occurs, and
    each of the two results has exactly two digits after the point
    whenever the parsed number is finite and below 10^21.  The entry
    [{ticker: "AAA", price: "10", change_percentage: "5.5%"}] gives
    [{symbol: "AAA", price: "10.00", change: "5.50"}]. *)
Theorem normalize_entry :
  forall item ticker price change_percentage,
    get item "ticker" = Ok ticker ->
    get item "price" = Ok (VStr price) ->
    get item "change_percentage" = Ok (VStr change_percentage) ->
    normalize item
    = Ok (VObj [("symbol", ticker);
                ("price", VStr (Num.toFixed 2 (parse_float price)));
                ("change",
                 VStr (Num.toFixed 2
                         (parse_float
                            (replace_first "%" "" change_percentage))))])
    /\ (contains "%" (strip_trailing_percent change_percentage) = false ->
        replace_first "%" "" change_percentage
        = strip_trailing_percent change_percentage
        /\ normalize item = normalize_as_specified item)
    /\ (finite_below_1e21 (parse_float price) = true ->
        two_decimal_digits (Num.toFixed 2 (parse_float price)) = true)
    /\ (finite_below_1e21
          (parse_float (replace_first "%" "" change_percentage)) = true ->
        two_decimal_digits
          (Num.toFixed 2
             (parse_float (replace_first "%" "" change_percentage))) = true)
    /\ normalize (raw_entry "AAA" "10" "5.5%")
       = Ok (normalized "AAA" "10.00" "5.50").
Proof.
  intros item ticker price cp Ht Hp Hc.
  split; [now apply normalize_strings|].
  split.
  - intros Hs. split; [now apply replace_first_strips|].
    rewrite (normalize_strings item ticker price cp Ht Hp Hc).
    unfold normalize_as_specified. rewrite Ht, Hp, Hc.
    cbn [bind parseFloat to_string].
    now rewrite replace_first_strips.
  - split; [apply toFixed_two_decimal_digits|].
    split; [apply toFixed_two_decimal_digits|].
    vm_compute. reflexivity.
Qed.

Lemma normalize_entry_witness :
  normalize (raw_entry "BBB" "3.14159" "-2.345%")
  = Ok (VObj [("symbol", VStr "BBB");
              ("price", VStr (Num.toFixed 2 (parse_float "3.14159")));
              ("change",
               VStr (Num.toFixed 2
                       (parse_float (replace_first "%" "" "-2.345%"))))])
  /\ (contains "%" (strip_trailing_percent "-2.345%") = false ->
      replace_first "%" "" "-2.345%" = strip_trailing_percent "-2.345%"
      /\ normalize (raw_entry "BBB" "3.14159" "-2.345%")
         = normalize_as_specified (raw_entry "BBB" "3.14159" "-2.345%"))
  /\ (finite_below_1e21 (parse_float "3.14159") = true ->
      two_decimal_digits (Num.toFixed 2 (parse_float "3.14159")) = true)
  /\ (finite_below_1e21 (parse_float (replace_first "%" "" "-2.345%")) = true ->
      two_decimal_digits
        (Num.toFixed 2 (parse_float (replace_first "%" "" "-2.345%"))) = true)
  /\ normalize (raw_entry "AAA" "10" "5.5%")
     = Ok (normalized "AAA" "10.00" "5.50").
Proof.
  apply (normalize_entry (raw_entry "BBB" "3.14159" "-2.345%")
           (VStr "BBB") "3.14159" "-2.345%"); reflexivity.
Defined.

(** C2 as stated fails on the entry
    [{ticker: "AAA", price: "n/a", change_percentage: "1%5%"}]: the
    price comes out as [NaN], which has no two decimal digits, and the
    change comes out as [15.00], where stripping the trailing [%] and
    parsing gives [1.00]. *)
Lemma normalize_not_as_specified :
  normalize (raw_entry "AAA" "n/a" "1%5%") = Ok (normalized "AAA" "NaN" "15.00")
  /\ normalize_as_specified (raw_entry "AAA" "n/a" "1%5%")
     = Ok (normalized "AAA" "NaN" "1.00")
  /\ two_decimal_digits "NaN" = false
  /\ normalize (raw_entry "AAA" "n/a" "1%5%")
     <> normalize_as_specified (raw_entry "AAA" "n/a" "1%5%").
Proof.
  split; [vm_compute; reflexivity|].
  split; [vm_compute; reflexivity|].
  split; [reflexivity|].
  vm_compute. discriminate.
Qed.


(* ===================================================================== *)
(** * Further properties of the script *)
(* ===================================================================== *)

(** ** The menu toggle *)

Lemma click_settles b menu :
  Menu.click {| Menu.mobileMenuButton := Some b; Menu.mobileMenu := Some menu |}
  = settled b (negb (Menu.isExpanded b)).
Proof.
  unfold Menu.click, Menu.on_click, settled. simpl.
  destruct (Menu.isExpanded b); reflexivity.
Qed.

Lemma settled_again b opened opened' b' menu' :
  settled b opened
  = {| Menu.mobileMenuButton := Some b'; Menu.mobileMenu := Some menu' |} ->
  Menu.isExpanded b' = opened /\ settled b' opened' = settled b opened'.
Proof.
  unfold settled. intros [= <- <-]. split.
  - destruct opened; reflexivity.
  - unfold settled. simpl.
    destruct (Menu.hamburgerIcon b), (Menu.closeIcon b); reflexivity.
Qed.

(** X1: once clicked, the menu is in one of two states, open or closed,
    in which the attribute, the panel and the icons agree; after
    [n + 1] clicks it is open exactly when [n] is even and the
    attribute did not read [true] at first, or [n] is odd and it did. *)
Theorem menu_after_clicks :
  forall n b menu,
    Menu.clicks (S n)
      {| Menu.mobileMenuButton := Some b; Menu.mobileMenu := Some menu |}
    = settled b (xorb (Menu.isExpanded b) (Nat.even n)).
Proof.
  induction n as [|n IH]; intros b menu.
  - simpl. now rewrite click_settles.
  - change (Menu.clicks (S (S n)) ?p) with (Menu.clicks (S n) (Menu.click p)).
    rewrite click_settles.
    remember (settled b (negb (Menu.isExpanded b))) as p eqn:Ep.
    assert (Hp : exists b' menu',
               p = {| Menu.mobileMenuButton := Some b';
                      Menu.mobileMenu := Some menu' |})
      by (subst p; unfold settled; eauto).
    destruct Hp as (b' & menu' & Hp).
    rewrite Hp, IH.
    rewrite Ep in Hp.
    destruct (settled_again b _ (xorb (Menu.isExpanded b') (Nat.even n)) b' menu' Hp)
      as [He ->].
    f_equal. rewrite He, Nat.even_succ, <- Nat.negb_even.
    now destruct (Menu.isExpanded b), (Nat.even n).
Qed.

(** X2: a page that lacks the button or the panel has no listener:
    no number of clicks changes it. *)
Theorem menu_without_listener :
  forall n p,
    Menu.mobileMenuButton p = None \/ Menu.mobileMenu p = None ->
    Menu.clicks n p = p.
Proof.
  induction n as [|n IH]; intros p Hp; [reflexivity|].
  simpl. assert (Hc : Menu.click p = p).
  { unfold Menu.click. destruct Hp as [-> | Hp]; [reflexivity|].
    rewrite Hp. now destruct (Menu.mobileMenuButton p). }
  rewrite Hc. now apply IH.
Qed.

Lemma menu_without_listener_witness :
  Menu.clicks 3 {| Menu.mobileMenuButton := Some sample_button;
                   Menu.mobileMenu := None |}
  = {| Menu.mobileMenuButton := Some sample_button; Menu.mobileMenu := None |}.
Proof.
  apply (menu_without_listener 3
           {| Menu.mobileMenuButton := Some sample_button;
              Menu.mobileMenu := None |}).
  right. reflexivity.
Defined.

(** ** The scroll reveal *)

Lemma classList_add_twice t classes :
  Reveal.classList_add t (Reveal.classList_add t classes)
  = Reveal.classList_add t classes.
Proof.
  unfold Reveal.classList_add.
  destruct (existsb (String.eqb t) classes) eqn:E.
  - now rewrite E.
  - rewrite existsb_app, E. simpl. now rewrite String.eqb_refl.
Qed.

Lemma In_classList_add t u classes :
  In u (Reveal.classList_add t classes) <-> u = t \/ In u classes.
Proof.
  unfold Reveal.classList_add.
  destruct (existsb (String.eqb t) classes) eqn:E.
  - split; [auto|]. intros [-> | H]; [|exact H].
    apply existsb_exists in E as (x & Hx & Ex).
    apply String.eqb_eq in Ex. now subst x.
  - rewrite in_app_iff. simpl. split.
    + intros [H | [<- | []]]; auto.
    + intros [-> | H]; auto.
Qed.

Lemma NoDup_classList_add t classes :
  NoDup classes -> NoDup (Reveal.classList_add t classes).
Proof.
  intros Hn. unfold Reveal.classList_add.
  destruct (existsb (String.eqb t) classes) eqn:E; [exact Hn|].
  apply NoDup_rev in Hn. rewrite <- (rev_involutive (classes ++ [t])).
  apply NoDup_rev. rewrite rev_app_distr. simpl. constructor; [|exact Hn].
  rewrite <- in_rev. intros Hin.
  assert (Ht : existsb (String.eqb t) classes = true).
  { apply existsb_exists. exists t. split; [exact Hin|apply String.eqb_refl]. }
  congruence.
Qed.

Lemma nth_error_reveal_from g k cards i :
  nth_error (Reveal.reveal_from g k cards) i
  = option_map (Reveal.reveal_card g (k + i)) (nth_error cards i).
Proof.
  revert k i. induction cards as [|c cards IH]; intros k i.
  - now destruct i.
  - destruct i as [|i]; simpl.
    + now rewrite Nat.add_0_r.
    + rewrite IH. now rewrite Nat.add_succ_r.
Qed.

Lemma nth_error_scrolls events : forall cards i classes,
  nth_error cards i = Some classes ->
  nth_error (Reveal.scrolls events cards) i
  = Some (if existsb (above_trigger i) events
          then Reveal.classList_add "visible" classes
          else classes).
Proof.
  induction events as [|g events IH]; intros cards i classes Hc.
  - exact Hc.
  - change (Reveal.scrolls (g :: events) cards)
      with (Reveal.scrolls events (Reveal.revealOnScroll g cards)).
    assert (H1 : nth_error (Reveal.revealOnScroll g cards) i
                 = Some (Reveal.reveal_card g i classes)).
    { unfold Reveal.revealOnScroll. now rewrite nth_error_reveal_from, Hc. }
    rewrite (IH _ _ _ H1). simpl existsb.
    unfold Reveal.reveal_card. fold (above_trigger i g).
    destruct (above_trigger i g); simpl.
    + destruct (existsb (above_trigger i) events);
        [now rewrite classList_add_twice | reflexivity].
    + reflexivity.
Qed.

(** X3: after the call on load and any number of scroll events, a card
    holds the classes it had, in their order, with [visible] added at
    the end if it was not there and if at one of the calls the top of
    the card was less than 0.85 times the height of the window.  So a card
    that is visible stays visible, no other class is added or removed,
    and no class is listed twice. *)
Theorem reveal_after_scrolls :
  forall events cards i classes,
    nth_error cards i = Some classes ->
    exists classes',
      nth_error (Reveal.scrolls events cards) i = Some classes'
      /\ classes'
         = (if existsb (above_trigger i) events
            then Reveal.classList_add "visible" classes
            else classes)
      /\ (In "visible" classes' <->
          In "visible" classes
          \/ exists g, In g events /\ above_trigger i g = true)
      /\ (forall t, t <> "visible" -> (In t classes' <-> In t classes))
      /\ (NoDup classes -> NoDup classes').
Proof.
  intros events cards i classes Hc.
  eexists. split; [exact (nth_error_scrolls events cards i classes Hc)|].
  split; [reflexivity|].
  destruct (existsb (above_trigger i) events) eqn:E.
  - apply existsb_exists in E. split; [|split].
    + split; [intros _; right; exact E|].
      intros _. apply In_classList_add. now left.
    + intros t Ht. rewrite In_classList_add. split; [|auto].
      intros [-> | Hin]; [congruence|exact Hin].
    + apply NoDup_classList_add.
  - split; [|split].
    + split; [auto|].
      intros [Hin | (g & Hg & Ha)]; [exact Hin|].
      assert (Ht : existsb (above_trigger i) events = true)
        by (apply existsb_exists; eauto).
      congruence.
    + intros t _. reflexivity.
    + auto.
Qed.

Lemma reveal_after_scrolls_witness :
  exists classes',
    nth_error (Reveal.scrolls [sample_geometry; sample_geometry]
                 [["service-card"]; ["service-card"]; ["service-card"]]) 1
    = Some classes'
    /\ classes'
       = (if existsb (above_trigger 1) [sample_geometry; sample_geometry]
          then Reveal.classList_add "visible" ["service-card"]
          else ["service-card"])
    /\ (In "visible" classes' <->
        In "visible" ["service-card"]
        \/ exists g, In g [sample_geometry; sample_geometry]
                     /\ above_trigger 1 g = true)
    /\ (forall t, t <> "visible" -> (In t classes' <-> In t ["service-card"]))
    /\ (NoDup ["service-card"] -> NoDup classes').
Proof.
  apply (reveal_after_scrolls [sample_geometry; sample_geometry]
           [["service-card"]; ["service-card"]; ["service-card"]] 1
           ["service-card"]).
  reflexivity.
Defined.

(** ** [renderInsights] *)

Lemma createNewsItem_record item r :
  news_of item r -> createNewsItem item = Ok (news_row r).
Proof.
  intros (H1 & H2). unfold createNewsItem.
  rewrite H1; simpl. rewrite H2; reflexivity.
Qed.

Lemma createBlogItem_record item r :
  blog_of item r -> createBlogItem item = Ok (blog_row r).
Proof.
  intros (H1 & H2 & H3). unfold createBlogItem.
  rewrite H1; simpl. rewrite H2; simpl. rewrite H3; reflexivity.
Qed.

Lemma appended_all (A : Type) (create : value -> result node)
    (rel : value -> A -> Prop) (row : A -> node) l recs :
  (forall item r, rel item r -> create item = Ok (row r)) ->
  Forall2 rel l recs ->
  appended create l = (map row recs, Ok tt).
Proof.
  intros Hrow. induction 1 as [|x r l recs Hx Hl IH]; simpl; [reflexivity|].
  now rewrite (Hrow x r Hx), IH.
Qed.

(** X4: with both containers on the page and arrays of items whose
    [url], [title] (and [author]) are strings, [renderInsights]
    replaces what the news list held by one [li] per news item and what
    the blogs container held by one [div] per blog, in the order of the
    arrays, and leaves the tables, the breadth widget and the canvas as
    they were. *)
Theorem renderInsights_one_item_per_record :
  forall news blogs nrecs brecs d old_news old_blogs,
    Forall2 news_of news nrecs ->
    Forall2 blog_of blogs brecs ->
    find NewsFeedList d = Some old_news ->
    find BlogsContainer d = Some old_blogs ->
    exists d',
      renderInsights (VArr news) (VArr blogs) d = (Ok tt, d')
      /\ find NewsFeedList d' = Some (map news_row nrecs)
      /\ find BlogsContainer d' = Some (map blog_row brecs)
      /\ find GainersBody d' = find GainersBody d
      /\ find LosersBody d' = find LosersBody d
      /\ find BreadthWidget d' = find BreadthWidget d
      /\ marketChart d' = marketChart d.
Proof.
  intros ns bs nrecs brecs d on ob Rn Rb Fn Fb.
  rewrite renderInsights_closed_form.
  unfold insights_result, present. rewrite Fn, Fb. simpl items.
  rewrite (appended_all _ _ _ _ _ _ createNewsItem_record Rn).
  rewrite (appended_all _ _ _ _ _ _ createBlogItem_record Rb).
  simpl. eexists. split; [reflexivity|].
  repeat split; find_updates; rewrite ?Fn, ?Fb; reflexivity.
Qed.

Lemma renderInsights_one_item_per_record_witness :
  exists d',
    renderInsights (VArr [news (news_title sample_news)])
      (VArr [blog (blog_title sample_blog) (blog_author sample_blog)])
      full_page = (Ok tt, d')
    /\ find NewsFeedList d' = Some (map news_row [sample_news])
    /\ find BlogsContainer d' = Some (map blog_row [sample_blog])
    /\ find GainersBody d' = find GainersBody full_page
    /\ find LosersBody d' = find LosersBody full_page
    /\ find BreadthWidget d' = find BreadthWidget full_page
    /\ marketChart d' = marketChart full_page.
Proof.
  apply (renderInsights_one_item_per_record
           [news (news_title sample_news)]
           [blog (blog_title sample_blog) (blog_author sample_blog)]
           [sample_news] [sample_blog] full_page [] []).
  - repeat constructor.
  - repeat constructor.
  - reflexivity.
  - reflexivity.
Defined.

(** X5: the check of [renderInsights] is one check for both feeds.  When
    a container is missing or one of the two arguments is not an array,
    nothing is rendered, not even the feed whose own container and data
    are fine: the function returns, and each container the page has
    holds its placeholder. *)
Theorem renderInsights_all_or_nothing :
  forall newsData blogsData d,
    present NewsFeedList d = false \/ present BlogsContainer d = false
    \/ isArray newsData = false \/ isArray blogsData = false ->
    exists d',
      renderInsights newsData blogsData d = (Ok tt, d')
      /\ find NewsFeedList d'
         = option_map (fun _ => [Parsed unavailable_news]) (find NewsFeedList d)
      /\ find BlogsContainer d'
         = option_map (fun _ => [Parsed unavailable_blogs])
             (find BlogsContainer d).
Proof.
  intros n b d H.
  rewrite renderInsights_closed_form. unfold insights_result.
  assert (Hc : negb (present NewsFeedList d) || negb (present BlogsContainer d)
               || negb (isArray n) || negb (isArray b) = true).
  { destruct H as [-> | [-> | [-> | ->]]]; simpl;
      rewrite ?orb_true_r; reflexivity. }
  rewrite Hc. eexists. split; [reflexivity|].
  split; find_updates; reflexivity.
Qed.

Lemma renderInsights_all_or_nothing_witness :
  exists d',
    renderInsights mockNewsData VNull full_page = (Ok tt, d')
    /\ find NewsFeedList d'
       = option_map (fun _ => [Parsed unavailable_news])
           (find NewsFeedList full_page)
    /\ find BlogsContainer d'
       = option_map (fun _ => [Parsed unavailable_blogs])
           (find BlogsContainer full_page).
Proof.
  apply (renderInsights_all_or_nothing mockNewsData VNull full_page).
  right. right. right. reflexivity.
Defined.

Lemma createNewsItem_throws item t :
  createNewsItem item = Throw t ->
  t = Native (ReadOfNullish "url") \/ t = Native NoPrimitive.
Proof.
  unfold createNewsItem.
  destruct item; simpl;
    try (intros [= <-]; now left);
    repeat match goal with
           | |- bind (to_string ?v) _ = Throw _ -> _ =>
               destruct (to_string v) as [?s|?t'] eqn:?E; simpl;
               [| intros [= <-]; right;
                  eapply to_string_throws_NoPrimitive; eassumption]
           end; try discriminate.
Qed.

Lemma createBlogItem_throws item t :
  createBlogItem item = Throw t ->
  t = Native (ReadOfNullish "url") \/ t = Native NoPrimitive.
Proof.
  unfold createBlogItem.
  destruct item; simpl;
    try (intros [= <-]; now left);
    repeat match goal with
           | |- bind (to_string ?v) _ = Throw _ -> _ =>
               destruct (to_string v) as [?s|?t'] eqn:?E; simpl;
               [| intros [= <-]; right;
                  eapply to_string_throws_NoPrimitive; eassumption]
           end; try discriminate.
Qed.

Lemma appended_throws_only create (P : thrown -> Prop) l t :
  (forall item t', create item = Throw t' -> P t') ->
  snd (appended create l) = Throw t -> P t.
Proof.
  intros Hc. induction l as [|x l IH]; simpl; [discriminate|].
  destruct (create x) as [child|t'] eqn:E; simpl.
  - destruct (appended create l); simpl in *. exact IH.
  - intros [= <-]. eapply Hc; eassumption.
Qed.

(** X6: the writes of [renderInsights] carry no guard of their own, yet
    on no page and for no arguments does it throw an error of element
    access: what it throws comes from an item that is [null] or
    [undefined], or from a field that has no string form.  When it
    throws, the news list holds the items built before the failing one
    and nothing of an earlier rendering. *)
Theorem renderInsights_throws_for_items_only :
  forall newsData blogsData d t,
    fst (renderInsights newsData blogsData d) = Throw t ->
    (t = Native (ReadOfNullish "url") \/ t = Native NoPrimitive)
    /\ exists built,
         find NewsFeedList (snd (renderInsights newsData blogsData d))
         = Some built
         /\ built = fst (appended createNewsItem (items newsData))
         /\ (List.length built <= List.length (items newsData))%nat.
Proof.
  intros n b d t. rewrite renderInsights_closed_form.
  unfold insights_result.
  destruct (negb (present NewsFeedList d) || negb (present BlogsContainer d)
            || negb (isArray n) || negb (isArray b)) eqn:Hc; [discriminate|].
  apply orb_false_elim in Hc as [Hc _].
  apply orb_false_elim in Hc as [Hc _].
  apply orb_false_elim in Hc as [Hpn _].
  apply negb_false_iff in Hpn.
  destruct (present_find _ _ Hpn) as [cn Hcn].
  assert (Hlen : forall create l,
             (List.length (fst (appended create l)) <= List.length l)%nat).
  { intros create l. induction l as [|x l IH]; simpl; [lia|].
    destruct (create x); simpl; [|lia].
    destruct (appended create l); simpl in *. lia. }
  destruct (snd (appended createNewsItem (items n))) as [[]|tn] eqn:En.
  - simpl. intros Ht. split.
    + apply (appended_throws_only createBlogItem
               (fun t => t = Native (ReadOfNullish "url") \/ t = Native NoPrimitive)
               (items b) t); [|exact Ht].
      intros item t'. apply createBlogItem_throws.
    + eexists. split; [|split; [reflexivity|apply Hlen]].
      find_updates. now rewrite Hcn.
  - simpl. intros [= <-]. split.
    + apply (appended_throws_only createNewsItem
               (fun t => t = Native (ReadOfNullish "url") \/ t = Native NoPrimitive)
               (items n) tn); [|exact En].
      intros item t'. apply createNewsItem_throws.
    + eexists. split; [|split; [reflexivity|apply Hlen]].
      find_updates. now rewrite Hcn.
Qed.

Lemma renderInsights_throws_for_items_only_witness :
  (Native (ReadOfNullish "url") = Native (ReadOfNullish "url")
   \/ Native (ReadOfNullish "url") = Native NoPrimitive)
  /\ exists built,
       find NewsFeedList
         (snd (renderInsights (VArr [news "first"; VNull; news "third"])
                 (VArr []) full_page))
       = Some built
       /\ built = fst (appended createNewsItem
                         (items (VArr [news "first"; VNull; news "third"])))
       /\ (List.length built
           <= List.length (items (VArr [news "first"; VNull; news "third"])))%nat.
Proof.
  apply (renderInsights_throws_for_items_only
           (VArr [news "first"; VNull; news "third"]) (VArr []) full_page
           (Native (ReadOfNullish "url"))).
  reflexivity.
Defined.

(** ** [renderTopMovers] stopped by an item *)

Lemma appended_stops create (row : list node) good bad rest t :
  appended create good = (row, Ok tt) ->
  create bad = Throw t ->
  appended create (good ++ bad :: rest) = (row, Throw t).
Proof.
  revert row. induction good as [|x good IH]; intros row; simpl.
  - intros [= <-] Hb. now rewrite Hb.
  - destruct (create x) as [child|t']; [|discriminate].
    destruct (appended create good) as [r o] eqn:E.
    intros [= <- ->] Hb. now rewrite (IH r eq_refl Hb).
Qed.

(** X7: when the array of gainers holds a [null] or [undefined] element
    after some records, [renderTopMovers] throws at that element: the
    gainers table is left with the rows of the records before it, the
    losers table is left empty whatever the losers are, and the
    elements after it are not rendered. *)
Theorem renderTopMovers_stops_at_bad_item :
  forall moversData good grecs bad rest losers d old_gainers old_losers,
    get moversData "gainers" = Ok (VArr (good ++ bad :: rest)) ->
    get moversData "losers" = Ok (VArr losers) ->
    Forall2 record_of good grecs ->
    nullish bad = true ->
    find GainersBody d = Some old_gainers ->
    find LosersBody d = Some old_losers ->
    exists d',
      renderTopMovers moversData d = (Throw (Native (ReadOfNullish "symbol")), d')
      /\ find GainersBody d' = Some (map (table_row true) grecs)
      /\ find LosersBody d' = Some [].
Proof.
  intros v good grecs bad rest ls d og ol Hg Hl Rg Hb Fg Fl.
  destruct (get_array_shaped v _ ls Hg Hl) as (Hw & Eg & El).
  rewrite renderTopMovers_closed_form.
  unfold movers_result, guarded_rows, present.
  rewrite Hw, Eg, Fg, Fl. simpl items.
  assert (Hbad : createTableRow true bad = Throw (Native (ReadOfNullish "symbol")))
    by (destruct bad; try discriminate; reflexivity).
  rewrite (appended_stops _ _ _ _ rest _ (appended_records true good grecs Rg) Hbad).
  simpl. eexists. split; [reflexivity|].
  split; find_updates; rewrite ?Fg, ?Fl; reflexivity.
Qed.

Lemma renderTopMovers_stops_at_bad_item_witness :
  exists d',
    renderTopMovers
      (movers ([record_value aaa] ++ VNull :: [record_value bbb])
              [record_value ccc])
      full_page
    = (Throw (Native (ReadOfNullish "symbol")), d')
    /\ find GainersBody d' = Some (map (table_row true) [aaa])
    /\ find LosersBody d' = Some [].
Proof.
  apply (renderTopMovers_stops_at_bad_item
           (movers ([record_value aaa] ++ VNull :: [record_value bbb])
                   [record_value ccc])
           [record_value aaa] [aaa] VNull [record_value bbb]
           [record_value ccc] full_page
           [Parsed unavailable_row] [Parsed unavailable_row]).
  - reflexivity.
  - reflexivity.
  - repeat constructor.
  - reflexivity.
  - reflexivity.
  - reflexivity.
Defined.

(** ** [renderMarketBreadth] on any argument *)

Lemma to_primitive_throws v t :
  to_primitive v = Throw t -> t = Native NoPrimitive.
Proof.
  destruct v as [| | | | |l|fs]; try discriminate.
  - unfold to_primitive.
    destruct (to_string (VArr l)) eqn:E; simpl; [discriminate|].
    intros [= <-]. eapply to_string_throws_NoPrimitive; eassumption.
  - unfold to_primitive.
    destruct (to_string (VObj fs)) eqn:E; simpl; [discriminate|].
    intros [= <-]. eapply to_string_throws_NoPrimitive; eassumption.
Qed.

Lemma to_number_throws v t :
  to_number v = Throw t -> t = Native NoPrimitive.
Proof.
  unfold to_number.
  destruct (to_primitive v) as [p|t'] eqn:E; simpl.
  - destruct p; try discriminate; now intros [= <-].
  - intros [= <-]. eapply to_primitive_throws; eassumption.
Qed.

Lemma js_add_throws a b t :
  js_add a b = Throw t -> t = Native NoPrimitive.
Proof.
  unfold js_add.
  destruct (to_primitive a) as [pa|ta] eqn:Ea; simpl;
    [|intros [= <-]; eapply to_primitive_throws; eassumption].
  destruct (to_primitive b) as [pb|tb] eqn:Eb; simpl;
    [|intros [= <-]; eapply to_primitive_throws; eassumption].
  assert (Hs : forall p q,
             (do sa <- to_string p; do sb <- to_string q; Ok (VStr (sa ++ sb)))
             = Throw t -> t = Native NoPrimitive).
  { intros p q0. destruct (to_string p) eqn:E1; simpl;
      [|intros [= <-]; eapply to_string_throws_NoPrimitive; eassumption].
    destruct (to_string q0) eqn:E2; simpl; [discriminate|].
    intros [= <-]. eapply to_string_throws_NoPrimitive; eassumption. }
  assert (Hn : forall p q,
             (do na <- to_number p; do nb <- to_number q;
              Ok (VNum (Num.add na nb)))
             = Throw t -> t = Native NoPrimitive).
  { intros p q0. destruct (to_number p) eqn:E1; simpl;
      [|intros [= <-]; eapply to_number_throws; eassumption].
    destruct (to_number q0) eqn:E2; simpl; [discriminate|].
    intros [= <-]. eapply to_number_throws; eassumption. }
  destruct pa, pb; solve [apply Hs | apply Hn].
Qed.

Lemma percentage_throws a b t :
  percentage a b = Throw t -> t = Native NoPrimitive.
Proof.
  unfold percentage, js_div.
  destruct (to_number a) eqn:Ea; simpl;
    [|intros [= <-]; eapply to_number_throws; eassumption].
  destruct (to_number b) eqn:Eb; simpl; [discriminate|].
  intros [= <-]. eapply to_number_throws; eassumption.
Qed.

Lemma breadth_markup_throws v t :
  truthy v = true ->
  breadth_markup v = Throw t -> t = Native NoPrimitive.
Proof.
  intros Hv. unfold breadth_markup.
  rewrite !(truthy_get v _ Hv). cbn [bind].
  destruct (js_add (field v "advancing") (field v "declining")) as [sum|t1] eqn:E1;
    cbn [bind]; [|intros [= <-]; eapply js_add_throws; eassumption].
  destruct (js_add sum (field v "unchanged")) as [total|t2] eqn:E2;
    cbn [bind]; [|intros [= <-]; eapply js_add_throws; eassumption].
  destruct (percentage (field v "advancing") total) as [a|ta] eqn:Ea;
    cbn [bind]; [|intros [= <-]; eapply percentage_throws; eassumption].
  destruct (percentage (field v "declining") total) as [b|tb] eqn:Eb;
    cbn [bind]; [|intros [= <-]; eapply percentage_throws; eassumption].
  destruct (percentage (field v "unchanged") total) as [c|tc] eqn:Ec;
    cbn [bind]; [discriminate|].
  intros [= <-]. eapply percentage_throws; eassumption.
Qed.

(** X8: [renderMarketBreadth] on any argument and any page.  Without
    the widget it returns and changes nothing, whatever the argument.
    With the widget and a falsy argument it writes the placeholder.  It
    never changes another sink than the widget, and the only error it
    throws is that of a count that has no primitive value, in which case
    the widget keeps what it held. *)
Theorem renderMarketBreadth_edges :
  forall breadthData d,
    (present BreadthWidget d = false ->
     renderMarketBreadth breadthData d = (Ok tt, d))
    /\ (present BreadthWidget d = true -> truthy breadthData = false ->
        renderMarketBreadth breadthData d
        = (Ok tt,
           update BreadthWidget (fun _ => [Parsed unavailable_breadth]) d))
    /\ (forall t,
          fst (renderMarketBreadth breadthData d) = Throw t ->
          t = Native NoPrimitive
          /\ snd (renderMarketBreadth breadthData d) = d)
    /\ find GainersBody (snd (renderMarketBreadth breadthData d))
       = find GainersBody d
    /\ find LosersBody (snd (renderMarketBreadth breadthData d))
       = find LosersBody d
    /\ find NewsFeedList (snd (renderMarketBreadth breadthData d))
       = find NewsFeedList d
    /\ find BlogsContainer (snd (renderMarketBreadth breadthData d))
       = find BlogsContainer d
    /\ marketChart (snd (renderMarketBreadth breadthData d)) = marketChart d.
Proof.
  intros v d. rewrite renderMarketBreadth_closed_form.
  destruct (present BreadthWidget d) eqn:Hp.
  - destruct (truthy v) eqn:Hv.
    + destruct (breadth_markup v) as [html|t'] eqn:Em; cbn [fst snd].
      * split; [intros; discriminate|]. split; [intros; discriminate|].
        split; [intros; discriminate|].
        repeat split; find_updates; reflexivity.
      * split; [intros; discriminate|]. split; [intros; discriminate|].
        split; [|repeat split].
        intros t [= <-]. split; [|reflexivity].
        eapply breadth_markup_throws; eassumption.
    + cbn [fst snd].
      split; [intros; discriminate|]. split; [reflexivity|].
      split; [intros; discriminate|].
      repeat split; find_updates; reflexivity.
  - cbn [fst snd]. split; [reflexivity|]. split; [intros; discriminate|].
    split; [intros; discriminate|]. repeat split.
Qed.

Lemma renderMarketBreadth_edges_witness :
  renderMarketBreadth mockBreadthData bare_page = (Ok tt, bare_page)
  /\ renderMarketBreadth VNull full_page
     = (Ok tt,
        update BreadthWidget (fun _ => [Parsed unavailable_breadth]) full_page)
  /\ (Native NoPrimitive = Native NoPrimitive
      /\ snd (renderMarketBreadth
                (VObj [("advancing", VObj [("toString", VNull)])]) full_page)
         = full_page).
Proof.
  split; [|split].
  - apply (proj1 (renderMarketBreadth_edges mockBreadthData bare_page)).
    reflexivity.
  - apply (proj1 (proj2 (renderMarketBreadth_edges VNull full_page)));
      reflexivity.
  - apply (proj1 (proj2 (proj2 (renderMarketBreadth_edges
                                  (VObj [("advancing", VObj [("toString", VNull)])])
                                  full_page)))
             (Native NoPrimitive)).
    reflexivity.
Defined.

(** ** [fetchMarketData] as a whole *)

Lemma try_block_prepared net d :
  try_block net d =
  match prepared net with
  | Throw t => (Throw t, d)
  | Ok moversData =>
      (renderTopMovers moversData >> renderMarketBreadth mockBreadthData) d
  end.
Proof.
  unfold prepared. destruct net as [m|m|v];
    [reflexivity | reflexivity |].
  rewrite try_block_json. cbn [await bind].
  destruct (error_or_note v) as [signal|t]; [|reflexivity]. cbn [bind].
  destruct (truthy signal).
  - destruct (to_string signal); reflexivity.
  - unfold render_response. unfold bindM at 1 2, lift at 1.
    destruct (has_movers v) as [[|]|t]; cbn [bind]; try reflexivity.
    unfold bindM at 1, lift at 1.
    destruct (get v "top_gainers") as [tg|t]; cbn [bind]; [|reflexivity].
    unfold bindM at 1, lift at 1.
    destruct (map_result normalize (items tg)) as [gd|t]; cbn [bind];
      [|reflexivity].
    unfold bindM at 1, lift at 1.
    destruct (get v "top_losers") as [tl|t]; cbn [bind]; [|reflexivity].
    unfold bindM at 1, lift at 1.
    destruct (map_result normalize (items tl)) as [ld|t]; cbn [bind];
      reflexivity.
Qed.

Lemma shows_error_absorbs message (cg cl : children) d :
  shows_error message
    (update LosersBody (fun _ => cl) (update GainersBody (fun _ => cg) d))
  = shows_error message d.
Proof.
  unfold shows_error.
  rewrite (update_comm GainersBody LosersBody) by discriminate.
  rewrite (update_update GainersBody).
  now rewrite (update_update LosersBody).
Qed.

Lemma fetchMarketData_closed_form native_text net d :
  fetchMarketData native_text net d =
  let '(cg, cl, cb) :=
    fetch_writes native_text net (present GainersBody d) (present LosersBody d) in
  (Ok tt,
   update BreadthWidget (fun _ => cb)
     (update LosersBody (fun _ => cl) (update GainersBody (fun _ => cg) d))).
Proof.
  unfold fetchMarketData, try_catch, fetch_writes.
  rewrite try_block_prepared.
  destruct (prepared net) as [v|t].
  - unfold bindM. rewrite renderTopMovers_closed_form.
    destruct (movers_result v (present GainersBody d) (present LosersBody d))
      as [[[[]|t] cg] cl].
    + now rewrite renderMarketBreadth_mock.
    + rewrite catch_block_shows. now rewrite shows_error_absorbs.
  - now rewrite catch_block_shows.
Qed.

(** X9: [fetchMarketData] never throws, whatever the network gives and
    whatever the page lacks, and it ends in one of two ways only.
    Either all three sinks show one and the same error message, and no
    row of a partial rendering is left; or [renderTopMovers] returned
    normally on what the [try] block prepared and the widget shows the
    mock breadth. *)
Theorem fetchMarketData_all_or_nothing :
  forall native_text net d,
    (exists message,
        fetchMarketData native_text net d = (Ok tt, shows_error message d))
    \/ (exists moversData d1,
          prepared net = Ok moversData
          /\ renderTopMovers moversData d = (Ok tt, d1)
          /\ fetchMarketData native_text net d
             = (Ok tt,
                update BreadthWidget
                  (fun _ => [Parsed (breadth_html "81" "16" "3")]) d1)).
Proof.
  intros nt net d.
  unfold fetchMarketData, try_catch. rewrite try_block_prepared.
  destruct (prepared net) as [v|t].
  - unfold bindM.
    destruct (renderTopMovers v d) as [[[]|t] d1] eqn:Er.
    + right. exists v, d1. split; [reflexivity|]. split; [exact Er|].
      cbv beta iota. now rewrite renderMarketBreadth_mock.
    + left. exists (message_of nt t). cbv beta iota.
      rewrite catch_block_shows.
      rewrite renderTopMovers_closed_form in Er.
      destruct (movers_result v (present GainersBody d) (present LosersBody d))
        as [[r cg] cl].
      injection Er as _ <-. now rewrite shows_error_absorbs.
  - left. exists (message_of nt t). now rewrite catch_block_shows.
Qed.

(** ** Entries of the response *)

Lemma record_of_record_value r : record_of (record_value r) r.
Proof. repeat split. Qed.

Lemma map_result_normalize l rs :
  Forall2 raw_of l rs ->
  map_result normalize l
  = Ok (map (fun r => record_value (normalized_record r)) rs).
Proof.
  induction 1 as [|x r l rs (Ht & Hp & Hc) _ IH]; [reflexivity|].
  cbn [map_result map].
  rewrite (normalize_strings x _ _ _ Ht Hp Hc), IH. reflexivity.
Qed.

Lemma Forall2_record_value (f : RawRecord -> MoverRecord) rs :
  Forall2 record_of (map (fun r => record_value (f r)) rs) (map f rs).
Proof.
  induction rs as [|r rs IH]; constructor;
    auto using record_of_record_value.
Qed.

Lemma update_const_absent s (c c' : children) d :
  find s d = None -> update s (fun _ => c) d = update s (fun _ => c') d.
Proof. intros H. now rewrite !update_absent. Qed.

Lemma renderTopMovers_records v gs ls grecs lrecs d :
  get v "gainers" = Ok (VArr gs) ->
  get v "losers" = Ok (VArr ls) ->
  Forall2 record_of gs grecs ->
  Forall2 record_of ls lrecs ->
  renderTopMovers v d
  = (Ok tt,
     update LosersBody (fun _ => map (table_row false) lrecs)
       (update GainersBody (fun _ => map (table_row true) grecs) d)).
Proof.
  intros Hg Hl Rg Rl.
  destruct (get_array_shaped v gs ls Hg Hl) as (Hw & Eg & El).
  rewrite renderTopMovers_closed_form.
  unfold movers_result, guarded_rows. rewrite Hw, Eg, El. simpl items.
  rewrite (appended_records true gs grecs Rg).
  rewrite (appended_records false ls lrecs Rl).
  unfold present.
  destruct (find GainersBody d) eqn:Fg; destruct (find LosersBody d) eqn:Fl;
    cbn [fst snd]; f_equal.
  - rewrite !(update_comm LosersBody GainersBody) by discriminate.
    f_equal. now apply update_const_absent.
  - f_equal. now apply update_const_absent.
  - rewrite (update_const_absent GainersBody [] (map (table_row true) grecs)) by assumption.
    rewrite !(update_comm LosersBody GainersBody) by discriminate.
    f_equal. now apply update_const_absent.
Qed.

Lemma render_response_rows v gs ls grs lrs d :
  get v "top_gainers" = Ok (VArr gs) ->
  get v "top_losers" = Ok (VArr ls) ->
  Forall2 raw_of gs grs ->
  Forall2 raw_of ls lrs ->
  render_response v d
  = (Ok tt,
     update BreadthWidget (fun _ => [Parsed (breadth_html "81" "16" "3")])
       (update LosersBody
          (fun _ => map (table_row false) (map normalized_record lrs))
          (update GainersBody
             (fun _ => map (table_row true) (map normalized_record grs)) d))).
Proof.
  intros Hg Hl Rg Rl.
  assert (Hn : nullish v = false)
    by (destruct v; simpl in Hg; try discriminate; reflexivity).
  assert (Ht : truthy v = true)
    by (destruct v; simpl in Hg; try discriminate; reflexivity).
  unfold render_response.
  unfold bindM at 1 2, lift at 1. rewrite (has_movers_value v Hn).
  unfold field. rewrite Ht, Hg, Hl. cbn [isArray andb].
  unfold bindM, lift. cbn [items].
  rewrite (map_result_normalize gs grs Rg).
  rewrite (map_result_normalize ls lrs Rl).
  rewrite (renderTopMovers_records
             (movers (map (fun r => record_value (normalized_record r)) grs)
                (map (fun r => record_value (normalized_record r)) lrs))
             _ _ (map normalized_record grs)
             (map normalized_record lrs) d eq_refl eq_refl
             (Forall2_record_value normalized_record grs)
             (Forall2_record_value normalized_record lrs)).
  now rewrite renderMarketBreadth_mock.
Qed.

(** X10: a response that signals no error and whose [top_gainers] and
    [top_losers] are arrays of entries with string [ticker], [price]
    and [change_percentage] is rendered as one row per entry, in the
    order of the arrays: the row of the entry's normalized record.  The
    widget gets the mock breadth.  Both copies of the script do so, on
    every page; a sink the page lacks is skipped. *)
Theorem fetchMarketData_renders_normalized_rows :
  forall native_text moversData gainers losers grs lrs d,
    truthy (field moversData "Error Message") = false ->
    truthy (field moversData "Note") = false ->
    get moversData "top_gainers" = Ok (VArr gainers) ->
    get moversData "top_losers" = Ok (VArr losers) ->
    Forall2 raw_of gainers grs ->
    Forall2 raw_of losers lrs ->
    let rendered :=
      update BreadthWidget (fun _ => [Parsed (breadth_html "81" "16" "3")])
        (update LosersBody
           (fun _ => map (table_row false) (map normalized_record lrs))
           (update GainersBody
              (fun _ => map (table_row true) (map normalized_record grs)) d)) in
    fetchMarketData native_text (Json moversData) d = (Ok tt, rendered)
    /\ Part000.fetchMarketData native_text (Json moversData) d
       = (Ok tt, rendered).
Proof.
  intros nt v gs ls grs lrs d He Ho Hg Hl Rg Rl rendered.
  assert (Hn : nullish v = false)
    by (destruct v; simpl in Hg; try discriminate; reflexivity).
  destruct (error_or_note_falsy v Hn He Ho) as (signal & Es & Et).
  unfold fetchMarketData, Part000.fetchMarketData, try_catch.
  rewrite try_block_json, part000_try_block_json, Es, Et.
  rewrite (render_response_rows v gs ls grs lrs d Hg Hl Rg Rl).
  split; reflexivity.
Qed.

Lemma fetchMarketData_renders_normalized_rows_witness :
  fetchMarketData sample_text (Json two_movers) full_page
  = (Ok tt,
     update BreadthWidget (fun _ => [Parsed (breadth_html "81" "16" "3")])
       (update LosersBody
          (fun _ => [table_row false
                       {| symbol := "BBB"; price := "3.14"; change := "-2.35" |}])
          (update GainersBody
             (fun _ => [table_row true
                          {| symbol := "AAA"; price := "10.00"; change := "5.50" |}])
             full_page))).
Proof.
  refine (eq_trans
            (proj1 (fetchMarketData_renders_normalized_rows
                      sample_text two_movers
                      [raw_entry "AAA" "10" "5.5%"]
                      [raw_entry "BBB" "3.14159" "-2.345%"]
                      [raw_aaa] [raw_bbb] full_page
                      eq_refl eq_refl eq_refl eq_refl _ _)) _).
  - constructor; [|constructor]. repeat split.
  - constructor; [|constructor]. repeat split.
  - vm_compute. reflexivity.
Defined.

Lemma normalize_without_change_percentage item :
  (forall s, field item "change_percentage" <> VStr s) ->
  exists t, normalize item = Throw t.
Proof.
  intros H. unfold normalize.
  destruct (get item "ticker") as [ticker|t]; [|cbn [bind]; eauto].
  cbn [bind].
  destruct (get item "price") as [price|t]; [|cbn [bind]; eauto].
  cbn [bind].
  destruct (parseFloat price) as [n|t]; [|cbn [bind]; eauto]. cbn [bind].
  unfold field in H.
  destruct (get item "change_percentage") as [c|t]; [|cbn [bind]; eauto].
  cbn [bind].
  destruct c; cbn [call_replace bind]; eauto.
  destruct (H s eq_refl).
Qed.

Lemma map_result_throws {A B} (f : A -> result B) l x :
  In x l -> (exists t, f x = Throw t) -> exists t, map_result f l = Throw t.
Proof.
  intros Hin (t & Hx). induction l as [|y l IH]; [destruct Hin|].
  cbn [map_result]. destruct Hin as [->|Hin].
  - rewrite Hx. cbn [bind]. eauto.
  - destruct (f y); cbn [bind]; [|eauto].
    destruct (IH Hin) as (t' & ->). cbn [bind]. eauto.
Qed.

Lemma render_response_bad_entry v gs ls item d :
  get v "top_gainers" = Ok (VArr gs) ->
  get v "top_losers" = Ok (VArr ls) ->
  In item (gs ++ ls)%list ->
  (forall s, field item "change_percentage" <> VStr s) ->
  exists t, render_response v d = (Throw t, d).
Proof.
  intros Hg Hl Hin Hbad.
  assert (Hn : nullish v = false)
    by (destruct v; simpl in Hg; try discriminate; reflexivity).
  assert (Ht : truthy v = true)
    by (destruct v; simpl in Hg; try discriminate; reflexivity).
  pose proof (normalize_without_change_percentage item Hbad) as Hthrows.
  unfold render_response.
  unfold bindM at 1 2, lift at 1. rewrite (has_movers_value v Hn).
  unfold field. rewrite Ht, Hg, Hl. cbn [isArray andb].
  unfold bindM, lift. cbn [items].
  destruct (map_result normalize gs) as [gd|t] eqn:Eg; [|eauto].
  apply in_app_or in Hin as [Hin|Hin].
  - destruct (map_result_throws normalize gs item Hin Hthrows) as (t & E).
    congruence.
  - destruct (map_result_throws normalize ls item Hin Hthrows) as (t & ->).
    cbn [bind]. eauto.
Qed.

(** X11: one entry of [top_gainers] or [top_losers] whose
    [change_percentage] is not a string (it is missing, a number, or the
    entry itself is [null]) makes the whole call fail: no row is
    rendered, not for the good entries either, and all three sinks show
    the message of the error.  Both copies of the script do so. *)
Theorem bad_entry_fails_the_fetch :
  forall native_text moversData gainers losers item d,
    truthy (field moversData "Error Message") = false ->
    truthy (field moversData "Note") = false ->
    get moversData "top_gainers" = Ok (VArr gainers) ->
    get moversData "top_losers" = Ok (VArr losers) ->
    In item (gainers ++ losers)%list ->
    (forall s, field item "change_percentage" <> VStr s) ->
    exists t,
      fetchMarketData native_text (Json moversData) d
      = (Ok tt, shows_error (message_of native_text t) d)
      /\ Part000.fetchMarketData native_text (Json moversData) d
         = (Ok tt,
            part000_shows_error (Part000.shown_message native_text t) d).
Proof.
  intros nt v gs ls item d He Ho Hg Hl Hin Hbad.
  assert (Hn : nullish v = false)
    by (destruct v; simpl in Hg; try discriminate; reflexivity).
  destruct (error_or_note_falsy v Hn He Ho) as (signal & Es & Et).
  destruct (render_response_bad_entry v gs ls item d Hg Hl Hin Hbad)
    as (t & Er).
  exists t.
  unfold fetchMarketData, Part000.fetchMarketData, try_catch.
  rewrite try_block_json, part000_try_block_json, Es, Et, Er.
  now rewrite catch_block_shows, part000_catch_block_shows.
Qed.

Lemma bad_entry_fails_the_fetch_witness :
  exists t,
    fetchMarketData sample_text (Json one_bad_loser) full_page
    = (Ok tt, shows_error (message_of sample_text t) full_page)
    /\ Part000.fetchMarketData sample_text (Json one_bad_loser) full_page
       = (Ok tt,
          part000_shows_error (Part000.shown_message sample_text t)
            full_page).
Proof.
  refine (bad_entry_fails_the_fetch sample_text one_bad_loser
            [raw_entry "AAA" "10" "5.5%"]
            [raw_entry "BBB" "3.14159" "-2.345%";
             VObj [("ticker", VStr "CCC"); ("price", VStr "7")]]
            (VObj [("ticker", VStr "CCC"); ("price", VStr "7")])
            full_page eq_refl eq_refl eq_refl eq_refl _ _).
  - simpl. auto.
  - intros s H. discriminate H.
Defined.

(** X12: when the request or the reading of its body is rejected with
    a message, [fetchMarketData] returns normally and the three sinks
    show that message; the copy under [src/unnamed/part_000] shows
    ['Failed to load data.'] in its place when the message is empty. *)
Theorem network_failure_is_shown :
  forall native_text net message d,
    net = FetchRejected message \/ net = JsonRejected message ->
    fetchMarketData native_text net d = (Ok tt, shows_error message d)
    /\ Part000.fetchMarketData native_text net d
       = (Ok tt,
          part000_shows_error
            (if String.eqb message "" then "Failed to load data." else message)
            d).
Proof.
  intros nt net message d [-> | ->];
    unfold fetchMarketData, Part000.fetchMarketData, try_catch;
    (split;
     [ change (try_block (FetchRejected message) d) with (@Throw unit (Error message), d);
       change (try_block (JsonRejected message) d) with (@Throw unit (Error message), d);
       cbv beta iota; now rewrite catch_block_shows
     | change (Part000.try_block (FetchRejected message) d)
         with (@Throw unit (Error message), d);
       change (Part000.try_block (JsonRejected message) d)
         with (@Throw unit (Error message), d);
       cbv beta iota; now rewrite part000_catch_block_shows ]).
Qed.

Lemma network_failure_is_shown_witness :
  fetchMarketData sample_text (FetchRejected "Failed to fetch") full_page
  = (Ok tt, shows_error "Failed to fetch" full_page)
  /\ Part000.fetchMarketData sample_text (JsonRejected "") bare_page
     = (Ok tt, part000_shows_error "Failed to load data." bare_page).
Proof.
  split.
  - exact (proj1 (network_failure_is_shown sample_text
                    (FetchRejected "Failed to fetch") "Failed to fetch"
                    full_page (or_introl eq_refl))).
  - exact (proj2 (network_failure_is_shown sample_text
                    (JsonRejected "") "" bare_page (or_intror eq_refl))).
Defined.

(** X13: a truthy [Error Message] decides the outcome alone.  Whatever
    the [Note] says and whatever movers the response carries, no row is
    rendered and the three sinks show the [Error Message] as a string;
    the copy under [src/unnamed/part_000] shows its fixed text. *)
Theorem error_message_takes_precedence :
  forall native_text moversData e message d,
    get moversData "Error Message" = Ok e ->
    truthy e = true ->
    to_string e = Ok message ->
    fetchMarketData native_text (Json moversData) d
    = (Ok tt, shows_error message d)
    /\ Part000.fetchMarketData native_text (Json moversData) d
       = (Ok tt, part000_shows_error Part000.api_error d).
Proof.
  intros nt v e message d He Ht Hs.
  unfold fetchMarketData, Part000.fetchMarketData, try_catch.
  rewrite try_block_json, part000_try_block_json.
  unfold error_or_note. rewrite He. cbn [bind]. rewrite Ht, Ht, Hs.
  now rewrite catch_block_shows, part000_catch_block_shows.
Qed.

Lemma error_message_takes_precedence_witness :
  fetchMarketData sample_text (Json error_with_movers) full_page
  = (Ok tt, shows_error "Invalid API call" full_page)
  /\ Part000.fetchMarketData sample_text (Json error_with_movers) full_page
     = (Ok tt, part000_shows_error Part000.api_error full_page).
Proof.
  exact (error_message_takes_precedence sample_text error_with_movers
           (VStr "Invalid API call") "Invalid API call" full_page
           eq_refl eq_refl eq_refl).
Defined.

Lemma lookup_not_own fields p :
  has_own fields p = false -> lookup fields p = VUndefined.
Proof.
  induction fields as [|[k v] fields IH]; simpl; [reflexivity|].
  destruct (String.eqb k p); simpl; [discriminate|exact IH].
Qed.

(** X14: an entry that has no [ticker] and no [price] of its own, and a
    string as its [change_percentage], is not rejected: it is
    normalized, and its row shows the texts [undefined] and [NaN] where
    the symbol and the price belong. *)
Theorem entry_without_ticker_and_price :
  forall fields change_percentage isGainer,
    has_own fields "ticker" = false ->
    has_own fields "price" = false ->
    lookup fields "change_percentage" = VStr change_percentage ->
    exists item,
      normalize (VObj fields) = Ok item
      /\ createTableRow isGainer item
         = Ok (Element "tr" ""
                 (row_html "undefined" "NaN"
                    (Num.toFixed 2
                       (parse_float (replace_first "%" "" change_percentage)))
                    isGainer)).
Proof.
  intros fields cp b Ht Hp Hc.
  unfold normalize, get.
  rewrite (lookup_not_own fields "ticker" Ht).
  rewrite (lookup_not_own fields "price" Hp), Hc.
  cbn [bind call_replace parseFloat to_string].
  change (Num.toFixed 2 (parse_float "undefined")) with "NaN".
  eexists. split; reflexivity.
Qed.

Lemma entry_without_ticker_and_price_witness :
  exists item,
    normalize (VObj [("change_percentage", VStr "5.5%")]) = Ok item
    /\ createTableRow true item
       = Ok (Element "tr" "" (row_html "undefined" "NaN" "5.50" true)).
Proof.
  exact (entry_without_ticker_and_price
           [("change_percentage", VStr "5.5%")] "5.5%" true
           eq_refl eq_refl eq_refl).
Defined.

(** ** The initial load *)

Lemma mock_insights_are_built hasNews hasBlogs :
  fst (fst (insights_result mockNewsData mockBlogsData hasNews hasBlogs))
  = Ok tt.
Proof. destruct hasNews, hasBlogs; vm_compute; reflexivity. Qed.

Lemma renderMockInsights_returns d : fst (renderMockInsights d) = Ok tt.
Proof.
  unfold renderMockInsights. rewrite renderInsights_closed_form.
  pose proof (mock_insights_are_built (present NewsFeedList d)
                (present BlogsContainer d)) as Hr.
  destruct (insights_result mockNewsData mockBlogsData
              (present NewsFeedList d) (present BlogsContainer d))
    as [[r cn] cb].
  exact Hr.
Qed.

Lemma renderMarketChart_keeps_sinks Chart chartData d s :
  find s (snd (renderMarketChart Chart chartData d)) = find s d.
Proof.
  unfold renderMarketChart, bindM, lift, write.
  destruct (marketChart d) as [charts|]; [|reflexivity].
  destruct (Chart (line_chart chartData) charts); [|reflexivity].
  apply find_with_charts.
Qed.

Lemma fetchMarketData_keeps_chart native_text net d :
  marketChart (snd (fetchMarketData native_text net d)) = marketChart d.
Proof.
  rewrite fetchMarketData_closed_form.
  destruct (fetch_writes native_text net (present GainersBody d)
              (present LosersBody d)) as [[cg cl] cw].
  cbn [snd]. now rewrite !marketChart_update.
Qed.

Lemma fetchMarketData_keeps_insights native_text net d s :
  s = NewsFeedList \/ s = BlogsContainer ->
  find s (snd (fetchMarketData native_text net d)) = find s d.
Proof.
  intros Hs. rewrite fetchMarketData_closed_form.
  destruct (fetch_writes native_text net (present GainersBody d)
              (present LosersBody d)) as [[cg cl] cw].
  cbn [snd]. destruct Hs as [-> | ->]; find_updates; reflexivity.
Qed.

(** The sinks [fetchMarketData] writes depend on the page only through
    the two table bodies and the widget. *)
Lemma fetchMarketData_local native_text net d1 d2 s :
  (forall s',
      s' = GainersBody \/ s' = LosersBody \/ s' = BreadthWidget ->
      find s' d1 = find s' d2) ->
  s = GainersBody \/ s = LosersBody \/ s = BreadthWidget ->
  find s (snd (fetchMarketData native_text net d1))
  = find s (snd (fetchMarketData native_text net d2)).
Proof.
  intros Hd Hs. rewrite !fetchMarketData_closed_form.
  unfold present. rewrite !(Hd GainersBody), !(Hd LosersBody) by auto.
  destruct (fetch_writes native_text net
              match find GainersBody d2 with Some _ => true | None => false end
              match find LosersBody d2 with Some _ => true | None => false end)
    as [[cg cl] cw].
  cbn [snd].
  destruct Hs as [-> | [-> | ->]]; find_updates; now rewrite Hd by auto.
Qed.

Lemma renderInsights_keeps_market newsData blogsData d s :
  s = GainersBody \/ s = LosersBody \/ s = BreadthWidget ->
  find s (snd (renderInsights newsData blogsData d)) = find s d.
Proof.
  intros Hs. rewrite renderInsights_closed_form.
  destruct (insights_result newsData blogsData (present NewsFeedList d)
              (present BlogsContainer d)) as [[r cn] cb].
  cbn [snd]. destruct Hs as [-> | [-> | ->]]; find_updates; reflexivity.
Qed.

Lemma renderInsights_keeps_chart newsData blogsData d :
  marketChart (snd (renderInsights newsData blogsData d)) = marketChart d.
Proof.
  rewrite renderInsights_closed_form.
  destruct (insights_result newsData blogsData (present NewsFeedList d)
              (present BlogsContainer d)) as [[r cn] cb].
  cbn [snd]. now rewrite !marketChart_update.
Qed.

(** What [renderInsights] writes depends on the page only through the
    presence of its two containers. *)
Lemma renderInsights_local newsData blogsData d1 d2 s :
  (forall s', s' = NewsFeedList \/ s' = BlogsContainer ->
              find s' d1 = find s' d2) ->
  s = NewsFeedList \/ s = BlogsContainer ->
  find s (snd (renderInsights newsData blogsData d1))
  = find s (snd (renderInsights newsData blogsData d2)).
Proof.
  intros Hd Hs. rewrite !renderInsights_closed_form.
  unfold present. rewrite !(Hd NewsFeedList), !(Hd BlogsContainer) by auto.
  destruct (insights_result newsData blogsData
              match find NewsFeedList d2 with Some _ => true | None => false end
              match find BlogsContainer d2 with Some _ => true | None => false end)
    as [[r cn] cb].
  cbn [snd].
  destruct Hs as [-> | ->]; find_updates; now rewrite Hd by auto.
Qed.

(** X15: in the initial load the request and the two mock renderings do
    not disturb one another, whatever the charting library does.  The
    two table bodies and the widget always end as [fetchMarketData]
    alone would leave them.  The load ends as [renderMockChartData]
    ends, and the canvas is as that call leaves it.  When that call
    returns, the news list and the blogs container are as
    [renderMockInsights] alone would leave them; when [new Chart]
    throws, [renderMockInsights] is not run and they keep what they
    held, while the market data is shown all the same. *)
Theorem initial_load_renders_independently :
  forall Chart native_text net d,
    (forall s,
        s = GainersBody \/ s = LosersBody \/ s = BreadthWidget ->
        find s (snd (Load.initial_load Chart native_text net d))
        = find s (snd (fetchMarketData native_text net d)))
    /\ fst (Load.initial_load Chart native_text net d)
       = fst (renderMockChartData Chart d)
    /\ marketChart (snd (Load.initial_load Chart native_text net d))
       = marketChart (snd (renderMockChartData Chart d))
    /\ (fst (renderMockChartData Chart d) = Ok tt ->
        forall s,
          s = NewsFeedList \/ s = BlogsContainer ->
          find s (snd (Load.initial_load Chart native_text net d))
          = find s (snd (renderMockInsights d)))
    /\ (forall t,
          fst (renderMockChartData Chart d) = Throw t ->
          forall s,
            s = NewsFeedList \/ s = BlogsContainer ->
            find s (snd (Load.initial_load Chart native_text net d))
            = find s d).
Proof.
  intros Chart nt net d.
  unfold Load.initial_load, bindM.
  pose proof (renderMarketChart_keeps_sinks Chart mockChartData d) as Hk.
  fold (renderMockChartData Chart) in Hk.
  destruct (renderMockChartData Chart d) as [[[]|t] d1]; cbn [fst snd] in *.
  - pose proof (renderMockInsights_returns d1) as Hr.
    pose proof (renderInsights_keeps_market mockNewsData mockBlogsData d1) as Hm.
    pose proof (renderInsights_keeps_chart mockNewsData mockBlogsData d1) as Hc.
    pose proof (renderInsights_local mockNewsData mockBlogsData d1 d) as Hl.
    fold renderMockInsights in Hm, Hc, Hl.
    destruct (renderMockInsights d1) as [r d2]. cbn [fst snd] in *. subst r.
    pose proof (fetchMarketData_keeps_chart nt net d2) as Hfc.
    pose proof (fetchMarketData_keeps_insights nt net d2) as Hfi.
    pose proof (fetchMarketData_local nt net d2 d) as Hfl.
    destruct (fetchMarketData nt net d2) as [r3 d3]. cbn [fst snd] in *.
    split; [|split; [|split; [|split]]].
    + intros s Hs.
      apply Hfl; [|exact Hs].
      intros s' Hs'. rewrite (Hm s' Hs'). apply Hk.
    + reflexivity.
    + now rewrite Hfc, Hc.
    + intros _ s Hs. rewrite (Hfi s Hs).
      apply Hl; [|exact Hs]. intros s' _. apply Hk.
    + intros t Ht. discriminate Ht.
  - pose proof (fetchMarketData_keeps_chart nt net d1) as Hfc.
    pose proof (fetchMarketData_keeps_insights nt net d1) as Hfi.
    pose proof (fetchMarketData_local nt net d1 d) as Hfl.
    destruct (fetchMarketData nt net d1) as [r3 d3]. cbn [fst snd] in *.
    split; [|split; [|split; [|split]]].
    + intros s Hs.
      apply Hfl; [|exact Hs].
      intros s' _. apply Hk.
    + reflexivity.
    + exact Hfc.
    + intros Ht. discriminate Ht.
    + intros t' _ s Hs. rewrite (Hfi s Hs). apply Hk.
Qed.

Lemma initial_load_renders_independently_witness :
  (forall s,
      s = NewsFeedList \/ s = BlogsContainer ->
      find s (snd (Load.initial_load (refusing canvas_in_use) sample_text
                     (Json two_movers) full_page))
      = find s (snd (renderMockInsights full_page)))
  /\ (forall s,
        s = NewsFeedList \/ s = BlogsContainer ->
        find s (snd (Load.initial_load
                       (unavailable (Error "Chart is not defined"))
                       sample_text (Json two_movers) full_page))
        = find s full_page)
  /\ find GainersBody
       (snd (Load.initial_load (unavailable (Error "Chart is not defined"))
               sample_text (Json two_movers) full_page))
     = find GainersBody
         (snd (fetchMarketData sample_text (Json two_movers) full_page)).
Proof.
  split; [|split].
  - exact (proj1 (proj2 (proj2 (proj2
             (initial_load_renders_independently (refusing canvas_in_use)
                sample_text (Json two_movers) full_page)))) eq_refl).
  - exact (proj2 (proj2 (proj2 (proj2
             (initial_load_renders_independently
                (unavailable (Error "Chart is not defined"))
                sample_text (Json two_movers) full_page))))
             (Error "Chart is not defined") eq_refl).
  - exact (proj1 (initial_load_renders_independently
                    (unavailable (Error "Chart is not defined"))
                    sample_text (Json two_movers) full_page)
             GainersBody (or_introl eq_refl)).
Defined.

(** ** Where [parseFloat] stops *)

Lemma take_digits_stop s t : forall acc n,
  take_digits (s ++ String "%" t) acc n
  = let '(a, c, r) := take_digits s acc n in (a, c, r ++ String "%" t).
Proof.
  induction s as [|c s IH]; intros acc n; [reflexivity|].
  cbn [append take_digits].
  destruct (is_digit c); [apply IH|reflexivity].
Qed.

Lemma exponent_part_stop s t :
  exponent_part (s ++ String "%" t)
  = let '(e, r) := exponent_part s in (e, r ++ String "%" t).
Proof.
  destruct s as [|c s]; [reflexivity|].
  cbn [append]. unfold exponent_part.
  destruct (Ascii.eqb c "e" || Ascii.eqb c "E"); [|reflexivity].
  destruct s as [|c1 r]; [reflexivity|].
  cbn [append].
  destruct c1 as [[] [] [] [] [] [] [] []]; cbv beta match;
    try match goal with
        | |- context [take_digits (String ?a (r ++ String "%" t))] =>
            change (String a (r ++ String "%" t))
              with (String a r ++ String "%" t)
        end;
    rewrite take_digits_stop;
    match goal with
    | |- context [take_digits ?x 0%N O] =>
        destruct (take_digits x 0%N O) as [[n [|count]] rest]
    end; reflexivity.
Qed.

Lemma prefix_stop p : forall s t,
  contains "%" p = false ->
  prefix p (s ++ String "%" t) = prefix p s.
Proof.
  induction p as [|a p IH]; intros s t Hp; [now destruct s|].
  change (contains "%" (String a p))
    with (prefix "%" (String a p) || contains "%" p) in Hp.
  apply orb_false_elim in Hp as [Ha Hp]. rewrite prefix_percent in Ha.
  destruct s as [|b s]; cbn [append prefix].
  - destruct (ascii_dec a "%") as [->|]; [discriminate Ha|reflexivity].
  - destruct (ascii_dec a b); [now apply IH|reflexivity].
Qed.

Lemma unsigned_decimal_stop neg s t :
  option_map fst (unsigned_decimal neg (s ++ String "%" t))
  = option_map fst (unsigned_decimal neg s).
Proof.
  unfold unsigned_decimal. rewrite prefix_stop by reflexivity.
  destruct (prefix "Infinity" s); [reflexivity|].
  rewrite take_digits_stop.
  destruct (take_digits s 0%N O) as [[i ni] r1].
  destruct r1 as [|c r].
  - cbn [append]. destruct ni; [reflexivity|].
    change (String "%" t) with ("" ++ String "%" t).
    rewrite exponent_part_stop. reflexivity.
  - cbn [append].
    destruct c as [[] [] [] [] [] [] [] []]; cbv beta match;
      try rewrite take_digits_stop;
      try match goal with
          | |- context [take_digits r i O] =>
              destruct (take_digits r i O) as [[m nf] r']
          end;
      destruct ni; try destruct nf; try reflexivity;
      match goal with
      | |- context [exponent_part (?x ++ String "%" t)] =>
          rewrite (exponent_part_stop x t); destruct (exponent_part x);
          reflexivity
      | |- context [exponent_part (String ?c (?x ++ String "%" t))] =>
          change (String c (x ++ String "%" t))
            with (String c x ++ String "%" t);
          rewrite (exponent_part_stop (String c x) t);
          destruct (exponent_part (String c x)); reflexivity
      end.
Qed.

Lemma trim_start_stop s t :
  trim_start (s ++ String "%" t) = trim_start s ++ String "%" t.
Proof.
  induction s as [|c s IH]; [reflexivity|].
  cbn [append trim_start].
  destruct (is_white c); [exact IH|reflexivity].
Qed.

Lemma str_decimal_literal_stop s t :
  option_map fst (str_decimal_literal (s ++ String "%" t))
  = option_map fst (str_decimal_literal s).
Proof.
  destruct s as [|c r].
  - exact (unsigned_decimal_stop false "" t).
  - cbn [append].
    destruct c as [[] [] [] [] [] [] [] []];
      first [ exact (unsigned_decimal_stop true r t)
            | exact (unsigned_decimal_stop false r t)
            | exact (unsigned_decimal_stop false (String _ r) t) ].
Qed.

Lemma parse_float_stop s t : parse_float (s ++ String "%" t) = parse_float s.
Proof.
  unfold parse_float. rewrite trim_start_stop.
  pose proof (str_decimal_literal_stop (trim_start s) t) as H.
  destruct (str_decimal_literal (trim_start s ++ String "%" t)) as [[x r]|];
    destruct (str_decimal_literal (trim_start s)) as [[y r']|];
    simpl in H; congruence.
Qed.

Lemma replace_first_last s :
  contains "%" s = false -> replace_first "%" "" (s ++ "%") = s.
Proof.
  induction s as [|c s IH]; intros H; [reflexivity|].
  change (contains "%" (String c s))
    with (prefix "%" (String c s) || contains "%" s) in H.
  apply orb_false_elim in H as [Hc Hs].
  cbn [append]. unfold replace_first; fold replace_first.
  rewrite prefix_percent in *. rewrite Hc. now rewrite IH.
Qed.

(** X16: [parseFloat] reads nothing from a [%] on, so what it returns
    for a text is what it returns for the part before the first [%].
    For a [change_percentage] that ends in its only [%], removing the
    [%] before parsing therefore changes nothing: the entry's [change]
    is [toFixed(2)] of [parseFloat] of the field as it came. *)
Theorem parseFloat_stops_at_percent :
  forall s t,
    parse_float (s ++ "%" ++ t) = parse_float s
    /\ (contains "%" s = false ->
        parse_float (replace_first "%" "" (s ++ "%")) = parse_float (s ++ "%")
        /\ forall item ticker price,
             get item "ticker" = Ok ticker ->
             get item "price" = Ok (VStr price) ->
             get item "change_percentage" = Ok (VStr (s ++ "%")) ->
             normalize item
             = Ok (VObj [("symbol", ticker);
                         ("price", VStr (Num.toFixed 2 (parse_float price)));
                         ("change",
                          VStr (Num.toFixed 2 (parse_float (s ++ "%"))))])).
Proof.
  intros s t. split; [apply parse_float_stop|].
  intros Hs.
  assert (E : parse_float (replace_first "%" "" (s ++ "%"))
              = parse_float (s ++ "%")).
  { rewrite (replace_first_last s Hs). symmetry. apply (parse_float_stop s ""). }
  split; [exact E|].
  intros item ticker price Ht Hp Hc.
  rewrite (normalize_strings item ticker price _ Ht Hp Hc). now rewrite E.
Qed.

Lemma parseFloat_stops_at_percent_witness :
  parse_float ("5.5" ++ "%" ++ " today") = parse_float "5.5"
  /\ parse_float (replace_first "%" "" ("-2.345" ++ "%"))
     = parse_float ("-2.345" ++ "%")
  /\ normalize (raw_entry "BBB" "3.14159" "-2.345%")
     = Ok (VObj [("symbol", VStr "BBB");
                 ("price", VStr (Num.toFixed 2 (parse_float "3.14159")));
                 ("change",
                  VStr (Num.toFixed 2 (parse_float ("-2.345" ++ "%"))))]).
Proof.
  split; [|split].
  - exact (proj1 (parseFloat_stops_at_percent "5.5" " today")).
  - exact (proj1 (proj2 (parseFloat_stops_at_percent "-2.345" "") eq_refl)).
  - exact (proj2 (proj2 (parseFloat_stops_at_percent "-2.345" "") eq_refl)
             (raw_entry "BBB" "3.14159" "-2.345%") (VStr "BBB") "3.14159"
             eq_refl eq_refl eq_refl).
Defined.
